(** * tts-copilot: a shallow embedding of the TypeScript sources

    The development follows the layout of the repository:
    - [TextProcessor] and [TTSEngine]       (src/tts-engine.ts)
    - [ConfigManager] and [DEFAULT_CONFIG]  (src/config.ts)
    - [CopilotIntegration]                  (src/copilot-integration.ts)
    - [TTSCopilot]                          (src/tts-copilot.ts)

    JavaScript strings are sequences of UTF-16 code units, numbers are
    IEEE 754 binary64 values, objects live in a heap and are handled through
    references, and a method that can throw returns a [completion] together
    with the state it leaves behind. *)

From Stdlib Require Import ZArith NArith List String Ascii Lia Bool.
From Stdlib Require Import Floats.SpecFloat.
From stdpp Require Import base option list gmap.

Local Open Scope N_scope.

(** ** Strings *)

(** A JavaScript string: its UTF-16 code units. *)
Abbreviation jsstring := (list N).

(** The code units of an ASCII literal. *)
Fixpoint str (s : string) : jsstring :=
  match s with
  | EmptyString => []
  | String a r => N_of_ascii a :: str r
  end.

(** [\s]: WhiteSpace and LineTerminator of ECMAScript; [trim] strips the same
    set. *)
Definition is_space (c : N) : bool :=
  ((9 <=? c) && (c <=? 13)) || (c =? 32) || (c =? 160) || (c =? 5760)
  || ((8192 <=? c) && (c <=? 8202)) || (c =? 8232) || (c =? 8233)
  || (c =? 8239) || (c =? 8287) || (c =? 12288) || (c =? 65279).

(** [\w] without the [i] and [u] flags: [A-Za-z0-9_]. *)
Definition is_word (c : N) : bool :=
  ((48 <=? c) && (c <=? 57)) || ((65 <=? c) && (c <=? 90)) || (c =? 95)
  || ((97 <=? c) && (c <=? 122)).

Definition is_backtick (c : N) : bool := c =? 96.

Fixpoint drop_while (p : N -> bool) (s : jsstring) : jsstring :=
  match s with
  | [] => []
  | c :: r => if p c then drop_while p r else s
  end.

(** [String.prototype.trim]. *)
Definition trim (s : jsstring) : jsstring :=
  rev (drop_while is_space (rev (drop_while is_space s))).

(** ** Regular expressions of the text processor

    A pattern is given by its matcher at the head of a string: the length of
    the match that starts at the first code unit, if there is one.  None of
    the patterns of the source matches the empty string. *)
Definition regex := jsstring -> option nat.

(** [s.replace(re, by)] for a global pattern: scan from the left, replace the
    match found at the current position and resume after it ([skip] counts
    the code units of the current match still to be consumed). *)
Fixpoint replace_from (re : regex) (by_ : jsstring) (skip : nat) (s : jsstring)
  : jsstring :=
  match s with
  | [] => []
  | c :: r =>
      match skip with
      | S k => replace_from re by_ k r
      | O =>
          match re s with
          | Some (S k) => by_ ++ replace_from re by_ k r
          | _ => c :: replace_from re by_ O r
          end
      end
  end.

Definition replace (re : regex) (by_ : jsstring) (s : jsstring) : jsstring :=
  replace_from re by_ O s.

(** [s.split(re)]: the pieces between the matches. [cur] is the piece being
    read, in reverse. *)
Fixpoint split_from (re : regex) (cur : jsstring) (skip : nat) (s : jsstring)
  : list jsstring :=
  match s with
  | [] => [rev cur]
  | c :: r =>
      match skip with
      | S k => split_from re cur k r
      | O =>
          match re s with
          | Some (S k) => rev cur :: split_from re [] k r
          | _ => split_from re (c :: cur) O r
          end
      end
  end.

Definition split (re : regex) (s : jsstring) : list jsstring :=
  split_from re [] O s.

(** Length of the shortest prefix of [s] that ends with three backticks. *)
Fixpoint fence_close (s : jsstring) : option nat :=
  match s with
  | [] => None
  | c :: r =>
      match s with
      | a :: b :: d :: _ =>
          if is_backtick a && is_backtick b && is_backtick d then Some 3%nat
          else option_map S (fence_close r)
      | _ => None
      end
  end.

(** [/```[\s\S]*?```/]: an opening fence, then lazily anything up to the
    first closing fence. *)
Definition re_code_block : regex := fun s =>
  match s with
  | a :: b :: d :: r =>
      if is_backtick a && is_backtick b && is_backtick d
      then option_map (fun n => (3 + n)%nat) (fence_close r)
      else None
  | _ => None
  end.

(** Length of the shortest prefix of [s] that ends with a backtick. *)
Fixpoint backtick_close (s : jsstring) : option nat :=
  match s with
  | [] => None
  | c :: r => if is_backtick c then Some 1%nat else option_map S (backtick_close r)
  end.

(** [/`[^`]*`/]: a backtick, code units other than a backtick, a backtick. *)
Definition re_inline_code : regex := fun s =>
  match s with
  | c :: r => if is_backtick c then option_map S (backtick_close r) else None
  | [] => None
  end.

Fixpoint space_run (s : jsstring) : nat :=
  match s with
  | [] => O
  | c :: r => if is_space c then S (space_run r) else O
  end.

(** [/\s+/]: a maximal run of white space. *)
Definition re_spaces : regex := fun s =>
  match space_run s with
  | O => None
  | n => Some n
  end.

(** The characters the class [[^\w\s.,!?;:()-]] excludes. *)
Definition is_plain (c : N) : bool :=
  is_word c || is_space c || (c =? 46) || (c =? 44) || (c =? 33) || (c =? 63)
  || (c =? 59) || (c =? 58) || (c =? 40) || (c =? 41) || (c =? 45).

(** [/[^\w\s.,!?;:()-]/]. *)
Definition re_special : regex := fun s =>
  match s with
  | c :: _ => if is_plain c then None else Some 1%nat
  | [] => None
  end.

(** ** TextProcessor (src/tts-engine.ts) *)
Module TextProcessor.

Definition parseText (rawText : jsstring) : jsstring :=
  match rawText with
  | [] => []
  | _ =>
      let cleanText := replace re_code_block [] rawText in
      let cleanText := replace re_inline_code [] cleanText in
      let cleanText := trim (replace re_spaces [32] cleanText) in
      let cleanText := replace re_special [] cleanText in
      cleanText
  end.

Definition isValidForTTS (text : jsstring) : bool :=
  match text with
  | [] => false
  | _ =>
      if (length (trim text) =? 0)%nat then false
      else if (1000 <? length text)%nat then false
      else
        let words :=
          filter (fun word => (0 <? length word)%nat = true)
                 (split re_spaces text) in
        (0 <? length words)%nat
  end.

End TextProcessor.

(** Texts with no white space at either end and no two in a row. *)
Definition starts_space (s : jsstring) : bool :=
  match s with
  | c :: _ => is_space c
  | [] => false
  end.

Fixpoint spaced (s : jsstring) : bool :=
  match s with
  | c :: r =>
      match r with
      | d :: _ => negb (is_space c && is_space d) && spaced r
      | [] => true
      end
  | [] => true
  end.

Definition tidy (s : jsstring) : bool :=
  negb (starts_space s) && negb (starts_space (rev s)) && spaced s.

(** The texts [parseText] returns are made of the characters it keeps, and
    their only white space is the space character. *)
Definition plain (c : N) : Prop :=
  is_plain c = true /\ (is_space c = true -> c = 32).

Local Close Scope N_scope.

(** ** Numbers

    A JavaScript number is an IEEE 754 binary64 value. *)
Abbreviation number := spec_float.

Definition prec : Z := 53.
Definition emax : Z := 1024.

Definition of_Z (n : Z) : number := binary_normalize prec emax n 0 false.

(** A decimal literal [n/d] denotes the binary64 value nearest to it, which
    is what the correctly rounded division of the two integers gives. *)
Definition decimal (n d : Z) : number := SFdiv prec emax (of_Z n) (of_Z d).

(** [x < y] on numbers: false when either side is NaN. [x > y] is
    [less_than y x]. *)
Definition less_than (x y : number) : bool := SFltb x y.

Definition NaN : number := S754_nan.

(** [ToNumber] of a value that is a number or [undefined]. *)
Definition to_number (x : option number) : number :=
  match x with
  | Some n => n
  | None => NaN
  end.

(** [ToBoolean] of a number: zero and NaN are falsy. *)
Definition number_truthy (x : number) : bool :=
  match x with
  | S754_zero _ | S754_nan => false
  | _ => true
  end.

(** [Math.round]: the integer nearest to [x], ties towards +Infinity. *)
Definition Math_round (x : number) : number :=
  match x with
  | S754_finite s m e =>
      if (0 <=? e)%Z then x
      else
        let n := ((cond_Zopp s (Zpos m) * 2 + 2 ^ (- e)) / 2 ^ (1 - e))%Z in
        if (n =? 0)%Z then S754_zero s else of_Z n
  | _ => x
  end.

(** ** Exceptions and completions *)

Inductive exn : Type :=
| Error (message : jsstring)
| TypeError (message : jsstring).

Definition message (e : exn) : jsstring :=
  match e with
  | Error m => m
  | TypeError m => m
  end.

(** How a call ends: it returns a value or throws. *)
Inductive completion (A : Type) : Type :=
| Normal (a : A)
| Throw (e : exn).
Arguments Normal {A} a.
Arguments Throw {A} e.

(** A method over a state [S]: the state it leaves behind is kept when it
    throws, as the assignments made before a [throw] are. *)
Definition method (S A : Type) : Type := S -> completion A * S.

Definition ret {S A : Type} (a : A) : method S A := fun s => (Normal a, s).

Definition throw {S A : Type} (e : exn) : method S A := fun s => (Throw e, s).

Definition bind {S A B : Type} (m : method S A) (k : A -> method S B)
  : method S B :=
  fun s =>
    match m s with
    | (Normal a, s') => k a s'
    | (Throw e, s') => (Throw e, s')
    end.

(** [try { m } catch (error) { handler error }]. *)
Definition try_catch {S A : Type} (m : method S A) (handler : exn -> method S A)
  : method S A :=
  fun s =>
    match m s with
    | (Normal a, s') => (Normal a, s')
    | (Throw e, s') => handler e s'
    end.

Definition gets {S A : Type} (f : S -> A) : method S A := fun s => (Normal (f s), s).

Definition modify {S : Type} (f : S -> S) : method S unit := fun s => (Normal tt, f s).

(** A step that cannot throw, as a method. *)
Definition lift {S A : Type} (f : S -> A * S) : method S A :=
  fun s => let (a, s') := f s in (Normal a, s').

(** Run a method of a component inside the state that holds the component. *)
Definition zoom {S T A : Type} (get : S -> T) (set : T -> S -> S)
  (m : method T A) : method S A :=
  fun s => let (c, t') := m (get s) in (c, set t' s).

Declare Scope method_scope.
Delimit Scope method_scope with method.
Notation "'do' x <- m ; k" := (bind m (fun x => k))
  (at level 10, x name, m at level 100, k at level 200) : method_scope.
Notation "'run' m ; k" := (bind m (fun _ => k))
  (at level 10, m at level 100, k at level 200) : method_scope.

(** What the caller of an [async] function holds once the function has run
    up to its first suspension: a promise that is already settled, or one
    that waits for an event of the environment. *)
Inductive promise (A : Type) : Type :=
| Settled (c : completion A)
| Pending.
Arguments Settled {A} c.
Arguments Pending {A}.

(** ** Objects

    An own property of an object: missing, present with the value
    [undefined], or present with a value. *)
Inductive prop (A : Type) : Type :=
| Absent
| Undefined
| Present (a : A).
Arguments Absent {A}.
Arguments Undefined {A}.
Arguments Present {A} a.

(** [o.p]: [None] stands for [undefined]. *)
Definition read {A : Type} (p : prop A) : option A :=
  match p with
  | Present a => Some a
  | _ => None
  end.

(** The property of [{...a, ...b}], from the one of [a] and the one of [b]. *)
Definition over {A : Type} (a b : prop A) : prop A :=
  match b with
  | Absent => a
  | _ => b
  end.

(** [ToBoolean] of a boolean or [undefined]. *)
Definition truthy (b : option bool) : bool :=
  match b with
  | Some true => true
  | _ => false
  end.

(** References to heap objects. *)
Abbreviation loc := positive.

(** ** Configuration (src/config.ts) *)

(** [interface VoiceConfig]. A record holds the own properties of one
    object; a [Partial<VoiceConfig>] is a record with absent properties. *)
Module VoiceConfig.
Record t : Type := mk {
  pitch : prop number;
  speed : prop number;
  volume : prop number;
  voice : prop jsstring
}.

Definition empty : t := mk Absent Absent Absent Absent.

(** [{...a, ...b}] *)
Definition spread (a b : t) : t :=
  mk (over (pitch a) (pitch b)) (over (speed a) (speed b))
     (over (volume a) (volume b)) (over (voice a) (voice b)).
End VoiceConfig.

(** [TTSCopilotConfig['copilot']]. *)
Module CopilotConfig.
Record t : Type := mk {
  apiUrl : prop jsstring;
  apiKey : prop jsstring;
  enabled : prop bool
}.

Definition empty : t := mk Absent Absent Absent.

Definition spread (a b : t) : t :=
  mk (over (apiUrl a) (apiUrl b)) (over (apiKey a) (apiKey b))
     (over (enabled a) (enabled b)).
End CopilotConfig.

(** [interface TTSCopilotConfig]: [voice] and [copilot] hold references. *)
Module TTSCopilotConfig.
Record t : Type := mk {
  voice : prop loc;
  realTimeEnabled : prop bool;
  copilot : prop loc
}.

Definition empty : t := mk Absent Absent Absent.

Definition spread (a b : t) : t :=
  mk (over (voice a) (voice b)) (over (realTimeEnabled a) (realTimeEnabled b))
     (over (copilot a) (copilot b)).
End TTSCopilotConfig.

(** The heap: the objects of each interface, by reference. *)
Record heap : Type := mkHeap {
  voices : gmap loc VoiceConfig.t;
  copilots : gmap loc CopilotConfig.t;
  configs : gmap loc TTSCopilotConfig.t
}.

(** The own properties a spread [{...v}] copies: those of the object [v]
    refers to, none when [v] is [undefined]. *)
Definition voice_of (h : heap) (v : option loc) : VoiceConfig.t :=
  match v with
  | Some l => default VoiceConfig.empty (voices h !! l)
  | None => VoiceConfig.empty
  end.

Definition copilot_of (h : heap) (v : option loc) : CopilotConfig.t :=
  match v with
  | Some l => default CopilotConfig.empty (copilots h !! l)
  | None => CopilotConfig.empty
  end.

Definition config_of (h : heap) (v : option loc) : TTSCopilotConfig.t :=
  match v with
  | Some l => default TTSCopilotConfig.empty (configs h !! l)
  | None => TTSCopilotConfig.empty
  end.

(** Object literals and spreads create a new object. *)
Definition new_voice (v : VoiceConfig.t) (h : heap) : loc * heap :=
  let l := fresh (dom (voices h)) in
  (l, mkHeap (<[l := v]> (voices h)) (copilots h) (configs h)).

Definition new_copilot (c : CopilotConfig.t) (h : heap) : loc * heap :=
  let l := fresh (dom (copilots h)) in
  (l, mkHeap (voices h) (<[l := c]> (copilots h)) (configs h)).

Definition new_config (c : TTSCopilotConfig.t) (h : heap) : loc * heap :=
  let l := fresh (dom (configs h)) in
  (l, mkHeap (voices h) (copilots h) (<[l := c]> (configs h))).

(** Assignments [o.p = x]. *)
Definition set_voice (l : loc) (f : VoiceConfig.t -> VoiceConfig.t)
  : method heap unit :=
  modify (fun h =>
    mkHeap (<[l := f (voice_of h (Some l))]> (voices h)) (copilots h) (configs h)).

Definition set_config (l : loc) (f : TTSCopilotConfig.t -> TTSCopilotConfig.t)
  : method heap unit :=
  modify (fun h =>
    mkHeap (voices h) (copilots h) (<[l := f (config_of h (Some l))]> (configs h))).

(** [DEFAULT_CONFIG] and its two nested objects, created when the module is
    loaded. The objects of each interface have addresses of their own. *)
Definition DEFAULT_CONFIG : loc := 1%positive.
Definition DEFAULT_CONFIG_voice : loc := 1%positive.
Definition DEFAULT_CONFIG_copilot : loc := 1%positive.

Definition module_heap : heap :=
  mkHeap
    {[ DEFAULT_CONFIG_voice :=
         VoiceConfig.mk (Present (of_Z 1)) (Present (of_Z 1)) (Present (of_Z 1))
                        Absent ]}
    {[ DEFAULT_CONFIG_copilot :=
         CopilotConfig.mk Absent Absent (Present false) ]}
    {[ DEFAULT_CONFIG :=
         TTSCopilotConfig.mk (Present DEFAULT_CONFIG_voice) (Present true)
                             (Present DEFAULT_CONFIG_copilot) ]}.

Local Open Scope method_scope.

Module ConfigManager.

(** The instance: its private field [config]. *)
Record t : Type := mk { config : loc }.

(** [constructor(initialConfig?)]:
    [this.config = { ...DEFAULT_CONFIG, ...initialConfig }]. *)
Definition constructor (initialConfig : option loc) (h : heap) : t * heap :=
  let defaults := config_of h (Some DEFAULT_CONFIG) in
  let initial := config_of h initialConfig in
  let (l, h') := new_config (TTSCopilotConfig.spread defaults initial) h in
  (mk l, h').

(** [getConfig()]: [return { ...this.config }]. *)
Definition getConfig (this : t) (h : heap) : loc * heap :=
  new_config (config_of h (Some (config this))) h.

(** [validateVoiceConfig()]. *)
Definition validateVoiceConfig (this : t) : method heap unit :=
  do c <- gets (fun h => config_of h (Some (config this)));
  match read (TTSCopilotConfig.voice c) with
  | None =>
      throw (TypeError (str "Cannot destructure 'this.config.voice' as it is undefined."))
  | Some lv =>
      do v <- gets (fun h => voice_of h (Some lv));
      let pitch := to_number (read (VoiceConfig.pitch v)) in
      let speed := to_number (read (VoiceConfig.speed v)) in
      let volume := to_number (read (VoiceConfig.volume v)) in
      if less_than pitch (of_Z 0) || less_than (of_Z 2) pitch then
        throw (Error (str "Pitch must be between 0.0 and 2.0"))
      else if less_than speed (decimal 1 10) || less_than (of_Z 10) speed then
        throw (Error (str "Speed must be between 0.1 and 10.0"))
      else if less_than volume (of_Z 0) || less_than (of_Z 1) volume then
        throw (Error (str "Volume must be between 0.0 and 1.0"))
      else ret tt
  end.

(** [updateVoiceConfig(voiceConfig)]:
    [this.config.voice = { ...this.config.voice, ...voiceConfig };
     this.validateVoiceConfig();] *)
Definition updateVoiceConfig (this : t) (voiceConfig : loc) : method heap unit :=
  do c <- gets (fun h => config_of h (Some (config this)));
  do current <- gets (fun h => voice_of h (read (TTSCopilotConfig.voice c)));
  do update <- gets (fun h => voice_of h (Some voiceConfig));
  do lv <- lift (new_voice (VoiceConfig.spread current update));
  run set_config (config this)
        (fun c => TTSCopilotConfig.mk (Present lv)
                    (TTSCopilotConfig.realTimeEnabled c)
                    (TTSCopilotConfig.copilot c));
  validateVoiceConfig this.

(** [updateCopilotConfig(copilotConfig)]. *)
Definition updateCopilotConfig (this : t) (copilotConfig : loc)
  : method heap unit :=
  do c <- gets (fun h => config_of h (Some (config this)));
  do current <- gets (fun h => copilot_of h (read (TTSCopilotConfig.copilot c)));
  do update <- gets (fun h => copilot_of h (Some copilotConfig));
  do lc <- lift (new_copilot (CopilotConfig.spread current update));
  set_config (config this)
    (fun c => TTSCopilotConfig.mk (TTSCopilotConfig.voice c)
                (TTSCopilotConfig.realTimeEnabled c) (Present lc)).

(** [setRealTimeEnabled(enabled)]. *)
Definition setRealTimeEnabled (this : t) (enabled : bool) : method heap unit :=
  set_config (config this)
    (fun c => TTSCopilotConfig.mk (TTSCopilotConfig.voice c) (Present enabled)
                (TTSCopilotConfig.copilot c)).

End ConfigManager.

(** What a caller sees of the stored voice configuration:
    the properties of [getConfig().voice]. *)
Definition observed_voice (this : ConfigManager.t) (h : heap) : VoiceConfig.t :=
  let (l, h') := ConfigManager.getConfig this h in
  voice_of h' (read (TTSCopilotConfig.voice (config_of h' (Some l)))).

(** A voice configuration with [pitch] outside [0.0, 2.0], [speed] outside
    [0.1, 10.0] or [volume] outside [0.0, 1.0]. *)
Definition out_of_range (v : VoiceConfig.t) : bool :=
  let pitch := to_number (read (VoiceConfig.pitch v)) in
  let speed := to_number (read (VoiceConfig.speed v)) in
  let volume := to_number (read (VoiceConfig.volume v)) in
  (less_than pitch (of_Z 0) || less_than (of_Z 2) pitch)
  || ((less_than speed (decimal 1 10) || less_than (of_Z 10) speed)
      || (less_than volume (of_Z 0) || less_than (of_Z 1) volume)).

(** The heap [updateVoiceConfig] leaves behind: the merged voice object is
    stored before it is validated. *)
Definition after_voice_update (this : ConfigManager.t) (voiceConfig : loc)
  (h : heap) : heap :=
  let c := config_of h (Some (ConfigManager.config this)) in
  let merged :=
    VoiceConfig.spread (voice_of h (read (TTSCopilotConfig.voice c)))
                       (voice_of h (Some voiceConfig)) in
  let lv := fresh (dom (voices h)) in
  mkHeap (<[lv := merged]> (voices h)) (copilots h)
         (<[ConfigManager.config this :=
              TTSCopilotConfig.mk (Present lv) (TTSCopilotConfig.realTimeEnabled c)
                                  (TTSCopilotConfig.copilot c)]> (configs h)).

(** ** The speech backend (the external module 'say', src/types/say.d.ts) *)
Module say.

(** What [say.speak] returns; its declared type is [any]. *)
Inductive value : Type :=
| undefined
| null
| object (id : nat).

Definition truthy (v : value) : bool :=
  match v with
  | object _ => true
  | _ => false
  end.

(** The exchanges with the backend, in the order they happen: the calls it
    receives and the completion callbacks it makes. *)
Inductive event : Type :=
| speak (text : jsstring) (voice : option jsstring) (speed : number)
| stop
| completed (error : option exn).

(** The backend is not part of the repository: how its functions answer,
    given the exchanges so far (the current call included). *)
Record behaviour : Type := mk {
  speak_returns : list event -> completion value;
  stop_returns : list event -> completion unit
}.

(** The number of utterances that were dispatched and have not completed. *)
Definition unresolved (log : list event) : nat :=
  fold_left
    (fun n e =>
       match e with
       | speak _ _ _ => S n
       | stop => n
       | completed _ => pred n
       end)
    log O.

End say.

(** ** TTSEngine (src/tts-engine.ts) *)
Module TTSEngine.

(** The instance. [voiceConfig] is a private copy that no caller ever
    holds, so it is kept by value. *)
Record t : Type := mk {
  voiceConfig : VoiceConfig.t;
  currentProcess : say.value
}.

(** The engine together with the log of its exchanges with the backend. *)
Record world : Type := mkWorld {
  this : t;
  log : list say.event
}.

Definition set_currentProcess (v : say.value) : method world unit :=
  modify (fun w => mkWorld (mk (voiceConfig (this w)) v) (log w)).

(** [constructor(initialConfig)]: [this.voiceConfig = { ...initialConfig }]. *)
Definition constructor (initialConfig : VoiceConfig.t) : t :=
  mk initialConfig say.null.

Section Backend.
Context (backend : say.behaviour).

Definition say_speak (text : jsstring) (voice : option jsstring)
  (speed : number) : method world say.value := fun w =>
  let log := log w ++ [say.speak text voice speed] in
  (say.speak_returns backend log, mkWorld (this w) log).

Definition say_stop : method world unit := fun w =>
  let log := log w ++ [say.stop] in
  (say.stop_returns backend log, mkWorld (this w) log).

(** [stop()]. *)
Definition stop : method world unit :=
  do current <- gets (fun w => currentProcess (this w));
  if say.truthy current then
    try_catch
      (run say_stop; set_currentProcess say.null)
      (fun _ => ret tt)
  else ret tt.

(** [speak(text)] up to the point where it returns its promise. The
    promise stays pending until the backend calls [speak_callback]. *)
Definition speak (text : jsstring) : method world (promise unit) :=
  match text with
  | [] => ret (Settled (Normal tt))
  | _ =>
      if (length (trim text) =? 0)%nat then ret (Settled (Normal tt))
      else
        run stop;
        do config <- gets (fun w => voiceConfig (this w));
        let voice :=
          match read (VoiceConfig.voice config) with
          | Some (c :: v) => Some (c :: v)
          | _ => None
          end in
        let speed :=
          Math_round (SFmul prec emax
                        (to_number (read (VoiceConfig.speed config)))
                        (of_Z 200)) in
        let speed := if number_truthy speed then speed else of_Z 1 in
        try_catch
          (do process <- say_speak text voice speed;
           run set_currentProcess process;
           ret Pending)
          (fun error =>
             ret (Settled (Throw (Error (str "TTS Error: " ++ message error)))))
  end.

End Backend.

(** The completion callback handed to [say.speak]: it clears
    [currentProcess] and settles the promise of its [speak]. *)
Definition speak_callback (error : option exn) : method world (completion unit) :=
  run modify (fun w => mkWorld (this w) (log w ++ [say.completed error]));
  run set_currentProcess say.null;
  match error with
  | Some e => ret (Throw (Error (str "TTS Error: " ++ message e)))
  | None => ret (Normal tt)
  end.

(** [setVoiceConfig(config)]: [this.voiceConfig = { ...config }]. *)
Definition setVoiceConfig (config : VoiceConfig.t) : method world unit :=
  modify (fun w => mkWorld (mk config (currentProcess (this w))) (log w)).

(** [getVoiceConfig()]. *)
Definition getVoiceConfig : method world VoiceConfig.t :=
  gets (fun w => voiceConfig (this w)).

End TTSEngine.

(** ** CopilotIntegration (src/copilot-integration.ts) *)
Module CopilotSuggestion.
Record context_t : Type := mkContext {
  fileName : jsstring;
  lineNumber : number;
  columnNumber : number
}.

Record t : Type := mk {
  text : jsstring;
  confidence : number;
  language : option jsstring;
  context : option context_t
}.
End CopilotSuggestion.

Module CopilotIntegration.

(** A listener is a function object, known by its identity. *)
Abbreviation listener := nat.

Record t : Type := mk {
  config : CopilotConfig.t;
  connected : bool;
  listening : bool;
  suggestionListeners : list listener
}.

Definition constructor : t :=
  mk (CopilotConfig.mk Absent Absent (Present false)) false false [].

Definition set_connected (b : bool) : method t unit :=
  modify (fun i => mk (config i) b (listening i) (suggestionListeners i)).

Definition set_listening (b : bool) : method t unit :=
  modify (fun i => mk (config i) (connected i) b (suggestionListeners i)).

(** [initialize(config)] up to [await this.connectToCopilotAPI()]. *)
Definition initialize (config : CopilotConfig.t) : method t (promise unit) :=
  run modify (fun i =>
        mk config (connected i) (listening i) (suggestionListeners i));
  do enabled <- gets (fun i =>
    truthy (read (CopilotConfig.enabled (CopilotIntegration.config i))));
  if negb enabled then
    run set_connected false;
    ret (Settled (Normal tt))
  else ret Pending.

(** [initialize] after the [await]; [connectToCopilotAPI] is a timer that
    always resolves, the [catch] branch is kept as written. *)
Definition initialize_resume (outcome : completion unit)
  : method t (completion unit) :=
  match outcome with
  | Normal _ => run set_connected true; ret (Normal tt)
  | Throw error =>
      run set_connected false;
      ret (Throw (Error (str "Failed to initialize Copilot integration: "
                         ++ message error)))
  end.

(** [simulateSuggestionStream()] arms a timer, whose callback is
    [on_timeout] below; the timer itself belongs to the environment. *)
Definition simulateSuggestionStream : method t unit := ret tt.

(** [startListening()]. *)
Definition startListening : method t unit :=
  do connected <- gets connected;
  if negb connected then
    throw (Error (str "Copilot integration not initialized"))
  else
    run set_listening true;
    simulateSuggestionStream.

(** [stopListening()]. *)
Definition stopListening : method t unit := set_listening false.

(** [isConnected()]. *)
Definition isConnected : method t bool := gets connected.

(** [onSuggestion(listener)]: [push]. *)
Definition onSuggestion (l : listener) : method t unit :=
  modify (fun i => mk (config i) (connected i) (listening i)
                      (suggestionListeners i ++ [l])).

(** [splice(index, 1)] at the index [indexOf] finds. *)
Fixpoint remove_first (l : listener) (ls : list listener) : list listener :=
  match ls with
  | [] => []
  | x :: r => if Nat.eqb x l then r else x :: remove_first l r
  end.

(** [removeSuggestionListener(listener)]. *)
Definition removeSuggestionListener (l : listener) : method t unit :=
  modify (fun i => mk (config i) (connected i) (listening i)
                      (remove_first l (suggestionListeners i))).

(** The suggestion the simulated stream delivers. *)
Definition simulated : CopilotSuggestion.t :=
  CopilotSuggestion.mk
    (str "function calculateSum(a, b) { return a + b; }")
    (decimal 85 100)
    (Some (str "javascript"))
    (Some (CopilotSuggestion.mkContext (str "example.js") (of_Z 10) (of_Z 1))).

(** Listeners are functions of the callers: they run in a state [W] that
    holds the integration, which they can reach and call back into. *)
Section Listeners.
Context {W : Type} (get : W -> t) (set : t -> W -> W).
Context (call : listener -> CopilotSuggestion.t -> method W unit).

(** [Array.prototype.forEach]: the length is read once, then each index
    below it is visited if it is still present, with the element found
    there at that time. Returns the listeners it called, in order. *)
Fixpoint forEach (n k : nat) (suggestion : CopilotSuggestion.t) (w : W)
  : list listener * W :=
  match n with
  | O => ([], w)
  | S n' =>
      match suggestionListeners (get w) !! k with
      | Some l =>
          let (_, w') := try_catch (call l suggestion) (fun _ => ret tt) w in
          let (called, w'') := forEach n' (S k) suggestion w' in
          (l :: called, w'')
      | None => forEach n' (S k) suggestion w
      end
  end.

(** [notifySuggestionListeners(suggestion)]; the value is the list of
    the listeners that were called. *)
Definition notifySuggestionListeners (suggestion : CopilotSuggestion.t)
  : method W (list listener) := fun w =>
  let (called, w') :=
    forEach (length (suggestionListeners (get w))) 0 suggestion w in
  (Normal called, w').

(** The callback of the timer of [simulateSuggestionStream]. *)
Definition on_timeout : method W (list listener) :=
  do listening <- gets (fun w => listening (get w));
  if listening then
    do called <- notifySuggestionListeners simulated;
    run zoom get set simulateSuggestionStream;
    ret called
  else ret [].

End Listeners.

End CopilotIntegration.

(** ** TTSCopilot (src/tts-copilot.ts) *)
Module TTSCopilot.

(** The instance with what it acts on: the heap and the log of the
    exchanges with the speech backend. [binds] counts the functions that
    [bind] has created, which gives each its identity. *)
Record t : Type := mk {
  objects : heap;
  backend_log : list say.event;
  configManager : ConfigManager.t;
  ttsEngine : TTSEngine.t;
  copilotIntegration : CopilotIntegration.t;
  isRunning : bool;
  binds : nat
}.

Definition set_objects (h : heap) (s : t) : t :=
  mk h (backend_log s) (configManager s) (ttsEngine s)
     (copilotIntegration s) (isRunning s) (binds s).

Definition engine_world (s : t) : TTSEngine.world :=
  TTSEngine.mkWorld (ttsEngine s) (backend_log s).

Definition set_engine_world (w : TTSEngine.world) (s : t) : t :=
  mk (objects s) (TTSEngine.log w) (configManager s) (TTSEngine.this w)
     (copilotIntegration s) (isRunning s) (binds s).

Definition set_copilotIntegration (i : CopilotIntegration.t) (s : t) : t :=
  mk (objects s) (backend_log s) (configManager s) (ttsEngine s) i
     (isRunning s) (binds s).

Definition set_isRunning (b : bool) : method t unit :=
  modify (fun s =>
    mk (objects s) (backend_log s) (configManager s) (ttsEngine s)
       (copilotIntegration s) b (binds s)).

Definition on_heap {A : Type} (m : method heap A) : method t A :=
  zoom objects set_objects m.

Definition on_engine {A : Type} (m : method TTSEngine.world A) : method t A :=
  zoom engine_world set_engine_world m.

Definition on_copilot {A : Type} (m : method CopilotIntegration.t A)
  : method t A :=
  zoom copilotIntegration set_copilotIntegration m.

(** [this.configManager.getConfig()]. *)
Definition configManager_getConfig : method t loc :=
  do manager <- gets configManager;
  on_heap (lift (ConfigManager.getConfig manager)).

(** [config.copilot], which the callers go on to read a property of. *)
Definition config_copilot (config : loc) : method t loc :=
  do c <- gets (fun s => config_of (objects s) (Some config));
  match read (TTSCopilotConfig.copilot c) with
  | Some lc => ret lc
  | None =>
      throw (TypeError (str "Cannot read properties of undefined (reading 'enabled')"))
  end.

(** [config.copilot.enabled], as a condition. *)
Definition config_copilot_enabled (config : loc) : method t bool :=
  do lc <- config_copilot config;
  gets (fun s =>
    truthy (read (CopilotConfig.enabled (copilot_of (objects s) (Some lc))))).

(** [config.realTimeEnabled], as a condition. *)
Definition config_realTimeEnabled (config : loc) : method t bool :=
  gets (fun s =>
    truthy (read (TTSCopilotConfig.realTimeEnabled
                    (config_of (objects s) (Some config))))).

(** [constructor(initialConfig?)], called in the heap [h]: the new
    instance, which holds the heap it goes on in. *)
Definition constructor (initialConfig : option loc) (h : heap) : t :=
  let (manager, h1) := ConfigManager.constructor initialConfig h in
  let (config, h2) := ConfigManager.getConfig manager h1 in
  let voice :=
    voice_of h2 (read (TTSCopilotConfig.voice (config_of h2 (Some config)))) in
  mk h2 [] manager (TTSEngine.constructor voice)
     CopilotIntegration.constructor false 0.

(** [initialize()] up to the [await]. *)
Definition initialize : method t (promise unit) :=
  do config <- configManager_getConfig;
  try_catch
    (do enabled <- config_copilot_enabled config;
     if enabled then
       do lc <- config_copilot config;
       do copilot <- gets (fun s => copilot_of (objects s) (Some lc));
       do awaited <- on_copilot (CopilotIntegration.initialize copilot);
       match awaited with
       | Settled (Throw error) => throw error
       | _ => ret awaited
       end
     else ret (Settled (Normal tt)))
    (fun error =>
       ret (Settled (Throw (Error (str "Failed to initialize TTS Copilot: "
                                   ++ message error))))).

(** [initialize] after the [await], with the outcome of the awaited
    promise. *)
Definition initialize_resume (outcome : completion unit) : completion unit :=
  match outcome with
  | Normal _ => Normal tt
  | Throw error =>
      Throw (Error (str "Failed to initialize TTS Copilot: " ++ message error))
  end.

(** [start()]. It has no [await]: the completion is the settlement of
    the promise it returns. *)
Definition start : method t unit :=
  do running <- gets isRunning;
  if running then ret tt
  else
    do config <- configManager_getConfig;
    run set_isRunning true;
    do enabled <- config_copilot_enabled config;
    do realTime <- config_realTimeEnabled config;
    if enabled && realTime then
      do handler <- gets binds;
      run modify (fun s =>
            mk (objects s) (backend_log s) (configManager s) (ttsEngine s)
               (copilotIntegration s) (isRunning s) (S (binds s)));
      run on_copilot (CopilotIntegration.onSuggestion handler);
      on_copilot CopilotIntegration.startListening
    else ret tt.

(** [getConfig()]. *)
Definition getConfig : method t loc := configManager_getConfig.

(** [updateVoiceConfig(voiceConfig)]. *)
Definition updateVoiceConfig (voiceConfig : loc) : method t unit :=
  do manager <- gets configManager;
  run on_heap (ConfigManager.updateVoiceConfig manager voiceConfig);
  do config <- configManager_getConfig;
  do voice <- gets (fun s =>
    voice_of (objects s)
      (read (TTSCopilotConfig.voice (config_of (objects s) (Some config)))));
  on_engine (TTSEngine.setVoiceConfig voice).

(** [updateCopilotConfig(copilotConfig)] up to the [await]; what an
    [async] function throws is the rejection of its promise. *)
Definition updateCopilotConfig (copilotConfig : loc) : method t (promise unit) :=
  do manager <- gets configManager;
  run on_heap (ConfigManager.updateCopilotConfig manager copilotConfig);
  do config <- configManager_getConfig;
  try_catch
    (do enabled <- config_copilot_enabled config;
     if enabled then
       do lc <- config_copilot config;
       do copilot <- gets (fun s => copilot_of (objects s) (Some lc));
       on_copilot (CopilotIntegration.initialize copilot)
     else ret (Settled (Normal tt)))
    (fun error => ret (Settled (Throw error))).

(** [setRealTimeEnabled(enabled)]. *)
Definition setRealTimeEnabled (enabled : bool) : method t unit :=
  do manager <- gets configManager;
  run on_heap (ConfigManager.setRealTimeEnabled manager enabled);
  do running <- gets isRunning;
  if enabled && running then
    do config <- configManager_getConfig;
    do copilot_enabled <- config_copilot_enabled config;
    if copilot_enabled then on_copilot CopilotIntegration.startListening
    else ret tt
  else on_copilot CopilotIntegration.stopListening.

(** [isCopilotConnected()]. *)
Definition isCopilotConnected : method t bool :=
  on_copilot CopilotIntegration.isConnected.

(** [isServiceRunning()]. *)
Definition isServiceRunning : method t bool := gets isRunning.

(** The methods that reach the speech backend. *)
Section Backend.
Context (backend : say.behaviour).

(** [stop()]. *)
Definition stop : method t unit :=
  do running <- gets isRunning;
  if negb running then ret tt
  else
    run set_isRunning false;
    run on_engine (TTSEngine.stop backend);
    on_copilot CopilotIntegration.stopListening.

(** [speakText(text)] up to the [await]. *)
Definition speakText (text : jsstring) : method t (promise unit) :=
  let processedText := TextProcessor.parseText text in
  if negb (TextProcessor.isValidForTTS processedText) then
    ret (Settled (Throw (Error (str "Text is not suitable for TTS conversion"))))
  else on_engine (TTSEngine.speak backend processedText).

(** [handleCopilotSuggestion(suggestion)] up to the [await]; a rejection
    of the awaited promise is a later event, which the [catch] handles
    as well. *)
Definition handleCopilotSuggestion (suggestion : CopilotSuggestion.t)
  : method t unit :=
  do running <- gets isRunning;
  if negb running then ret tt
  else
    let processedText :=
      TextProcessor.parseText (CopilotSuggestion.text suggestion) in
    try_catch
      (if TextProcessor.isValidForTTS processedText then
         run on_engine (TTSEngine.speak backend processedText);
         ret tt
       else ret tt)
      (fun _ => ret tt).

(** The timer of the suggestion stream fires: every listener of the
    integration is a bound [handleCopilotSuggestion]. *)
Definition on_timeout : method t (list CopilotIntegration.listener) :=
  CopilotIntegration.on_timeout copilotIntegration set_copilotIntegration
    (fun _ => handleCopilotSuggestion).

End Backend.

End TTSCopilot.

(** ** Objects of the examples *)

(** [{ pitch: 2.5 }] *)
Definition pitch_2_5 : VoiceConfig.t :=
  VoiceConfig.mk (Present (decimal 5 2)) Absent Absent Absent.

(** [{ pitch: 5 }] *)
Definition pitch_5 : VoiceConfig.t :=
  VoiceConfig.mk (Present (of_Z 5)) Absent Absent Absent.

(** The assignment [voice.pitch = 5]. *)
Definition assign_pitch_5 (v : VoiceConfig.t) : VoiceConfig.t :=
  VoiceConfig.mk (Present (of_Z 5)) (VoiceConfig.speed v) (VoiceConfig.volume v)
                 (VoiceConfig.voice v).

(** The heap once a caller has written [{ voice: { pitch: 5 } }], and the
    reference to that object. *)
Definition heap_with_initial : loc * heap :=
  let (lv, h) := new_voice pitch_5 module_heap in
  new_config (TTSCopilotConfig.mk (Present lv) Absent Absent) h.

(** [new ConfigManager().updateVoiceConfig(update)]: how the call ends and
    the voice configuration [getConfig] shows afterwards. *)
Definition update_defaults (update : VoiceConfig.t)
  : completion unit * VoiceConfig.t :=
  let (voiceConfig, h) := new_voice update module_heap in
  let (manager, h) := ConfigManager.constructor None h in
  let (outcome, h) := ConfigManager.updateVoiceConfig manager voiceConfig h in
  (outcome, observed_voice manager h).

(** A backend like the mock of the test suite: [say.speak] returns a new
    object and reports completion later, [say.stop] returns. *)
Definition mock_backend : say.behaviour :=
  say.mk (fun log => Normal (say.object (length log))) (fun _ => Normal tt).

(** A backend whose [say.speak] returns nothing, which its declared type
    [any] allows. *)
Definition void_backend : say.behaviour :=
  say.mk (fun _ => Normal say.undefined) (fun _ => Normal tt).

(** A new engine with the default voice, before any call. *)
Definition new_engine : TTSEngine.world :=
  TTSEngine.mkWorld
    (TTSEngine.constructor (voice_of module_heap (Some DEFAULT_CONFIG_voice))) [].

(** The state a call leaves behind. *)
Definition after {S A : Type} (m : method S A) (s : S) : S := snd (m s).

(** Two requests in a row, after which the completion callback of the
    first one runs, as it does when the backend reports the end of an
    utterance that was cancelled; the second utterance is still
    unresolved. Then a third request. *)
Definition two_requests : TTSEngine.world :=
  after (TTSEngine.speak_callback None)
    (after (TTSEngine.speak mock_backend (str "Second"))
       (after (TTSEngine.speak mock_backend (str "First")) new_engine)).

Definition three_requests : TTSEngine.world :=
  after (TTSEngine.speak mock_backend (str "Third")) two_requests.

(** An orchestrator whose integration is connected: it was built with the
    defaults, [updateCopilotConfig({ enabled: true })] was called and the
    connection was made. The heap holds the two objects a caller passes to
    [updateCopilotConfig] in the example: [{ enabled: true }] at [enable]
    and [{ enabled: false }] at [disable]. *)
Definition enable : loc := 2%positive.
Definition disable : loc := 3%positive.

Definition caller_heap : heap :=
  mkHeap (voices module_heap)
    (<[disable := CopilotConfig.mk Absent Absent (Present false)]>
       (<[enable := CopilotConfig.mk Absent Absent (Present true)]>
          (copilots module_heap)))
    (configs module_heap).

Definition connected_app : TTSCopilot.t :=
  after (TTSCopilot.on_copilot (CopilotIntegration.initialize_resume (Normal tt)))
    (after (TTSCopilot.updateCopilotConfig enable)
       (TTSCopilot.constructor None caller_heap)).

(** Listeners like the mock functions of the test suite, which record
    their calls: the world they run in holds the integration and the
    record of the calls, each with the suggestion it was given. *)
Record recording : Type := mkRecording {
  integration : CopilotIntegration.t;
  calls : list (CopilotIntegration.listener * CopilotSuggestion.t)
}.

Definition set_integration (i : CopilotIntegration.t) (w : recording) : recording :=
  mkRecording i (calls w).

Definition on_integration {A : Type} (m : method CopilotIntegration.t A)
  : method recording A :=
  zoom integration set_integration m.

Definition record_call (l : CopilotIntegration.listener)
  (suggestion : CopilotSuggestion.t) : method recording unit :=
  modify (fun w => mkRecording (integration w) (calls w ++ [(l, suggestion)])).

(** Listeners of which [a] unregisters itself when it is called. *)
Definition unregisters (a l : CopilotIntegration.listener)
  (suggestion : CopilotSuggestion.t) : method recording unit :=
  run record_call l suggestion;
  if Nat.eqb l a then
    on_integration (CopilotIntegration.removeSuggestionListener l)
  else ret tt.

(** Listeners of which the one numbered 1 throws and the one numbered 2
    registers a further listener, numbered 3. *)
Definition throws_and_registers (l : CopilotIntegration.listener)
  (suggestion : CopilotSuggestion.t) : method recording unit :=
  run record_call l suggestion;
  if Nat.eqb l 1 then throw (Error (str "listener failed"))
  else if Nat.eqb l 2 then on_integration (CopilotIntegration.onSuggestion 3)
  else ret tt.

(** An integration with the listeners [ls] registered in that order. *)
Definition registered (ls : list CopilotIntegration.listener)
  : CopilotIntegration.t :=
  fold_left (fun i l => after (CopilotIntegration.onSuggestion l) i) ls
            CopilotIntegration.constructor.

(** The world in which the listeners [ls] are registered and none has been
    called. *)
Definition recording_of (ls : list CopilotIntegration.listener) : recording :=
  mkRecording (registered ls) [].

(** The effects of calling the listeners [ls] one after the other; what a
    listener throws is dropped. *)
Definition invoke_all {W : Type}
  (call : CopilotIntegration.listener -> CopilotSuggestion.t -> method W unit)
  (suggestion : CopilotSuggestion.t) (ls : list CopilotIntegration.listener)
  (w : W) : W :=
  fold_left (fun w l => snd (call l suggestion w)) ls w.

(** Methods that leave [isRunning] as it is. *)
Definition keeps_isRunning {A : Type} (m : method TTSCopilot.t A) : Prop :=
  forall s, TTSCopilot.isRunning (snd (m s)) = TTSCopilot.isRunning s.

(** ** Further definitions *)

(** What a caller sees of the rest of the stored configuration: the
    properties of [getConfig().copilot], and [getConfig().realTimeEnabled]. *)
Definition observed_copilot (this : ConfigManager.t) (h : heap) : CopilotConfig.t :=
  let (l, h') := ConfigManager.getConfig this h in
  copilot_of h' (read (TTSCopilotConfig.copilot (config_of h' (Some l)))).

Definition observed_realTimeEnabled (this : ConfigManager.t) (h : heap)
  : option bool :=
  let (l, h') := ConfigManager.getConfig this h in
  read (TTSCopilotConfig.realTimeEnabled (config_of h' (Some l))).

(** [{ pitch: NaN, speed: NaN, volume: NaN }] *)
Definition all_NaN : VoiceConfig.t :=
  VoiceConfig.mk (Present NaN) (Present NaN) (Present NaN) Absent.

(** A store built with the defaults, in a heap where a caller has written
    the object [update]: the reference to that object, the store, the
    heap. *)
Definition store_and (update : VoiceConfig.t) : loc * ConfigManager.t * heap :=
  let (voiceConfig, h) := new_voice update module_heap in
  let (manager, h) := ConfigManager.constructor None h in
  (voiceConfig, manager, h).

(** [store.updateVoiceConfig(update)] on such a store. *)
Definition update_store (update : VoiceConfig.t) : completion unit * heap :=
  let '(voiceConfig, manager, h) := store_and update in
  ConfigManager.updateVoiceConfig manager voiceConfig h.

(** The voice properties seen through the configuration object [l], such
    as one that [getConfig] returned earlier. *)
Definition voice_through (l : loc) (h : heap) : VoiceConfig.t :=
  voice_of h (read (TTSCopilotConfig.voice (config_of h (Some l)))).

(** [plain], as a test. *)
Definition is_plain_text (s : jsstring) : bool :=
  forallb (fun c => is_plain c && (negb (is_space c) || N.eqb c 32)) s.

(** The arguments [speak] passes to [say.speak] under the voice
    configuration [config]: [options.voice || null] and
    [options.speed || 1.0]. *)
Definition voice_argument (config : VoiceConfig.t) : option jsstring :=
  match read (VoiceConfig.voice config) with
  | Some (c :: v) => Some (c :: v)
  | _ => None
  end.

Definition speed_argument (config : VoiceConfig.t) : number :=
  let speed :=
    Math_round (SFmul prec emax
                  (to_number (read (VoiceConfig.speed config)))
                  (of_Z 200)) in
  if number_truthy speed then speed else of_Z 1.

(** The rejection of [speak] for the error [e] of the backend. *)
Definition TTS_Error (e : exn) : exn := Error (str "TTS Error: " ++ message e).

(** A backend whose functions throw. *)
Definition failing_backend : say.behaviour :=
  say.mk (fun _ => Throw (Error (str "no audio device")))
         (fun _ => Throw (Error (str "nothing to stop"))).

(** An engine that holds the handle of an utterance. *)
Definition speaking_engine : TTSEngine.world :=
  after (TTSEngine.speak mock_backend (str "First")) new_engine.

(** The conditions [start] reads off the stored configuration:
    [config.copilot.enabled] and [config.realTimeEnabled]. *)
Definition copilot_enabled (s : TTSCopilot.t) : bool :=
  truthy (read (CopilotConfig.enabled
                  (observed_copilot (TTSCopilot.configManager s)
                                    (TTSCopilot.objects s)))).

Definition realTime_enabled (s : TTSCopilot.t) : bool :=
  truthy (observed_realTimeEnabled (TTSCopilot.configManager s)
                                   (TTSCopilot.objects s)).

(** The listeners registered with the integration of the orchestrator. *)
Definition listeners (s : TTSCopilot.t) : list CopilotIntegration.listener :=
  CopilotIntegration.suggestionListeners (TTSCopilot.copilotIntegration s).

(** [new TTSCopilot({ copilot: { enabled: true } })]: the suggestion
    source is enabled, the integration has not been initialized. *)
Definition enabled_app : TTSCopilot.t :=
  let (lc, h) := new_copilot (CopilotConfig.mk Absent Absent (Present true))
                             module_heap in
  let (initialConfig, h) :=
    new_config (TTSCopilotConfig.mk Absent Absent (Present lc)) h in
  TTSCopilot.constructor (Some initialConfig) h.

(** A new orchestrator with the defaults, in a heap where a caller has
    written the object [update], and the reference to that object. *)
Definition app_and (update : VoiceConfig.t) : loc * TTSCopilot.t :=
  let (voiceConfig, h) := new_voice update module_heap in
  (voiceConfig, TTSCopilot.constructor None h).

(** What the orchestrator's [getConfig().voice] shows. *)
Definition app_voice (s : TTSCopilot.t) : VoiceConfig.t :=
  observed_voice (TTSCopilot.configManager s) (TTSCopilot.objects s).

(** [{ speed: 2 }] *)
Definition speed_2 : VoiceConfig.t :=
  VoiceConfig.mk Absent (Present (of_Z 2)) Absent Absent.

(** What is spoken for the suggestion of the simulated stream. *)
Definition simulated_spoken : jsstring :=
  str "function calculateSum(a, b)  return a  b; ".

(** The heap after [setRealTimeEnabled(enabled)] of the store. *)
Definition after_realTime (this : ConfigManager.t) (enabled : bool) (h : heap)
  : heap :=
  snd (ConfigManager.setRealTimeEnabled this enabled h).

(** [p in o]: the object has the property as an own property, be its
    value [undefined]. *)
Definition supplied {A : Type} (p : prop A) : bool :=
  match p with
  | Absent => false
  | _ => true
  end.

(** The property of [{ ...DEFAULT_CONFIG, ...initialConfig }]: the one of
    the initial configuration where it has one, else the default. *)
Definition initial_or_default {A : Type} (initial defaults : prop A) : prop A :=
  if supplied initial then initial else defaults.

(** The heap once a caller has written [{ realTimeEnabled: false }], and
    the reference to that object. *)
Definition heap_with_realTime_off : loc * heap :=
  new_config (TTSCopilotConfig.mk Absent (Present false) Absent) module_heap.


(** * Properties *)

(** ** Test cases of the repository *)

Example parseText_code_block :
  TextProcessor.parseText (str "Some text ```code block``` more text")
  = str "Some text more text".
Proof. vm_compute. reflexivity. Qed.

Example parseText_inline_code :
  TextProcessor.parseText (str "Use the `console.log()` function here")
  = str "Use the function here".
Proof. vm_compute. reflexivity. Qed.

Example parseText_whitespace :
  TextProcessor.parseText (str "Text   with    excessive     whitespace")
  = str "Text with excessive whitespace".
Proof. vm_compute. reflexivity. Qed.

Example parseText_special :
  TextProcessor.parseText (str "Text with @#$% special & characters*")
  = str "Text with  special  characters".
Proof. vm_compute. reflexivity. Qed.

Example parseText_punctuation :
  TextProcessor.parseText (str "Hello, world! How are you? Fine.")
  = str "Hello, world! How are you? Fine.".
Proof. vm_compute. reflexivity. Qed.

Example isValidForTTS_blank : TextProcessor.isValidForTTS (str "   ") = false.
Proof. vm_compute. reflexivity. Qed.

Example isValidForTTS_code :
  TextProcessor.isValidForTTS (str "function test() { return true; }") = true.
Proof. vm_compute. reflexivity. Qed.

Example parseText_before_speaking :
  TTSCopilot.backend_log
    (after (TTSCopilot.speakText mock_backend
              (str "Code: ```console.log(" ++ [34%N] ++ str "hello" ++ [34%N]
               ++ str ")``` end"))
       (TTSCopilot.constructor None module_heap))
  = [say.speak (str "Code: end") None (of_Z 200)].
Proof. vm_compute. reflexivity. Qed.

Example updateVoiceConfig_in_range :
  update_defaults
    (VoiceConfig.mk (Present (decimal 12 10)) (Present (decimal 15 10)) Absent Absent)
  = (Normal tt,
     VoiceConfig.mk (Present (decimal 12 10)) (Present (decimal 15 10))
                    (Present (of_Z 1)) Absent).
Proof. vm_compute. reflexivity. Qed.

Example updateVoiceConfig_validates :
  fst (update_defaults (VoiceConfig.mk (Present (decimal (-1) 10)) Absent Absent Absent))
  = Throw (Error (str "Pitch must be between 0.0 and 2.0"))
  /\ fst (update_defaults (VoiceConfig.mk (Present (decimal 21 10)) Absent Absent Absent))
     = Throw (Error (str "Pitch must be between 0.0 and 2.0"))
  /\ fst (update_defaults (VoiceConfig.mk Absent (Present (decimal 5 100)) Absent Absent))
     = Throw (Error (str "Speed must be between 0.1 and 10.0"))
  /\ fst (update_defaults (VoiceConfig.mk Absent (Present (decimal 101 10)) Absent Absent))
     = Throw (Error (str "Speed must be between 0.1 and 10.0"))
  /\ fst (update_defaults (VoiceConfig.mk Absent Absent (Present (decimal (-1) 10)) Absent))
     = Throw (Error (str "Volume must be between 0.0 and 1.0"))
  /\ fst (update_defaults (VoiceConfig.mk Absent Absent (Present (decimal 11 10)) Absent))
     = Throw (Error (str "Volume must be between 0.0 and 1.0")).
Proof. vm_compute. repeat split; reflexivity. Qed.

Example speak_with_voice :
  TTSEngine.log
    (after (TTSEngine.speak mock_backend (str "Hello world"))
       (TTSEngine.mkWorld
          (TTSEngine.constructor
             (VoiceConfig.mk (Present (of_Z 1)) (Present (of_Z 1)) (Present (of_Z 1))
                             (Present (str "default"))))
          []))
  = [say.speak (str "Hello world") (Some (str "default")) (of_Z 200)].
Proof. vm_compute. reflexivity. Qed.

Example speak_blank :
  TTSEngine.speak mock_backend [] new_engine = (Normal (Settled (Normal tt)), new_engine)
  /\ TTSEngine.speak mock_backend (str "   ") new_engine
     = (Normal (Settled (Normal tt)), new_engine).
Proof. vm_compute. split; reflexivity. Qed.

Example speak_stops_before_second :
  TTSEngine.log
    (after (TTSEngine.speak mock_backend (str "Second text"))
       (after (TTSEngine.speak mock_backend (str "First text")) new_engine))
  = [say.speak (str "First text") None (of_Z 200);
     say.stop;
     say.speak (str "Second text") None (of_Z 200)].
Proof. vm_compute. reflexivity. Qed.

Example speak_callback_error :
  fst (TTSEngine.speak_callback (Some (Error (str "TTS failed"))) new_engine)
  = Normal (Throw (Error (str "TTS Error: TTS failed"))).
Proof. vm_compute. reflexivity. Qed.

Example startListening_not_connected :
  fst (CopilotIntegration.startListening CopilotIntegration.constructor)
  = Throw (Error (str "Copilot integration not initialized")).
Proof. vm_compute. reflexivity. Qed.

(** ** White space, [trim] and [split] *)

Lemma drop_while_nil_iff (p : N -> bool) (s : jsstring) :
  drop_while p s = [] <-> forallb p s = true.
Proof.
  induction s as [|c r IH]; simpl; [tauto|].
  destruct (p c); simpl; [exact IH|]. split; discriminate.
Qed.

Lemma forallb_rev (p : N -> bool) (s : jsstring) :
  forallb p (rev s) = forallb p s.
Proof.
  induction s as [|c r IH]; simpl; [reflexivity|].
  rewrite forallb_app, IH. simpl. rewrite andb_true_r. apply andb_comm.
Qed.

Lemma drop_while_head (p : N -> bool) (s : jsstring) (c : N) (r : jsstring) :
  drop_while p s = c :: r -> p c = false.
Proof.
  induction s as [|d t IH]; simpl; [discriminate|].
  destruct (p d) eqn:E; [exact IH|]. intros H. inversion H. subst. exact E.
Qed.

Lemma trim_nil_iff (s : jsstring) :
  trim s = [] <-> forallb is_space s = true.
Proof.
  unfold trim. split.
  - intros H. apply (f_equal (@rev N)) in H. rewrite rev_involutive in H.
    simpl in H. apply drop_while_nil_iff in H. rewrite forallb_rev in H.
    destruct (drop_while is_space s) as [|c r] eqn:E.
    + apply drop_while_nil_iff. exact E.
    + apply drop_while_head in E. simpl in H. rewrite E in H. discriminate.
  - intros H. apply drop_while_nil_iff in H. rewrite H. reflexivity.
Qed.

Lemma drop_space_run (c : N) (s : jsstring) :
  c ∈ s -> is_space c = false -> c ∈ drop (space_run s) s.
Proof.
  induction s as [|d r IH]; simpl; intros Hin Hc; [exact Hin|].
  destruct (is_space d) eqn:E; simpl; [|exact Hin].
  apply elem_of_cons in Hin as [->|Hin]; [congruence|]. apply IH; assumption.
Qed.

Lemma split_from_has_word (cur : jsstring) (skip : nat) (s : jsstring) :
  cur <> [] \/ (exists c, c ∈ drop skip s /\ is_space c = false) ->
  exists w, w ∈ split_from re_spaces cur skip s /\ w <> [].
Proof.
  revert cur skip. induction s as [|d r IH]; intros cur skip H.
  - simpl. exists (rev cur). split; [apply list_elem_of_singleton; reflexivity|].
    destruct H as [H|[c [Hc _]]].
    + intros E. apply H. apply (f_equal (@rev N)) in E.
      rewrite rev_involutive in E. exact E.
    + rewrite drop_nil in Hc. apply elem_of_nil in Hc. contradiction.
  - destruct skip as [|k]; simpl.
    + unfold re_spaces. simpl. destruct (is_space d) eqn:E.
      * destruct H as [H|[c [Hc Hs]]].
        -- exists (rev cur). split; [apply elem_of_cons; left; reflexivity|].
           intros E'. apply H. apply (f_equal (@rev N)) in E'.
           rewrite rev_involutive in E'. exact E'.
        -- simpl in Hc. apply elem_of_cons in Hc as [->|Hc]; [congruence|].
           destruct (IH [] (space_run r)) as [w [Hw Hne]].
           { right. exists c. split; [apply drop_space_run; assumption|exact Hs]. }
           exists w. split; [apply elem_of_cons; right; exact Hw|exact Hne].
      * apply IH. left. discriminate.
    + apply IH. destruct H as [H|H]; [left; exact H|right; exact H].
Qed.

Lemma not_blank_has_char (s : jsstring) :
  forallb is_space s <> true -> exists c, c ∈ s /\ is_space c = false.
Proof.
  induction s as [|d r IH]; simpl; intros H; [congruence|].
  destruct (is_space d) eqn:E.
  - destruct IH as [c [Hc Hs]]; [exact H|].
    exists c. split; [apply elem_of_cons; right; exact Hc|exact Hs].
  - exists d. split; [apply elem_of_cons; left; reflexivity|exact E].
Qed.

Lemma words_of_not_blank (s : jsstring) :
  trim s <> [] ->
  filter (fun word => (0 <? length word)%nat = true) (split re_spaces s) <> [].
Proof.
  intros H. rewrite trim_nil_iff in H.
  destruct (not_blank_has_char s H) as [c [Hc Hs]].
  destruct (split_from_has_word [] 0 s) as [w [Hw Hne]].
  { right. exists c. split; [exact Hc|exact Hs]. }
  intros E.
  assert (Hin : w ∈ filter (fun word => (0 <? length word)%nat = true)
                         (split re_spaces s)).
  { apply list_elem_of_filter. split; [|exact Hw].
    destruct w; [congruence|reflexivity]. }
  rewrite E in Hin. apply elem_of_nil in Hin. exact Hin.
Qed.

(** C4. [isValidForTTS text] is false if and only if the trimmed text has
    length 0 or the text has more than 1000 code units; a text of length
    1000 that is not blank is valid and a text of length 1001 is not. *)
Theorem isValidForTTS_false_iff (text : jsstring) :
  (TextProcessor.isValidForTTS text = false
   <-> (length (trim text) = 0 \/ 1000 < length text)%nat)
  /\ (length text = 1000%nat -> length (trim text) <> 0%nat ->
      TextProcessor.isValidForTTS text = true)
  /\ (length text = 1001%nat -> TextProcessor.isValidForTTS text = false).
Proof.
  assert (Hiff : TextProcessor.isValidForTTS text = false
                 <-> (length (trim text) = 0 \/ 1000 < length text)%nat).
  { unfold TextProcessor.isValidForTTS. destruct text as [|c r].
    - split; [left; reflexivity|reflexivity].
    - destruct (Nat.eqb_spec (length (trim (c :: r))) 0) as [E|E].
      + split; [left; exact E|reflexivity].
      + destruct (Nat.ltb_spec 1000 (length (c :: r))) as [L|L].
        * split; [right; exact L|reflexivity].
        * assert (W := words_of_not_blank (c :: r)).
          destruct (filter _ (split re_spaces (c :: r))) as [|w ws].
          -- exfalso. apply W; [|reflexivity]. intros T. rewrite T in E.
             apply E. reflexivity.
          -- split; [simpl; discriminate|]. intros [H|H]; exfalso; [exact (E H)|].
             exact (Nat.lt_irrefl _ (Nat.lt_le_trans _ _ _ H L)). }
  split; [exact Hiff|]. split.
  - intros L T. destruct (TextProcessor.isValidForTTS text); [reflexivity|].
    destruct (proj1 Hiff eq_refl) as [H|H]; [contradiction|].
    rewrite L in H. exfalso. exact (Nat.lt_irrefl _ H).
  - intros L. apply Hiff. right. rewrite L. apply Nat.lt_succ_diag_r.
Qed.

(** The boundary of C4 on the texts of the test suite. *)
Lemma isValidForTTS_false_iff_witness :
  TextProcessor.isValidForTTS (repeat 97%N 1000) = true
  /\ TextProcessor.isValidForTTS (repeat 97%N 1001) = false.
Proof.
  split.
  - apply (proj1 (proj2 (isValidForTTS_false_iff (repeat 97%N 1000)))).
    + vm_compute. reflexivity.
    + vm_compute. discriminate.
  - apply (proj2 (proj2 (isValidForTTS_false_iff (repeat 97%N 1001)))).
    vm_compute. reflexivity.
Defined.

(** ** The replacements of [parseText] *)

Lemma replace_from_skip (re : regex) (by_ : jsstring) (k : nat) (s : jsstring) :
  replace_from re by_ k s = replace re by_ (drop k s).
Proof.
  revert k. induction s as [|c r IH]; intros k.
  - destruct k; reflexivity.
  - destruct k as [|k]; [reflexivity|]. simpl. apply IH.
Qed.

Lemma drop_space_run_drop_while (s : jsstring) :
  drop (space_run s) s = drop_while is_space s.
Proof.
  induction s as [|c r IH]; simpl; [reflexivity|].
  destruct (is_space c); [exact IH|reflexivity].
Qed.

Lemma replace_spaces_space (c : N) (r : jsstring) :
  is_space c = true ->
  replace re_spaces [32%N] (c :: r)
  = 32%N :: replace re_spaces [32%N] (drop_while is_space r).
Proof.
  intros H. unfold replace at 1. simpl. unfold re_spaces. simpl. rewrite H.
  simpl. rewrite replace_from_skip, drop_space_run_drop_while. reflexivity.
Qed.

Lemma replace_spaces_other (c : N) (r : jsstring) :
  is_space c = false ->
  replace re_spaces [32%N] (c :: r) = c :: replace re_spaces [32%N] r.
Proof.
  intros H. unfold replace. simpl. unfold re_spaces. simpl. rewrite H.
  reflexivity.
Qed.

Lemma drop_while_length (p : N -> bool) (s : jsstring) :
  (length (drop_while p s) <= length s)%nat.
Proof.
  induction s as [|c r IH]; simpl; [lia|]. destruct (p c); simpl; lia.
Qed.

Lemma starts_space_drop_while (s : jsstring) :
  starts_space (drop_while is_space s) = false.
Proof.
  destruct (drop_while is_space s) as [|c r] eqn:E; [reflexivity|].
  simpl. exact (drop_while_head _ _ _ _ E).
Qed.

Lemma replace_spaces_spaced (n : nat) (s : jsstring) :
  (length s <= n)%nat ->
  spaced (replace re_spaces [32%N] s) = true
  /\ (starts_space s = false ->
      starts_space (replace re_spaces [32%N] s) = false).
Proof.
  revert s. induction n as [|n IH]; intros s L.
  - destruct s; [split; reflexivity|simpl in L; lia].
  - destruct s as [|c r]; [split; reflexivity|]. simpl in L.
    destruct (is_space c) eqn:E.
    + rewrite (replace_spaces_space c r E).
      destruct (IH (drop_while is_space r)) as [Hs Hh].
      { pose proof (drop_while_length is_space r). lia. }
      specialize (Hh (starts_space_drop_while r)).
      split; [|simpl; congruence].
      destruct (replace re_spaces [32%N] (drop_while is_space r)) as [|d t];
        [reflexivity|].
      simpl in Hh. change (negb (is_space 32 && is_space d) && spaced (d :: t) = true).
      rewrite Hh, Hs. reflexivity.
    + rewrite (replace_spaces_other c r E).
      destruct (IH r) as [Hs _]; [lia|]. split; [|intros _; exact E].
      destruct (replace re_spaces [32%N] r) as [|d t]; [reflexivity|].
      change (negb (is_space c && is_space d) && spaced (d :: t) = true).
      rewrite E, Hs. reflexivity.
Qed.

Lemma replace_spaces_chars (by_ : jsstring) (P : N -> Prop) (k : nat) (s : jsstring) :
  Forall P by_ ->
  Forall (fun c => is_space c = false -> P c) s ->
  Forall P (replace_from re_spaces by_ k s).
Proof.
  intros Hby. revert k. induction s as [|c r IH]; intros k H; [constructor|].
  inversion H as [|? ? Hc Hr]; subst. destruct k as [|k]; simpl; [|apply IH, Hr].
  unfold re_spaces. simpl. destruct (is_space c) eqn:E.
  - apply Forall_app. split; [exact Hby|apply IH, Hr].
  - constructor; [apply Hc; reflexivity|apply IH, Hr].
Qed.

Lemma replace_special_chars (P : N -> Prop) (k : nat) (s : jsstring) :
  Forall P s -> Forall (fun c => is_plain c = true /\ P c) (replace_from re_special [] k s).
Proof.
  revert k. induction s as [|c r IH]; intros k H; [constructor|].
  inversion H as [|? ? Hc Hr]; subst. destruct k as [|k]; simpl; [|apply IH, Hr].
  destruct (is_plain c) eqn:E.
  - constructor; [split; assumption|apply IH, Hr].
  - apply IH, Hr.
Qed.

Lemma replace_special_plain (s : jsstring) :
  Forall (fun c => is_plain c = true) s -> replace re_special [] s = s.
Proof.
  unfold replace. induction s as [|c r IH]; intros H; [reflexivity|].
  inversion H as [|? ? Hc Hr]; subst. simpl. rewrite Hc, (IH Hr). reflexivity.
Qed.

Lemma is_plain_not_backtick (c : N) : is_plain c = true -> is_backtick c = false.
Proof.
  intros H. unfold is_backtick. destruct (N.eqb_spec c 96) as [->|]; [|reflexivity].
  vm_compute in H. discriminate.
Qed.

Lemma replace_code_block_none (s : jsstring) :
  Forall (fun c => is_backtick c = false) s -> replace re_code_block [] s = s.
Proof.
  unfold replace. induction s as [|c r IH]; intros H; [reflexivity|].
  inversion H as [|? ? Hc Hr]; subst.
  assert (E : re_code_block (c :: r) = None).
  { destruct r as [|b [|d t]]; simpl; try reflexivity. rewrite Hc. reflexivity. }
  cbn [replace_from]. rewrite E, (IH Hr). reflexivity.
Qed.

Lemma replace_inline_code_none (s : jsstring) :
  Forall (fun c => is_backtick c = false) s -> replace re_inline_code [] s = s.
Proof.
  unfold replace. induction s as [|c r IH]; intros H; [reflexivity|].
  inversion H as [|? ? Hc Hr]; subst. simpl. rewrite Hc, (IH Hr). reflexivity.
Qed.

Lemma drop_while_Forall (P : N -> Prop) (p : N -> bool) (s : jsstring) :
  Forall P s -> Forall P (drop_while p s).
Proof.
  induction 1 as [|c r Hc Hr IH]; simpl; [constructor|].
  destruct (p c); [exact IH|constructor; assumption].
Qed.

Lemma rev_Forall (P : N -> Prop) (s : jsstring) : Forall P s -> Forall P (rev s).
Proof.
  induction 1 as [|c r Hc Hr IH]; simpl; [constructor|].
  apply Forall_app. split; [exact IH|constructor; [exact Hc|constructor]].
Qed.

Lemma trim_Forall (P : N -> Prop) (s : jsstring) : Forall P s -> Forall P (trim s).
Proof.
  intros H. unfold trim.
  apply rev_Forall, drop_while_Forall, rev_Forall, drop_while_Forall, H.
Qed.

(** What [parseText] returns is plain. *)
Lemma parseText_plain (x : jsstring) : Forall plain (TextProcessor.parseText x).
Proof.
  unfold TextProcessor.parseText. destruct x as [|c r]; [constructor|].
  set (t := replace re_inline_code [] (replace re_code_block [] (c :: r))).
  apply (replace_special_chars (fun c => is_space c = true -> c = 32%N) 0).
  apply trim_Forall. apply (replace_spaces_chars [32%N]).
  - constructor; [intros _; reflexivity|constructor].
  - apply Forall_forall. intros d _ E E'. congruence.
Qed.

(** On a plain text [parseText] only collapses and trims the white space. *)
Lemma parseText_of_plain (y : jsstring) :
  Forall plain y ->
  TextProcessor.parseText y = trim (replace re_spaces [32%N] y).
Proof.
  intros H. unfold TextProcessor.parseText. destruct y as [|c r]; [reflexivity|].
  assert (Hb : Forall (fun c => is_backtick c = false) (c :: r)).
  { eapply Forall_impl; [exact H|]. intros d [Hd _].
    apply is_plain_not_backtick, Hd. }
  rewrite (replace_code_block_none _ Hb), (replace_inline_code_none _ Hb).
  apply replace_special_plain. apply trim_Forall.
  apply (replace_spaces_chars [32%N] (fun c => is_plain c = true)).
  - constructor; [reflexivity|constructor].
  - eapply Forall_impl; [exact H|]. intros d [Hd _] _. exact Hd.
Qed.

(** ** Tidy texts *)

Lemma drop_while_id (s : jsstring) :
  starts_space s = false -> drop_while is_space s = s.
Proof. destruct s as [|c r]; simpl; [reflexivity|]. intros ->. reflexivity. Qed.

Lemma trim_tidy (s : jsstring) :
  starts_space s = false -> starts_space (rev s) = false -> trim s = s.
Proof.
  intros H1 H2. unfold trim. rewrite (drop_while_id s H1).
  rewrite (drop_while_id (rev s) H2). apply rev_involutive.
Qed.

Lemma spaced_tail (c : N) (r : jsstring) : spaced (c :: r) = true -> spaced r = true.
Proof.
  destruct r as [|d t]; [reflexivity|]. intros H.
  change (negb (is_space c && is_space d) && spaced (d :: t) = true) in H.
  apply andb_true_iff in H. apply H.
Qed.

Lemma replace_spaces_tidy (s : jsstring) :
  spaced s = true ->
  Forall (fun c => is_space c = true -> c = 32%N) s ->
  replace re_spaces [32%N] s = s.
Proof.
  induction s as [|c r IH]; intros Hs Hc; [reflexivity|].
  inversion Hc as [|? ? Hc1 Hc2]; subst.
  specialize (IH (spaced_tail _ _ Hs) Hc2).
  destruct (is_space c) eqn:E.
  - rewrite (replace_spaces_space c r E), (Hc1 eq_refl).
    destruct r as [|d t]; [reflexivity|].
    change (negb (is_space c && is_space d) && spaced (d :: t) = true) in Hs.
    rewrite E in Hs. simpl in Hs. apply andb_true_iff in Hs as [Hd _].
    apply negb_true_iff in Hd. rewrite (drop_while_id (d :: t) Hd), IH.
    reflexivity.
  - rewrite (replace_spaces_other c r E), IH. reflexivity.
Qed.

Lemma spaced_drop_while (s : jsstring) :
  spaced s = true -> spaced (drop_while is_space s) = true.
Proof.
  induction s as [|c r IH]; intros H; [reflexivity|]. simpl drop_while.
  destruct (is_space c); [apply IH, (spaced_tail _ _ H)|exact H].
Qed.

Lemma spaced_app_l (a b : jsstring) : spaced (a ++ b) = true -> spaced a = true.
Proof.
  induction a as [|c a' IH]; intros H; [reflexivity|].
  destruct a' as [|d a'']; [reflexivity|].
  change (negb (is_space c && is_space d) && spaced ((d :: a'') ++ b) = true) in H.
  change (negb (is_space c && is_space d) && spaced (d :: a'') = true).
  apply andb_true_iff in H as [H1 H2]. rewrite H1, (IH H2). reflexivity.
Qed.

Lemma drop_while_suffix (p : N -> bool) (s : jsstring) :
  exists w, s = w ++ drop_while p s.
Proof.
  induction s as [|c r [w IH]]; [exists []; reflexivity|]. simpl.
  destruct (p c).
  - exists (c :: w). simpl. rewrite <- IH. reflexivity.
  - exists []. reflexivity.
Qed.

Lemma drop_trailing_prefix (p : N -> bool) (s : jsstring) :
  exists w, s = rev (drop_while p (rev s)) ++ w.
Proof.
  destruct (drop_while_suffix p (rev s)) as [w H]. exists (rev w).
  rewrite <- rev_app_distr, <- H, rev_involutive. reflexivity.
Qed.

Lemma drop_while_snoc (s : jsstring) (c : N) :
  is_space c = false ->
  drop_while is_space (s ++ [c]) = drop_while is_space s ++ [c].
Proof.
  intros H. induction s as [|d r IH]; simpl; [rewrite H; reflexivity|].
  destruct (is_space d); [exact IH|reflexivity].
Qed.

Lemma starts_space_drop_trailing (s : jsstring) :
  starts_space s = false ->
  starts_space (rev (drop_while is_space (rev s))) = false.
Proof.
  destruct s as [|c r]; [reflexivity|]. simpl. intros H.
  rewrite (drop_while_snoc _ _ H), rev_app_distr. simpl. exact H.
Qed.

(** Collapsing and trimming the white space gives a tidy text. *)
Lemma trim_replace_spaces_tidy (s : jsstring) :
  tidy (trim (replace re_spaces [32%N] s)) = true.
Proof.
  destruct (replace_spaces_spaced (length s) s (Nat.le_refl _)) as [Hs _].
  set (t := replace re_spaces [32%N] s) in *. unfold tidy, trim.
  set (u := drop_while is_space t).
  assert (Hu : spaced u = true) by (apply spaced_drop_while, Hs).
  rewrite (starts_space_drop_trailing u (starts_space_drop_while t)).
  rewrite rev_involutive, starts_space_drop_while. simpl.
  destruct (drop_trailing_prefix is_space u) as [w Hw].
  rewrite Hw in Hu. exact (spaced_app_l _ _ Hu).
Qed.

Lemma tidy_fixed (y : jsstring) :
  Forall plain y -> tidy y = true -> trim (replace re_spaces [32%N] y) = y.
Proof.
  intros Hp Ht. unfold tidy in Ht.
  apply andb_true_iff in Ht as [Ht Hs]. apply andb_true_iff in Ht as [H1 H2].
  apply negb_true_iff in H1. apply negb_true_iff in H2.
  rewrite replace_spaces_tidy; [apply trim_tidy; assumption|exact Hs|].
  eapply Forall_impl; [exact Hp|]. intros c [_ Hc]. exact Hc.
Qed.

(** C3, as the code has it. Applying [parseText] to a text it returned
    gives the same text again when that text has no white space at either
    end and no two white-space characters in a row; in every case the
    second application reaches a text that [parseText] leaves as it is. *)
Theorem parseText_idempotent_on_tidy (x : jsstring) :
  (tidy (TextProcessor.parseText x) = true ->
   TextProcessor.parseText (TextProcessor.parseText x) = TextProcessor.parseText x)
  /\ TextProcessor.parseText (TextProcessor.parseText (TextProcessor.parseText x))
     = TextProcessor.parseText (TextProcessor.parseText x).
Proof.
  pose proof (parseText_plain x) as Hp. split.
  - intros Ht. rewrite (parseText_of_plain _ Hp). apply tidy_fixed; assumption.
  - rewrite (parseText_of_plain _ Hp).
    set (z := trim (replace re_spaces [32%N] (TextProcessor.parseText x))).
    assert (Hz : Forall plain z).
    { unfold z. apply trim_Forall. apply (replace_spaces_chars [32%N] plain).
      - constructor; [split; [reflexivity|intros _; reflexivity]|constructor].
      - eapply Forall_impl; [exact Hp|]. intros c Hc _. exact Hc. }
    rewrite (parseText_of_plain _ Hz). apply tidy_fixed; [exact Hz|].
    apply trim_replace_spaces_tidy.
Qed.

(** The amended C3 on a test case of the repository. *)
Lemma parseText_idempotent_on_tidy_witness :
  TextProcessor.parseText
    (TextProcessor.parseText (str "Some text ```code block``` more text"))
  = TextProcessor.parseText (str "Some text ```code block``` more text").
Proof.
  apply (proj1 (parseText_idempotent_on_tidy
                  (str "Some text ```code block``` more text"))).
  vm_compute. reflexivity.
Defined.

(** C3 as stated fails: the characters that are filtered out after the
    white space was collapsed leave two spaces in a row, which a second
    application collapses. *)
Lemma parseText_not_idempotent :
  TextProcessor.parseText (TextProcessor.parseText (str "a @ b"))
  <> TextProcessor.parseText (str "a @ b").
Proof. vm_compute. discriminate. Qed.

(** ** The configuration store *)

Lemma getConfig_eq (this : ConfigManager.t) (h : heap) :
  ConfigManager.getConfig this h
  = (fresh (dom (configs h)),
     mkHeap (voices h) (copilots h)
       (<[fresh (dom (configs h)) := config_of h (Some (ConfigManager.config this))]>
          (configs h))).
Proof. reflexivity. Qed.

Lemma observed_voice_eq (this : ConfigManager.t) (h : heap) :
  observed_voice this h
  = voice_of h (read (TTSCopilotConfig.voice
                        (config_of h (Some (ConfigManager.config this))))).
Proof.
  unfold observed_voice. rewrite getConfig_eq. unfold config_of at 1. simpl.
  rewrite lookup_insert_eq. reflexivity.
Qed.

Lemma updateVoiceConfig_eq (this : ConfigManager.t) (voiceConfig : loc) (h : heap) :
  ConfigManager.updateVoiceConfig this voiceConfig h
  = ConfigManager.validateVoiceConfig this (after_voice_update this voiceConfig h).
Proof. reflexivity. Qed.

Lemma observed_after_voice_update (this : ConfigManager.t) (voiceConfig : loc)
  (h : heap) :
  observed_voice this (after_voice_update this voiceConfig h)
  = VoiceConfig.spread (observed_voice this h) (voice_of h (Some voiceConfig)).
Proof.
  rewrite !observed_voice_eq. unfold after_voice_update.
  unfold config_of at 1. simpl. rewrite lookup_insert_eq. simpl.
  rewrite lookup_insert_eq. reflexivity.
Qed.

Lemma validateVoiceConfig_state (this : ConfigManager.t) (h : heap) :
  snd (ConfigManager.validateVoiceConfig this h) = h.
Proof.
  unfold ConfigManager.validateVoiceConfig, bind, gets, throw, ret. simpl.
  destruct (read _); [|reflexivity].
  repeat match goal with |- context [if ?b then _ else _] => destruct b end;
    reflexivity.
Qed.

Lemma validateVoiceConfig_rejects (this : ConfigManager.t) (h : heap) (lv : loc) :
  read (TTSCopilotConfig.voice (config_of h (Some (ConfigManager.config this))))
  = Some lv ->
  out_of_range (observed_voice this h) = true ->
  exists e, fst (ConfigManager.validateVoiceConfig this h) = Throw e.
Proof.
  intros Hv. rewrite observed_voice_eq, Hv. unfold out_of_range.
  unfold ConfigManager.validateVoiceConfig, bind, gets, throw, ret.
  cbn beta iota. rewrite Hv. cbn beta iota. intros H.
  destruct (less_than _ (of_Z 0) || less_than (of_Z 2) _); [eexists; reflexivity|].
  destruct (less_than _ (decimal 1 10) || less_than (of_Z 10) _); [eexists; reflexivity|].
  destruct (less_than _ (of_Z 0) || less_than (of_Z 1) _); [eexists; reflexivity|].
  discriminate.
Qed.

(** C1, as the code has it. When the merged voice configuration is out of
    range, [updateVoiceConfig] throws, but only after it has stored the
    merged configuration: what [getConfig] shows afterwards is the rejected
    configuration, which is not the one that was there before the call
    whenever that one was in range. *)
Theorem updateVoiceConfig_stores_before_rejecting
  (this : ConfigManager.t) (voiceConfig : loc) (h : heap) :
  let merged :=
    VoiceConfig.spread (observed_voice this h) (voice_of h (Some voiceConfig)) in
  out_of_range merged = true ->
  exists e h',
    ConfigManager.updateVoiceConfig this voiceConfig h = (Throw e, h')
    /\ observed_voice this h' = merged
    /\ (out_of_range (observed_voice this h) = false ->
        observed_voice this h' <> observed_voice this h).
Proof.
  intros merged H. rewrite updateVoiceConfig_eq.
  pose proof (observed_after_voice_update this voiceConfig h) as Hobs.
  fold merged in Hobs.
  destruct (validateVoiceConfig_rejects this
              (after_voice_update this voiceConfig h)
              (fresh (dom (voices h)))) as [e He].
  - unfold after_voice_update, config_of. simpl. rewrite lookup_insert_eq.
    reflexivity.
  - rewrite Hobs. exact H.
  - exists e, (after_voice_update this voiceConfig h). split; [|split].
    + pose proof (validateVoiceConfig_state this
                    (after_voice_update this voiceConfig h)) as Hs.
      destruct (ConfigManager.validateVoiceConfig this _) as [c h']. simpl in *.
      subst. reflexivity.
    + exact Hobs.
    + intros Hin Heq. rewrite Hobs in Heq. rewrite <- Heq in Hin. congruence.
Qed.

(** C1 on [updateVoiceConfig({ pitch: 2.5 })] after default construction:
    the call throws and [getConfig().voice.pitch] has gone from 1 to 2.5. *)
Lemma updateVoiceConfig_stores_before_rejecting_witness :
  exists this h1 e h2,
    ConfigManager.constructor None (snd (new_voice pitch_2_5 module_heap))
    = (this, h1)
    /\ VoiceConfig.pitch (observed_voice this h1) = Present (of_Z 1)
    /\ ConfigManager.updateVoiceConfig this
         (fst (new_voice pitch_2_5 module_heap)) h1
       = (Throw e, h2)
    /\ e = Error (str "Pitch must be between 0.0 and 2.0")
    /\ VoiceConfig.pitch (observed_voice this h2) = Present (decimal 5 2).
Proof.
  exists (ConfigManager.mk 2%positive).
  exists (snd (ConfigManager.constructor None
                 (snd (new_voice pitch_2_5 module_heap)))).
  destruct (updateVoiceConfig_stores_before_rejecting
              (ConfigManager.mk 2%positive)
              (fst (new_voice pitch_2_5 module_heap))
              (snd (ConfigManager.constructor None
                      (snd (new_voice pitch_2_5 module_heap)))))
    as [e [h2 [H1 [H2 _]]]]; [vm_compute; reflexivity|].
  exists e, h2. split; [vm_compute; reflexivity|].
  split; [vm_compute; reflexivity|]. split; [exact H1|]. split.
  - vm_compute in H1. injection H1 as He _. rewrite <- He. reflexivity.
  - rewrite H2. vm_compute. reflexivity.
Defined.

Lemma set_voice_eq (lv : loc) (f : VoiceConfig.t -> VoiceConfig.t) (h : heap) :
  snd (set_voice lv f h)
  = mkHeap (<[lv := f (voice_of h (Some lv))]> (voices h)) (copilots h) (configs h).
Proof. reflexivity. Qed.

Lemma set_config_eq (l : loc) (f : TTSCopilotConfig.t -> TTSCopilotConfig.t)
  (h : heap) :
  snd (set_config l f h)
  = mkHeap (voices h) (copilots h) (<[l := f (config_of h (Some l))]> (configs h)).
Proof. reflexivity. Qed.

(** The stored configuration object is not touched by [getConfig]. *)
Lemma getConfig_keeps_stored (this : ConfigManager.t) (h : heap) :
  config_of (snd (ConfigManager.getConfig this h))
            (Some (ConfigManager.config this))
  = config_of h (Some (ConfigManager.config this)).
Proof.
  rewrite getConfig_eq. unfold config_of. cbn [snd configs].
  destruct (decide (fresh (dom (configs h)) = ConfigManager.config this)) as [E|E].
  - rewrite E, lookup_insert_eq.
    pose proof (is_fresh (dom (configs h))) as Hf. rewrite E in Hf.
    apply not_elem_of_dom in Hf. rewrite Hf. reflexivity.
  - rewrite lookup_insert_ne by exact E. reflexivity.
Qed.

Lemma getConfig_copy (this : ConfigManager.t) (h : heap) :
  config_of (snd (ConfigManager.getConfig this h))
            (Some (fresh (dom (configs h))))
  = config_of h (Some (ConfigManager.config this)).
Proof.
  rewrite getConfig_eq. unfold config_of at 1. cbn [snd configs].
  rewrite lookup_insert_eq. reflexivity.
Qed.

(** C2, as the code has it. [getConfig] returns a new object whose
    properties are those of the stored one: assigning to a property of the
    returned object leaves the store alone, but its [voice] is the stored
    voice object itself, so a write through it changes what the store
    holds. *)
Theorem getConfig_shares_nested_objects (this : ConfigManager.t) (h : heap) :
  exists l h',
    ConfigManager.getConfig this h = (l, h')
    /\ config_of h' (Some l) = config_of h (Some (ConfigManager.config this))
    /\ (ConfigManager.config this ∈ dom (configs h) ->
        forall f,
          config_of (snd (set_config l f h')) (Some (ConfigManager.config this))
          = config_of h (Some (ConfigManager.config this)))
    /\ (forall lv f,
          read (TTSCopilotConfig.voice (config_of h' (Some l))) = Some lv ->
          observed_voice this (snd (set_voice lv f h'))
          = f (observed_voice this h')).
Proof.
  pose proof (getConfig_keeps_stored this h) as Hk.
  pose proof (getConfig_copy this h) as Hl.
  rewrite getConfig_eq in Hk, Hl. cbn [fst snd] in Hk, Hl.
  eexists _, _. split; [apply getConfig_eq|].
  split; [exact Hl|]. split.
  - intros Hin f. rewrite set_config_eq. unfold config_of at 1.
    cbn [configs].
    assert (Hne : fresh (dom (configs h)) <> ConfigManager.config this).
    { intros E. rewrite <- E in Hin. exact (is_fresh _ Hin). }
    rewrite !lookup_insert_ne by exact Hne. reflexivity.
  - intros lv f Hv. rewrite Hl in Hv. rewrite set_voice_eq, !observed_voice_eq.
    rewrite Hk.
    match goal with
    | |- voice_of _ (read (TTSCopilotConfig.voice ?c)) = _ =>
        replace c with (config_of h (Some (ConfigManager.config this)))
          by (symmetry; exact Hk)
    end.
    rewrite Hv. unfold voice_of at 1. cbn [voices].
    rewrite lookup_insert_eq. reflexivity.
Qed.

(** C2 on a store built with the defaults: after
    [const c = store.getConfig(); c.voice.pitch = 5], the store's own pitch
    is 5. *)
Lemma getConfig_shares_nested_objects_witness :
  exists this h0 l h1 lv,
    ConfigManager.constructor None module_heap = (this, h0)
    /\ ConfigManager.getConfig this h0 = (l, h1)
    /\ read (TTSCopilotConfig.voice (config_of h1 (Some l))) = Some lv
    /\ VoiceConfig.pitch (observed_voice this h1) = Present (of_Z 1)
    /\ VoiceConfig.pitch (observed_voice this (snd (set_voice lv assign_pitch_5 h1)))
       = Present (of_Z 5).
Proof.
  destruct (getConfig_shares_nested_objects
              (ConfigManager.mk 2%positive)
              (snd (ConfigManager.constructor None module_heap)))
    as [l [h1 [Hg [_ [_ Hnest]]]]].
  exists (ConfigManager.mk 2%positive).
  exists (snd (ConfigManager.constructor None module_heap)).
  exists l, h1, DEFAULT_CONFIG_voice.
  rewrite (Hnest DEFAULT_CONFIG_voice assign_pitch_5).
  - rewrite getConfig_eq in Hg. injection Hg as <- <-.
    repeat split; vm_compute; reflexivity.
  - rewrite getConfig_eq in Hg. injection Hg as <- <-. vm_compute. reflexivity.
Defined.

(** ** Construction *)

Lemma config_of_insert (v : gmap loc VoiceConfig.t) (c : gmap loc CopilotConfig.t)
  (m : gmap loc TTSCopilotConfig.t) (l : loc) (x : TTSCopilotConfig.t) :
  config_of (mkHeap v c (<[l := x]> m)) (Some l) = x.
Proof. unfold config_of. cbn [configs]. rewrite lookup_insert_eq. reflexivity. Qed.

Lemma constructor_eq (initialConfig : option loc) (h : heap) :
  ConfigManager.constructor initialConfig h
  = (ConfigManager.mk (fresh (dom (configs h))),
     mkHeap (voices h) (copilots h)
       (<[fresh (dom (configs h)) :=
            TTSCopilotConfig.spread (config_of h (Some DEFAULT_CONFIG))
                                    (config_of h initialConfig)]> (configs h))).
Proof. reflexivity. Qed.

Lemma observed_copilot_eq (this : ConfigManager.t) (h : heap) :
  observed_copilot this h
  = copilot_of h (read (TTSCopilotConfig.copilot
                          (config_of h (Some (ConfigManager.config this))))).
Proof.
  unfold observed_copilot. rewrite getConfig_eq, config_of_insert. reflexivity.
Qed.

Lemma observed_realTimeEnabled_eq (this : ConfigManager.t) (h : heap) :
  observed_realTimeEnabled this h
  = read (TTSCopilotConfig.realTimeEnabled
            (config_of h (Some (ConfigManager.config this)))).
Proof.
  unfold observed_realTimeEnabled. rewrite getConfig_eq, config_of_insert.
  reflexivity.
Qed.

(** C9. The constructor returns for every initial configuration, also
    for none, and validates nothing. The stored configuration is the
    shallow merge over the defaults: each of the properties [voice],
    [realTimeEnabled] and [copilot] is the one of the initial configuration
    where it has one and the default otherwise, and the nested objects are
    referred to, not copied or completed. So [getConfig] shows the supplied
    voice object as it is: the properties it lacks are undefined and not
    taken from the defaults, and its values are not checked, so that the
    store can start in a state that [validateVoiceConfig] rejects. The
    engine of an orchestrator starts with the same voice properties. *)
Theorem constructor_shallow_unvalidated (initialConfig : option loc) (h : heap) :
  let defaults := config_of h (Some DEFAULT_CONFIG) in
  let initial := config_of h initialConfig in
  exists this h',
    ConfigManager.constructor initialConfig h = (this, h')
    /\ voices h' = voices h
    /\ copilots h' = copilots h
    /\ observed_voice this h'
       = voice_of h (read (initial_or_default (TTSCopilotConfig.voice initial)
                                              (TTSCopilotConfig.voice defaults)))
    /\ observed_realTimeEnabled this h'
       = read (initial_or_default (TTSCopilotConfig.realTimeEnabled initial)
                                  (TTSCopilotConfig.realTimeEnabled defaults))
    /\ observed_copilot this h'
       = copilot_of h (read (initial_or_default (TTSCopilotConfig.copilot initial)
                                                (TTSCopilotConfig.copilot defaults)))
    /\ (forall lv,
          read (TTSCopilotConfig.voice initial) = Some lv ->
          read (TTSCopilotConfig.voice
                  (config_of h' (Some (ConfigManager.config this)))) = Some lv
          /\ observed_voice this h' = voice_of h (Some lv)
          /\ (out_of_range (voice_of h (Some lv)) = true ->
              exists e, fst (ConfigManager.validateVoiceConfig this h') = Throw e))
    /\ TTSCopilot.configManager (TTSCopilot.constructor initialConfig h) = this
    /\ TTSEngine.voiceConfig
         (TTSCopilot.ttsEngine (TTSCopilot.constructor initialConfig h))
       = observed_voice this h'.
Proof.
  cbv zeta. eexists _, _. split; [apply constructor_eq|].
  split; [reflexivity|]. split; [reflexivity|].
  set (merged := TTSCopilotConfig.spread (config_of h (Some DEFAULT_CONFIG))
                   (config_of h initialConfig)).
  set (l := fresh (dom (configs h))).
  set (h' := mkHeap (voices h) (copilots h) (<[l := merged]> (configs h))).
  assert (Hc : config_of h' (Some l) = merged) by apply config_of_insert.
  assert (Hvoice : TTSCopilotConfig.voice merged
                   = initial_or_default
                       (TTSCopilotConfig.voice (config_of h initialConfig))
                       (TTSCopilotConfig.voice (config_of h (Some DEFAULT_CONFIG)))).
  { unfold merged, TTSCopilotConfig.spread, over, initial_or_default, supplied.
    cbn [TTSCopilotConfig.voice].
    destruct (TTSCopilotConfig.voice (config_of h initialConfig)); reflexivity. }
  assert (Hflag : TTSCopilotConfig.realTimeEnabled merged
                  = initial_or_default
                      (TTSCopilotConfig.realTimeEnabled (config_of h initialConfig))
                      (TTSCopilotConfig.realTimeEnabled
                         (config_of h (Some DEFAULT_CONFIG)))).
  { unfold merged, TTSCopilotConfig.spread, over, initial_or_default, supplied.
    cbn [TTSCopilotConfig.realTimeEnabled].
    destruct (TTSCopilotConfig.realTimeEnabled (config_of h initialConfig));
      reflexivity. }
  assert (Hcopilot : TTSCopilotConfig.copilot merged
                     = initial_or_default
                         (TTSCopilotConfig.copilot (config_of h initialConfig))
                         (TTSCopilotConfig.copilot
                            (config_of h (Some DEFAULT_CONFIG)))).
  { unfold merged, TTSCopilotConfig.spread, over, initial_or_default, supplied.
    cbn [TTSCopilotConfig.copilot].
    destruct (TTSCopilotConfig.copilot (config_of h initialConfig)); reflexivity. }
  assert (Hobs : observed_voice (ConfigManager.mk l) h'
                 = voice_of h (read (TTSCopilotConfig.voice merged))).
  { rewrite observed_voice_eq. cbn [ConfigManager.config]. rewrite Hc.
    reflexivity. }
  split; [rewrite Hobs, Hvoice; reflexivity|].
  split.
  { rewrite observed_realTimeEnabled_eq. cbn [ConfigManager.config].
    rewrite Hc, Hflag. reflexivity. }
  split.
  { rewrite observed_copilot_eq. cbn [ConfigManager.config].
    rewrite Hc, Hcopilot. reflexivity. }
  split.
  { intros lv Hv.
    assert (Hr : read (TTSCopilotConfig.voice merged) = Some lv).
    { rewrite Hvoice. unfold initial_or_default, supplied.
      destruct (TTSCopilotConfig.voice (config_of h initialConfig));
        try discriminate. exact Hv. }
    cbn [ConfigManager.config]. rewrite Hc.
    split; [exact Hr|]. split; [rewrite Hobs, Hr; reflexivity|].
    intros Hout.
    apply (validateVoiceConfig_rejects (ConfigManager.mk l) h' lv).
    - cbn [ConfigManager.config]. rewrite Hc. exact Hr.
    - rewrite Hobs, Hr. exact Hout. }
  unfold TTSCopilot.constructor. rewrite constructor_eq. fold l merged h'.
  rewrite getConfig_eq. cbn [ConfigManager.config].
  split; [reflexivity|].
  cbn [TTSCopilot.ttsEngine TTSEngine.constructor TTSEngine.voiceConfig].
  rewrite config_of_insert, Hc, Hobs. reflexivity.
Qed.

(** C9 on [new ConfigManager({ voice: { pitch: 5 } })]: the store starts
    with pitch 5, outside the documented range, and with no speed, where
    the default speed is 1; [realTimeEnabled] is the default. And on
    [new ConfigManager({ realTimeEnabled: false })]: the flag is the
    supplied one and the voice is the default one. *)
Lemma constructor_shallow_unvalidated_witness :
  (exists this h',
      ConfigManager.constructor (Some (fst heap_with_initial)) (snd heap_with_initial)
      = (this, h')
      /\ VoiceConfig.pitch (observed_voice this h') = Present (of_Z 5)
      /\ read (VoiceConfig.speed (observed_voice this h')) = None
      /\ read (VoiceConfig.speed
                 (voice_of (snd heap_with_initial) (Some DEFAULT_CONFIG_voice)))
         = Some (of_Z 1)
      /\ observed_realTimeEnabled this h' = Some true
      /\ exists e, fst (ConfigManager.validateVoiceConfig this h') = Throw e)
  /\ (exists this h',
         ConfigManager.constructor (Some (fst heap_with_realTime_off))
           (snd heap_with_realTime_off) = (this, h')
         /\ observed_realTimeEnabled this h' = Some false
         /\ VoiceConfig.pitch (observed_voice this h') = Present (of_Z 1)).
Proof.
  split.
  - destruct (constructor_shallow_unvalidated
                (Some (fst heap_with_initial)) (snd heap_with_initial))
      as [this [h' [Hc [_ [_ [_ [Hf [_ [Hv _]]]]]]]]].
    destruct (Hv 2%positive) as [_ [Ho Hval]]; [vm_compute; reflexivity|].
    exists this, h'. split; [exact Hc|]. rewrite Ho, Hf.
    split; [vm_compute; reflexivity|]. split; [vm_compute; reflexivity|].
    split; [vm_compute; reflexivity|]. split; [vm_compute; reflexivity|].
    apply Hval. vm_compute. reflexivity.
  - destruct (constructor_shallow_unvalidated
                (Some (fst heap_with_realTime_off)) (snd heap_with_realTime_off))
      as [this [h' [Hc [_ [_ [Ho [Hf _]]]]]]].
    exists this, h'. split; [exact Hc|]. rewrite Ho, Hf.
    split; vm_compute; reflexivity.
Defined.

(** ** The engine and its backend *)

Example Math_round_rate : Math_round (SFmul prec emax (of_Z 1) (of_Z 200)) = of_Z 200.
Proof. vm_compute. reflexivity. Qed.

Example Math_round_half_up :
  Math_round (decimal 5 2) = of_Z 3 /\ Math_round (decimal (-5) 2) = of_Z (-2)
  /\ Math_round (decimal (-1) 4) = S754_zero true.
Proof. vm_compute. repeat split; reflexivity. Qed.

Example literal_0_1 : decimal 1 10 = S754_finite false 7205759403792794 (-56).
Proof. vm_compute. reflexivity. Qed.

(** A request for a text that is not blank, while [currentProcess] is
    set: the backend is told to stop before it is told to speak. *)
Lemma speak_stops_current (backend : say.behaviour) (text : jsstring)
  (w : TTSEngine.world) :
  trim text <> [] ->
  say.truthy (TTSEngine.currentProcess (TTSEngine.this w)) = true ->
  exists voice speed,
    TTSEngine.log (snd (TTSEngine.speak backend text w))
    = TTSEngine.log w ++ [say.stop; say.speak text voice speed].
Proof.
  intros Ht Hc. unfold TTSEngine.speak.
  destruct text as [|c r]; [exfalso; apply Ht; reflexivity|].
  destruct (Nat.eqb_spec (length (trim (c :: r))) 0) as [E|_].
  { exfalso. apply Ht. destruct (trim (c :: r)); [reflexivity|discriminate]. }
  eexists _, _.
  unfold bind at 1. unfold TTSEngine.stop, bind at 1. unfold gets at 1.
  rewrite Hc. unfold try_catch at 1. unfold bind at 1.
  unfold TTSEngine.say_stop at 1. cbn [TTSEngine.log TTSEngine.this].
  destruct (say.stop_returns backend (TTSEngine.log w ++ [say.stop]));
    unfold TTSEngine.set_currentProcess, modify, ret, bind, gets, try_catch,
      TTSEngine.say_speak;
    cbn [TTSEngine.log TTSEngine.this TTSEngine.voiceConfig];
    match goal with
    | |- context [say.speak_returns backend ?log] =>
        destruct (say.speak_returns backend log)
    end; cbn [snd TTSEngine.log]; rewrite <- app_assoc; reflexivity.
Qed.

(** The other way round: while [currentProcess] is not set, a request only
    tells the backend to speak. *)
Lemma speak_without_current (backend : say.behaviour) (text : jsstring)
  (w : TTSEngine.world) :
  trim text <> [] ->
  say.truthy (TTSEngine.currentProcess (TTSEngine.this w)) = false ->
  exists voice speed,
    TTSEngine.log (snd (TTSEngine.speak backend text w))
    = TTSEngine.log w ++ [say.speak text voice speed].
Proof.
  intros Ht Hc. unfold TTSEngine.speak.
  destruct text as [|c r]; [exfalso; apply Ht; reflexivity|].
  destruct (Nat.eqb_spec (length (trim (c :: r))) 0) as [E|_].
  { exfalso. apply Ht. destruct (trim (c :: r)); [reflexivity|discriminate]. }
  eexists _, _.
  unfold bind at 1. unfold TTSEngine.stop, bind at 1. unfold gets at 1.
  rewrite Hc.
  unfold TTSEngine.set_currentProcess, modify, ret, bind, gets, try_catch,
    TTSEngine.say_speak.
  cbn [TTSEngine.log TTSEngine.this TTSEngine.voiceConfig].
  match goal with
  | |- context [say.speak_returns backend ?log] =>
      destruct (say.speak_returns backend log)
  end; reflexivity.
Qed.

(** With a backend whose [say.speak] returns nothing the engine never holds
    a handle, and no request tells the backend to stop. *)
Example speak_without_handle :
  TTSEngine.log
    (after (TTSEngine.speak void_backend (str "Second"))
       (after (TTSEngine.speak void_backend (str "First")) new_engine))
  = [say.speak (str "First") None (of_Z 200);
     say.speak (str "Second") None (of_Z 200)].
Proof. vm_compute. reflexivity. Qed.

(** C6 on three requests with the mock backend. When the third request is
    made one utterance, the second, is still unresolved, yet the request
    adds only its [say.speak] to the log and no [say.stop]: the callback of
    the first utterance has cleared [currentProcess] in between. *)
Theorem speak_after_stale_callback_does_not_stop :
  TTSEngine.log two_requests
  = [say.speak (str "First") None (of_Z 200);
     say.stop;
     say.speak (str "Second") None (of_Z 200);
     say.completed None]
  /\ say.unresolved (TTSEngine.log two_requests) = 1
  /\ trim (str "Third") <> []
  /\ TTSEngine.log three_requests
     = TTSEngine.log two_requests ++ [say.speak (str "Third") None (of_Z 200)].
Proof.
  split; [vm_compute; reflexivity|]. split; [vm_compute; reflexivity|].
  split; [vm_compute; discriminate|]. vm_compute. reflexivity.
Qed.

(** ** speakText *)

Lemma speakText_not_valid (backend : say.behaviour) (text : jsstring)
  (s : TTSCopilot.t) :
  TextProcessor.isValidForTTS (TextProcessor.parseText text) = false ->
  TTSCopilot.speakText backend text s
  = (Normal (Settled (Throw (Error (str "Text is not suitable for TTS conversion")))),
     s).
Proof. intros H. unfold TTSCopilot.speakText. rewrite H. reflexivity. Qed.

(** C5. [speakText] of the empty text and of 1001 times the letter a are
    rejected with the error for unsuitable text and leave the whole state
    as it was: the backend has received no call. *)
Theorem speakText_rejects_before_backend (backend : say.behaviour) (s : TTSCopilot.t) :
  let rejected :=
    Normal (Settled (Throw (Error (str "Text is not suitable for TTS conversion")))) in
  TTSCopilot.speakText backend [] s = (rejected, s)
  /\ TTSCopilot.speakText backend (repeat 97%N 1001) s = (rejected, s)
  /\ TTSCopilot.backend_log (snd (TTSCopilot.speakText backend [] s))
     = TTSCopilot.backend_log s
  /\ TTSCopilot.backend_log
       (snd (TTSCopilot.speakText backend (repeat 97%N 1001) s))
     = TTSCopilot.backend_log s.
Proof.
  assert (H0 : TextProcessor.isValidForTTS (TextProcessor.parseText []) = false)
    by reflexivity.
  assert (H1 : TextProcessor.isValidForTTS
                 (TextProcessor.parseText (repeat 97%N 1001)) = false)
    by (vm_compute; reflexivity).
  cbv zeta. rewrite (speakText_not_valid backend [] s H0).
  rewrite (speakText_not_valid backend (repeat 97%N 1001) s H1).
  repeat split.
Qed.

(** ** The lifecycle of the orchestrator *)

Lemma keeps_ret {A : Type} (a : A) : keeps_isRunning (ret a).
Proof. intros s. reflexivity. Qed.

Lemma keeps_throw {A : Type} (e : exn) : keeps_isRunning (@throw _ A e).
Proof. intros s. reflexivity. Qed.

Lemma keeps_gets {A : Type} (f : TTSCopilot.t -> A) : keeps_isRunning (gets f).
Proof. intros s. reflexivity. Qed.

Lemma keeps_bind {A B : Type} (m : method TTSCopilot.t A)
  (k : A -> method TTSCopilot.t B) :
  keeps_isRunning m -> (forall a, keeps_isRunning (k a)) ->
  keeps_isRunning (bind m k).
Proof.
  intros Hm Hk s. unfold bind. specialize (Hm s).
  destruct (m s) as [[a|e] s']; simpl in *; [|exact Hm].
  rewrite (Hk a s'). exact Hm.
Qed.

Lemma keeps_try_catch {A : Type} (m : method TTSCopilot.t A)
  (handler : exn -> method TTSCopilot.t A) :
  keeps_isRunning m -> (forall e, keeps_isRunning (handler e)) ->
  keeps_isRunning (try_catch m handler).
Proof.
  intros Hm Hh s. unfold try_catch. specialize (Hm s).
  destruct (m s) as [[a|e] s']; simpl in *; [exact Hm|].
  rewrite (Hh e s'). exact Hm.
Qed.

Lemma keeps_on_heap {A : Type} (m : method heap A) :
  keeps_isRunning (TTSCopilot.on_heap m).
Proof.
  intros s. unfold TTSCopilot.on_heap, zoom.
  destruct (m (TTSCopilot.objects s)). reflexivity.
Qed.

Lemma keeps_on_engine {A : Type} (m : method TTSEngine.world A) :
  keeps_isRunning (TTSCopilot.on_engine m).
Proof.
  intros s. unfold TTSCopilot.on_engine, zoom.
  destruct (m (TTSCopilot.engine_world s)). reflexivity.
Qed.

Lemma keeps_on_copilot {A : Type} (m : method CopilotIntegration.t A) :
  keeps_isRunning (TTSCopilot.on_copilot m).
Proof.
  intros s. unfold TTSCopilot.on_copilot, zoom.
  destruct (m (TTSCopilot.copilotIntegration s)). reflexivity.
Qed.

Lemma keeps_modify_binds (f : nat -> nat) :
  keeps_isRunning
    (modify (fun s =>
       TTSCopilot.mk (TTSCopilot.objects s) (TTSCopilot.backend_log s)
         (TTSCopilot.configManager s) (TTSCopilot.ttsEngine s)
         (TTSCopilot.copilotIntegration s) (TTSCopilot.isRunning s)
         (f (TTSCopilot.binds s)))).
Proof. intros s. reflexivity. Qed.

Create HintDb keeps.
#[local] Hint Resolve keeps_ret keeps_throw keeps_gets keeps_on_heap
  keeps_on_engine keeps_on_copilot keeps_modify_binds : keeps.

(** Follow the structure of a method: its binds, handlers and branches. *)
Ltac keeps :=
  repeat first
    [ solve [auto with keeps]
    | apply keeps_bind; [|intros ?]
    | apply keeps_try_catch; [|intros ?]
    | match goal with
      | |- keeps_isRunning (if ?b then _ else _) => destruct b
      | |- keeps_isRunning (match ?x with _ => _ end) => destruct x
      end ].

Lemma keeps_configManager_getConfig :
  keeps_isRunning TTSCopilot.configManager_getConfig.
Proof. unfold TTSCopilot.configManager_getConfig. keeps. Qed.

Lemma keeps_config_copilot (config : loc) :
  keeps_isRunning (TTSCopilot.config_copilot config).
Proof. unfold TTSCopilot.config_copilot. keeps. Qed.

Lemma keeps_config_copilot_enabled (config : loc) :
  keeps_isRunning (TTSCopilot.config_copilot_enabled config).
Proof.
  unfold TTSCopilot.config_copilot_enabled.
  apply keeps_bind; [apply keeps_config_copilot|]. intros lc. keeps.
Qed.

#[local] Hint Resolve keeps_configManager_getConfig keeps_config_copilot
  keeps_config_copilot_enabled : keeps.

(** Only [start] and [stop] change [isRunning]. *)
Lemma others_keep_isRunning (backend : say.behaviour) :
  keeps_isRunning TTSCopilot.initialize
  /\ (forall text, keeps_isRunning (TTSCopilot.speakText backend text))
  /\ (forall voiceConfig, keeps_isRunning (TTSCopilot.updateVoiceConfig voiceConfig))
  /\ (forall copilotConfig,
        keeps_isRunning (TTSCopilot.updateCopilotConfig copilotConfig))
  /\ (forall enabled, keeps_isRunning (TTSCopilot.setRealTimeEnabled enabled))
  /\ (forall suggestion,
        keeps_isRunning (TTSCopilot.handleCopilotSuggestion backend suggestion)).
Proof.
  repeat split; intros.
  - unfold TTSCopilot.initialize. keeps.
  - unfold TTSCopilot.speakText. keeps.
  - unfold TTSCopilot.updateVoiceConfig. keeps.
  - unfold TTSCopilot.updateCopilotConfig. keeps.
  - unfold TTSCopilot.setRealTimeEnabled. keeps.
  - unfold TTSCopilot.handleCopilotSuggestion. keeps.
Qed.

Lemma configManager_getConfig_returns (s : TTSCopilot.t) :
  exists config s', TTSCopilot.configManager_getConfig s = (Normal config, s').
Proof.
  unfold TTSCopilot.configManager_getConfig, bind, gets, TTSCopilot.on_heap, zoom,
    lift.
  rewrite getConfig_eq. eexists _, _. reflexivity.
Qed.

(** [start] from the idle state ends in the running state, also when its
    promise is rejected. *)
Lemma start_from_idle (s : TTSCopilot.t) :
  TTSCopilot.isRunning s = false ->
  TTSCopilot.isRunning (snd (TTSCopilot.start s)) = true.
Proof.
  intros H. unfold TTSCopilot.start. unfold bind at 1. unfold gets at 1.
  rewrite H. unfold bind at 1.
  destruct (configManager_getConfig_returns s) as [config [s1 ->]].
  unfold bind at 1. unfold TTSCopilot.set_isRunning at 1. unfold modify at 1.
  match goal with
  | |- TTSCopilot.isRunning (snd (?rest ?s2)) = true =>
      assert (K : keeps_isRunning rest); [|rewrite (K s2); reflexivity]
  end.
  keeps.
Qed.

Lemma stop_from_running (backend : say.behaviour) (s : TTSCopilot.t) :
  TTSCopilot.isRunning s = true ->
  TTSCopilot.isRunning (snd (TTSCopilot.stop backend s)) = false.
Proof.
  intros H. unfold TTSCopilot.stop. unfold bind at 1. unfold gets at 1.
  rewrite H. cbn [negb]. unfold bind at 1.
  unfold TTSCopilot.set_isRunning at 1. unfold modify at 1.
  match goal with
  | |- TTSCopilot.isRunning (snd (?rest ?s2)) = false =>
      assert (K : keeps_isRunning rest); [|rewrite (K s2); reflexivity]
  end.
  keeps.
Qed.

(** C7. A new orchestrator is idle. [start] takes the idle state to the
    running state and does nothing in the running state; [stop] takes the
    running state to the idle state and does nothing in the idle state. So
    two calls of [start] end in the running state, and [stop] on a new
    orchestrator leaves it as it is. *)
Theorem lifecycle (backend : say.behaviour) :
  (forall initialConfig h,
      TTSCopilot.isRunning (TTSCopilot.constructor initialConfig h) = false
      /\ TTSCopilot.stop backend (TTSCopilot.constructor initialConfig h)
         = (Normal tt, TTSCopilot.constructor initialConfig h))
  /\ (forall s, TTSCopilot.isRunning s = false ->
        TTSCopilot.isRunning (snd (TTSCopilot.start s)) = true)
  /\ (forall s, TTSCopilot.isRunning s = true ->
        TTSCopilot.start s = (Normal tt, s))
  /\ (forall s, TTSCopilot.isRunning s = true ->
        TTSCopilot.isRunning (snd (TTSCopilot.stop backend s)) = false)
  /\ (forall s, TTSCopilot.isRunning s = false ->
        TTSCopilot.stop backend s = (Normal tt, s))
  /\ (forall s,
        TTSCopilot.isRunning
          (snd (TTSCopilot.start (snd (TTSCopilot.start s))))
        = true).
Proof.
  assert (Hstart : forall s, TTSCopilot.isRunning s = true ->
                     TTSCopilot.start s = (Normal tt, s)).
  { intros s H. unfold TTSCopilot.start, bind, gets. rewrite H. reflexivity. }
  assert (Hstop : forall s, TTSCopilot.isRunning s = false ->
                    TTSCopilot.stop backend s = (Normal tt, s)).
  { intros s H. unfold TTSCopilot.stop, bind, gets. rewrite H. reflexivity. }
  split; [|split; [|split; [|split; [|split]]]].
  - intros initialConfig h.
    assert (Hidle : TTSCopilot.isRunning (TTSCopilot.constructor initialConfig h)
                    = false).
    { unfold TTSCopilot.constructor. rewrite constructor_eq, getConfig_eq.
      reflexivity. }
    split; [exact Hidle|apply Hstop, Hidle].
  - apply start_from_idle.
  - exact Hstart.
  - apply stop_from_running.
  - exact Hstop.
  - intros s. destruct (TTSCopilot.isRunning s) eqn:E.
    + rewrite (Hstart s E). simpl. rewrite (Hstart s E). exact E.
    + pose proof (start_from_idle s E) as H1.
      rewrite (Hstart _ H1). exact H1.
Qed.

(** C7 holds of every state; here it is on a new orchestrator with the
    defaults and the mock backend, started twice and stopped. *)
Lemma lifecycle_witness :
  let app := TTSCopilot.constructor None module_heap in
  TTSCopilot.isRunning app = false
  /\ TTSCopilot.stop mock_backend app = (Normal tt, app)
  /\ TTSCopilot.isRunning (snd (TTSCopilot.start (snd (TTSCopilot.start app))))
     = true
  /\ TTSCopilot.isRunning
       (snd (TTSCopilot.stop mock_backend (snd (TTSCopilot.start app)))) = false.
Proof.
  intros app. destruct (lifecycle mock_backend) as [H0 [H1 [_ [H3 [_ H5]]]]].
  destruct (H0 None module_heap) as [Hidle Hstop]. fold app in Hidle, Hstop.
  split; [exact Hidle|]. split; [exact Hstop|].
  split; [exact (H5 app)|]. exact (H3 _ (H1 app Hidle)).
Defined.

(** ** Notification of the listeners *)

Section Notification.
Context {W : Type} (get : W -> CopilotIntegration.t).
Context (call : CopilotIntegration.listener -> CopilotSuggestion.t -> method W unit).
Context (suggestion : CopilotSuggestion.t) (ls : list CopilotIntegration.listener).

(** The registered listeners may register further listeners when they are
    called, but they leave the ones that are registered where they are. *)
Hypothesis call_keeps_registered : forall l w extra,
  l ∈ ls ->
  CopilotIntegration.suggestionListeners (get w) = ls ++ extra ->
  exists extra',
    CopilotIntegration.suggestionListeners (get (snd (call l suggestion w)))
    = ls ++ extra'.

Lemma forEach_invokes_rest (n k : nat) (w : W) (extra : list CopilotIntegration.listener) :
  CopilotIntegration.suggestionListeners (get w) = ls ++ extra ->
  n + k = length ls ->
  CopilotIntegration.forEach get call n k suggestion w
  = (drop k ls, invoke_all call suggestion (drop k ls) w).
Proof.
  revert k w extra. induction n as [|n IH]; intros k w extra Hw Hn.
  - simpl. rewrite drop_ge by lia. reflexivity.
  - cbn [CopilotIntegration.forEach]. rewrite Hw.
    destruct (ls !! k) as [l|] eqn:E; [|apply lookup_ge_None in E; lia].
    rewrite (lookup_app_l_Some _ _ _ _ E).
    destruct (call_keeps_registered l w extra (list_elem_of_lookup_2 _ _ _ E) Hw)
      as [extra' Hk].
    rewrite (drop_S _ _ _ E). unfold invoke_all. cbn [fold_left].
    unfold try_catch.
    destruct (call l suggestion w) as [[[]|e] w']; cbn [ret snd] in *;
      rewrite (IH (S k) w' extra' Hk ltac:(lia)); reflexivity.
Qed.

(** Where the notification reaches every listener. When no registered listener removes
    or moves a registered listener while it runs, a notification does not
    throw and its effects are those of calling every listener that was
    registered, once each, in the order of registration, with the
    suggestion: also the listeners after one that throws, and also when
    listeners register further ones. *)
Lemma notifySuggestionListeners_invokes_in_order (w : W) :
  CopilotIntegration.suggestionListeners (get w) = ls ->
  CopilotIntegration.notifySuggestionListeners get call suggestion w
  = (Normal ls, invoke_all call suggestion ls w).
Proof.
  intros Hw. unfold CopilotIntegration.notifySuggestionListeners. rewrite Hw.
  rewrite (forEach_invokes_rest (length ls) 0 w []);
    [reflexivity|rewrite app_nil_r; exact Hw|lia].
Qed.

End Notification.

(** Three listeners of which the second throws and the third registers a
    fourth: the three are called, in order, each with the suggestion. *)
Example notifySuggestionListeners_throwing_and_registering :
  calls (snd (CopilotIntegration.notifySuggestionListeners integration
                throws_and_registers CopilotIntegration.simulated
                (recording_of [0; 1; 2])))
  = [(0, CopilotIntegration.simulated); (1, CopilotIntegration.simulated);
     (2, CopilotIntegration.simulated)].
Proof.
  rewrite (notifySuggestionListeners_invokes_in_order integration
             throws_and_registers CopilotIntegration.simulated [0; 1; 2]).
  - reflexivity.
  - intros l w extra Hl Hw. unfold throws_and_registers, bind, record_call, modify.
    cbn [integration]. destruct (Nat.eqb l 1); [exists extra; exact Hw|].
    destruct (Nat.eqb l 2); [|exists extra; exact Hw].
    exists (extra ++ [3]). cbn. rewrite Hw, <- app_assoc. reflexivity.
  - reflexivity.
Qed.

Lemma unregisters_itself (a : CopilotIntegration.listener)
  (suggestion : CopilotSuggestion.t) (w : recording) :
  unregisters a a suggestion w
  = (Normal tt,
     mkRecording
       (CopilotIntegration.mk
          (CopilotIntegration.config (integration w))
          (CopilotIntegration.connected (integration w))
          (CopilotIntegration.listening (integration w))
          (CopilotIntegration.remove_first a
             (CopilotIntegration.suggestionListeners (integration w))))
       (calls w ++ [(a, suggestion)])).
Proof.
  unfold unregisters, bind, record_call, modify. rewrite Nat.eqb_refl. reflexivity.
Qed.

Lemma remove_first_head (a : CopilotIntegration.listener)
  (r : list CopilotIntegration.listener) :
  CopilotIntegration.remove_first a (a :: r) = r.
Proof. cbn [CopilotIntegration.remove_first]. rewrite Nat.eqb_refl. reflexivity. Qed.

(** C8, as the code has it. [notifySuggestionListeners] walks the array of
    the listeners itself and not a copy of it. With two listeners [a] and
    [b] registered in that order, of which [a] unregisters itself when it
    is called, a notification calls [a] and never calls [b]: the record of
    the calls holds the call of [a] only, although [b] was registered
    before the notification and is still registered after it. *)
Theorem notifySuggestionListeners_misses_listener
  (a b : CopilotIntegration.listener) (suggestion : CopilotSuggestion.t) :
  let w := recording_of [a; b] in
  let w' := snd (CopilotIntegration.notifySuggestionListeners integration
                   (unregisters a) suggestion w) in
  CopilotIntegration.suggestionListeners (integration w) = [a; b]
  /\ calls w = []
  /\ calls w' = [(a, suggestion)]
  /\ CopilotIntegration.suggestionListeners (integration w') = [b].
Proof.
  cbv zeta.
  assert (Hw : recording_of [a; b]
               = mkRecording
                   (CopilotIntegration.mk
                      (CopilotConfig.mk Absent Absent (Present false))
                      false false [a; b]) []) by reflexivity.
  rewrite Hw. split; [reflexivity|]. split; [reflexivity|].
  unfold CopilotIntegration.notifySuggestionListeners.
  cbn [integration CopilotIntegration.suggestionListeners length
       CopilotIntegration.forEach lookup list_lookup].
  unfold try_catch. rewrite unregisters_itself.
  cbn [integration calls CopilotIntegration.suggestionListeners
       CopilotIntegration.config CopilotIntegration.connected
       CopilotIntegration.listening app].
  rewrite remove_first_head.
  cbn [integration CopilotIntegration.suggestionListeners lookup list_lookup
       snd calls].
  split; reflexivity.
Qed.

(** C8 on the listeners 0 and 1 and the suggestion of the simulated
    stream: listener 1 is not called. *)
Lemma notifySuggestionListeners_misses_listener_witness :
  calls (snd (CopilotIntegration.notifySuggestionListeners integration
                (unregisters 0) CopilotIntegration.simulated
                (recording_of [0; 1])))
  = [(0, CopilotIntegration.simulated)]
  /\ CopilotIntegration.suggestionListeners
       (integration
          (snd (CopilotIntegration.notifySuggestionListeners integration
                  (unregisters 0) CopilotIntegration.simulated
                  (recording_of [0; 1]))))
     = [1].
Proof.
  destruct (notifySuggestionListeners_misses_listener 0 1
              CopilotIntegration.simulated) as [_ [_ [H1 H2]]].
  split; [exact H1|exact H2].
Defined.

(** The listener the orchestrator registers leaves the listeners alone. *)
Lemma handleCopilotSuggestion_keeps_listeners (backend : say.behaviour)
  (suggestion : CopilotSuggestion.t) (s : TTSCopilot.t) :
  TTSCopilot.copilotIntegration
    (snd (TTSCopilot.handleCopilotSuggestion backend suggestion s))
  = TTSCopilot.copilotIntegration s.
Proof.
  unfold TTSCopilot.handleCopilotSuggestion, bind, gets, try_catch, ret.
  destruct (TTSCopilot.isRunning s); [|reflexivity]. cbn [negb].
  destruct (TextProcessor.isValidForTTS _); [|reflexivity].
  unfold TTSCopilot.on_engine, zoom.
  destruct (TTSEngine.speak backend _ (TTSCopilot.engine_world s)) as [[p|e] w];
    reflexivity.
Qed.

(** ** Updating the configuration of the suggestion source *)

Lemma copilot_of_insert (v : gmap loc VoiceConfig.t) (c : gmap loc CopilotConfig.t)
  (m : gmap loc TTSCopilotConfig.t) (l : loc) (x : CopilotConfig.t) :
  copilot_of (mkHeap v (<[l := x]> c) m) (Some l) = x.
Proof. unfold copilot_of. cbn [copilots]. rewrite lookup_insert_eq. reflexivity. Qed.

Lemma bind_Normal {S A B : Type} (m : method S A) (k : A -> method S B)
  (s s' : S) (a : A) :
  m s = (Normal a, s') -> bind m k s = k a s'.
Proof. intros H. unfold bind. rewrite H. reflexivity. Qed.

Lemma config_copilot_enabled_eq (config lc : loc) (s : TTSCopilot.t) :
  read (TTSCopilotConfig.copilot (config_of (TTSCopilot.objects s) (Some config)))
  = Some lc ->
  TTSCopilot.config_copilot_enabled config s
  = (Normal (truthy (read (CopilotConfig.enabled
                             (copilot_of (TTSCopilot.objects s) (Some lc))))), s).
Proof.
  intros H. unfold TTSCopilot.config_copilot_enabled, TTSCopilot.config_copilot.
  unfold bind, gets. rewrite H. reflexivity.
Qed.

(** C10. When the merged configuration of the suggestion source has
    [enabled] false, [updateCopilotConfig] resolves without initializing
    the integration again: the integration is left as it was, and if it
    was connected [isCopilotConnected] still answers true. *)
Theorem updateCopilotConfig_disabled_keeps_connection
  (copilotConfig : loc) (s : TTSCopilot.t) :
  let h := TTSCopilot.objects s in
  let stored :=
    config_of h (Some (ConfigManager.config (TTSCopilot.configManager s))) in
  let merged :=
    CopilotConfig.spread (copilot_of h (read (TTSCopilotConfig.copilot stored)))
                         (copilot_of h (Some copilotConfig)) in
  CopilotIntegration.connected (TTSCopilot.copilotIntegration s) = true ->
  read (CopilotConfig.enabled merged) = Some false ->
  exists s',
    TTSCopilot.updateCopilotConfig copilotConfig s = (Normal (Settled (Normal tt)), s')
    /\ TTSCopilot.copilotIntegration s' = TTSCopilot.copilotIntegration s
    /\ fst (TTSCopilot.isCopilotConnected s') = Normal true.
Proof.
  intros h stored merged Hconn Hen.
  set (lc := fresh (dom (copilots h))).
  set (h1 := mkHeap (voices h) (<[lc := merged]> (copilots h))
               (<[ConfigManager.config (TTSCopilot.configManager s) :=
                    TTSCopilotConfig.mk (TTSCopilotConfig.voice stored)
                      (TTSCopilotConfig.realTimeEnabled stored) (Present lc)]>
                  (configs h))).
  set (s1 := TTSCopilot.set_objects h1 s).
  set (l2 := fresh (dom (configs h1))).
  set (h2 := mkHeap (voices h1) (copilots h1)
               (<[l2 := config_of h1 (Some (ConfigManager.config
                                              (TTSCopilot.configManager s)))]>
                  (configs h1))).
  set (s2 := TTSCopilot.set_objects h2 s1).
  assert (E1 : TTSCopilot.on_heap
                 (ConfigManager.updateCopilotConfig (TTSCopilot.configManager s)
                    copilotConfig) s = (Normal tt, s1)) by reflexivity.
  assert (E2 : TTSCopilot.configManager_getConfig s1 = (Normal l2, s2))
    by reflexivity.
  assert (E3 : TTSCopilot.config_copilot_enabled l2 s2 = (Normal false, s2)).
  { rewrite (config_copilot_enabled_eq l2 lc).
    - unfold s2, h2, h1. cbn [TTSCopilot.set_objects TTSCopilot.objects copilots].
      rewrite copilot_of_insert, Hen. reflexivity.
    - unfold s2, h2. cbn [TTSCopilot.set_objects TTSCopilot.objects].
      rewrite config_of_insert. unfold h1. rewrite config_of_insert. reflexivity. }
  exists s2. split; [|split].
  - unfold TTSCopilot.updateCopilotConfig.
    rewrite (bind_Normal (gets TTSCopilot.configManager) _ s s
               (TTSCopilot.configManager s) eq_refl).
    rewrite (bind_Normal _ _ s s1 tt E1).
    rewrite (bind_Normal _ _ s1 s2 l2 E2).
    unfold try_catch. rewrite (bind_Normal _ _ s2 s2 false E3). reflexivity.
  - reflexivity.
  - cbn. rewrite Hconn. reflexivity.
Qed.

(** C10 on an orchestrator that was connected with [{ enabled: true }] and
    is then given [{ enabled: false }]. *)
Lemma updateCopilotConfig_disabled_keeps_connection_witness :
  CopilotIntegration.connected (TTSCopilot.copilotIntegration connected_app) = true
  /\ exists s',
       TTSCopilot.updateCopilotConfig disable connected_app
       = (Normal (Settled (Normal tt)), s')
       /\ fst (TTSCopilot.isCopilotConnected s') = Normal true.
Proof.
  split; [vm_compute; reflexivity|].
  destruct (updateCopilotConfig_disabled_keeps_connection disable connected_app)
    as [s' [H1 [_ H2]]]; [vm_compute; reflexivity|vm_compute; reflexivity|].
  exists s'. split; assumption.
Defined.

(** * Further properties of the code *)

(** ** TextProcessor *)

(** X1. Whatever the input, [parseText] returns only characters of its
    allow-set: no backtick is left, and the only white space left is the
    space character. *)
Theorem parseText_keeps_only_plain (x : jsstring) (c : N) :
  c ∈ TextProcessor.parseText x ->
  is_plain c = true /\ is_backtick c = false /\ (is_space c = true -> c = 32%N).
Proof.
  intros Hin. pose proof (parseText_plain x) as Hp.
  rewrite Forall_forall in Hp. destruct (Hp c Hin) as [H1 H2].
  split; [exact H1|]. split; [apply is_plain_not_backtick, H1|exact H2].
Qed.

Lemma parseText_keeps_only_plain_witness :
  is_plain 97%N = true /\ is_backtick 97%N = false
  /\ (is_space 97%N = true -> 97%N = 32%N).
Proof.
  apply (parseText_keeps_only_plain (str "`x` a@") 97%N).
  replace (TextProcessor.parseText (str "`x` a@")) with [97%N]
    by (vm_compute; reflexivity).
  apply elem_of_cons. left. reflexivity.
Defined.

Lemma replace_from_length (re : regex) (by_ : jsstring) (k : nat) (s : jsstring) :
  (length by_ <= 1)%nat ->
  (length (replace_from re by_ k s) <= length s)%nat.
Proof.
  intros Hby. revert k. induction s as [|c r IH]; intros k; [simpl; lia|].
  destruct k as [|k]; cbn [replace_from].
  - destruct (re (c :: r)) as [[|k']|].
    + specialize (IH 0%nat). simpl. lia.
    + specialize (IH k'). rewrite length_app. simpl. lia.
    + specialize (IH 0%nat). simpl. lia.
  - specialize (IH k). simpl. lia.
Qed.

Lemma trim_length (s : jsstring) : (length (trim s) <= length s)%nat.
Proof.
  unfold trim. rewrite length_rev.
  pose proof (drop_while_length is_space (rev (drop_while is_space s))) as H1.
  pose proof (drop_while_length is_space s) as H2.
  rewrite length_rev in H1. lia.
Qed.

Lemma replace_length (re : regex) (by_ : jsstring) (s : jsstring) :
  (length by_ <= 1)%nat -> (length (replace re by_ s) <= length s)%nat.
Proof. apply replace_from_length. Qed.

(** X2. [parseText] never returns a text longer than the one it was
    given. *)
Theorem parseText_length (x : jsstring) :
  (length (TextProcessor.parseText x) <= length x)%nat.
Proof.
  assert (E0 : (length (@nil N) <= 1)%nat) by (simpl; lia).
  assert (E1 : (length [32%N] <= 1)%nat) by (simpl; lia).
  unfold TextProcessor.parseText. destruct x as [|c r]; [simpl; lia|].
  eapply Nat.le_trans; [apply (replace_length _ _ _ E0)|].
  eapply Nat.le_trans; [apply trim_length|].
  eapply Nat.le_trans; [apply (replace_length _ _ _ E1)|].
  eapply Nat.le_trans; [apply (replace_length _ _ _ E0)|].
  apply (replace_length _ _ _ E0).
Qed.

(** X3. A text made of characters of the allow-set, whose white space is
    single space characters with none at either end, is returned by
    [parseText] as it is. *)
Theorem parseText_fixes_tidy_plain (y : jsstring) :
  Forall plain y -> tidy y = true -> TextProcessor.parseText y = y.
Proof.
  intros Hp Ht. rewrite (parseText_of_plain y Hp). apply tidy_fixed; assumption.
Qed.

Lemma is_plain_text_spec (s : jsstring) :
  is_plain_text s = true -> Forall plain s.
Proof.
  unfold is_plain_text. intros H. apply Forall_forall. intros c Hc.
  rewrite forallb_forall in H. specialize (H c (proj1 (list_elem_of_In _ _) Hc)).
  apply andb_true_iff in H as [H1 H2]. split; [exact H1|]. intros Hs.
  rewrite Hs in H2. simpl in H2. apply N.eqb_eq. exact H2.
Qed.

Lemma parseText_fixes_tidy_plain_witness :
  TextProcessor.parseText (str "Hello, world! How are you? Fine.")
  = str "Hello, world! How are you? Fine.".
Proof.
  apply parseText_fixes_tidy_plain.
  - apply is_plain_text_spec. vm_compute. reflexivity.
  - vm_compute. reflexivity.
Defined.

Lemma space_not_backtick (c : N) : is_space c = true -> is_backtick c = false.
Proof.
  intros H. apply is_plain_not_backtick. unfold is_plain. rewrite H.
  rewrite orb_true_r. reflexivity.
Qed.

Lemma replace_spaces_blank (c : N) (r : jsstring) :
  forallb is_space (c :: r) = true -> replace re_spaces [32%N] (c :: r) = [32%N].
Proof.
  simpl. intros H. apply andb_true_iff in H as [Hc Hr].
  rewrite (replace_spaces_space c r Hc).
  apply drop_while_nil_iff in Hr. rewrite Hr. reflexivity.
Qed.

(** X4. A text of white space only is turned into the empty text by
    [parseText], so [speakText] rejects it and leaves the state, the log of
    the backend included, as it was. *)
Theorem speakText_rejects_blank (backend : say.behaviour) (text : jsstring)
  (s : TTSCopilot.t) :
  forallb is_space text = true ->
  TextProcessor.parseText text = []
  /\ TTSCopilot.speakText backend text s
     = (Normal (Settled (Throw (Error (str "Text is not suitable for TTS conversion")))),
        s).
Proof.
  intros H.
  assert (E : TextProcessor.parseText text = []).
  { unfold TextProcessor.parseText. destruct text as [|c r]; [reflexivity|].
    assert (Hb : Forall (fun c => is_backtick c = false) (c :: r)).
    { apply Forall_forall. intros d Hd. apply space_not_backtick.
      rewrite forallb_forall in H. apply H, list_elem_of_In, Hd. }
    rewrite (replace_code_block_none _ Hb), (replace_inline_code_none _ Hb).
    rewrite (replace_spaces_blank c r H). reflexivity. }
  split; [exact E|]. apply speakText_not_valid. rewrite E. reflexivity.
Qed.

Lemma speakText_rejects_blank_witness :
  TextProcessor.parseText (str "   ") = []
  /\ TTSCopilot.speakText mock_backend (str "   ")
       (TTSCopilot.constructor None module_heap)
     = (Normal (Settled (Throw (Error (str "Text is not suitable for TTS conversion")))),
        TTSCopilot.constructor None module_heap).
Proof. apply speakText_rejects_blank. vm_compute. reflexivity. Defined.

(** ** ConfigManager *)

Lemma validateVoiceConfig_accepts (this : ConfigManager.t) (h : heap) (lv : loc) :
  read (TTSCopilotConfig.voice (config_of h (Some (ConfigManager.config this))))
  = Some lv ->
  out_of_range (observed_voice this h) = false ->
  ConfigManager.validateVoiceConfig this h = (Normal tt, h).
Proof.
  intros Hv. rewrite observed_voice_eq, Hv. unfold out_of_range.
  unfold ConfigManager.validateVoiceConfig, bind, gets, throw, ret.
  cbn beta iota. rewrite Hv. cbn beta iota. intros H.
  apply orb_false_iff in H as [H1 H]. apply orb_false_iff in H as [H2 H3].
  rewrite H1, H2, H3. reflexivity.
Qed.

Lemma after_voice_update_voice (this : ConfigManager.t) (voiceConfig : loc)
  (h : heap) :
  read (TTSCopilotConfig.voice
          (config_of (after_voice_update this voiceConfig h)
                     (Some (ConfigManager.config this))))
  = Some (fresh (dom (voices h))).
Proof. unfold after_voice_update. rewrite config_of_insert. reflexivity. Qed.

(** X5. When the merged voice configuration is in range,
    [updateVoiceConfig] returns normally, [getConfig] then shows the merged
    configuration (the properties the update lacks keep their values), and
    the copilot part and [realTimeEnabled] are as before. *)
Theorem updateVoiceConfig_accepts_in_range
  (this : ConfigManager.t) (voiceConfig : loc) (h : heap) :
  let merged :=
    VoiceConfig.spread (observed_voice this h) (voice_of h (Some voiceConfig)) in
  out_of_range merged = false ->
  exists h',
    ConfigManager.updateVoiceConfig this voiceConfig h = (Normal tt, h')
    /\ observed_voice this h' = merged
    /\ observed_copilot this h' = observed_copilot this h
    /\ observed_realTimeEnabled this h' = observed_realTimeEnabled this h.
Proof.
  intros merged H. exists (after_voice_update this voiceConfig h).
  pose proof (observed_after_voice_update this voiceConfig h) as Hobs.
  fold merged in Hobs. split; [|split; [exact Hobs|]].
  - rewrite updateVoiceConfig_eq.
    apply (validateVoiceConfig_accepts _ _ (fresh (dom (voices h)))).
    + apply after_voice_update_voice.
    + rewrite Hobs. exact H.
  - rewrite !observed_copilot_eq, !observed_realTimeEnabled_eq.
    unfold after_voice_update. rewrite config_of_insert. split; reflexivity.
Qed.

Lemma updateVoiceConfig_accepts_in_range_witness :
  let update :=
    VoiceConfig.mk (Present (decimal 12 10)) (Present (decimal 15 10)) Absent Absent in
  fst (update_store update) = Normal tt
  /\ observed_voice (snd (fst (store_and update))) (snd (update_store update))
     = VoiceConfig.mk (Present (decimal 12 10)) (Present (decimal 15 10))
                      (Present (of_Z 1)) Absent.
Proof.
  intros update.
  destruct (updateVoiceConfig_accepts_in_range
              (snd (fst (store_and update))) (fst (fst (store_and update)))
              (snd (store_and update)))
    as [h' [Hu [Ho _]]]; [vm_compute; reflexivity|].
  change (update_store update)
    with (ConfigManager.updateVoiceConfig
            (snd (fst (store_and update))) (fst (fst (store_and update)))
            (snd (store_and update))).
  rewrite Hu. cbn [fst snd]. split; [reflexivity|]. rewrite Ho.
  vm_compute. reflexivity.
Defined.

(** X6. The range check is made of comparisons, which are all false on
    [NaN] and on [undefined]: a merged configuration whose pitch, speed and
    volume are each [NaN] or missing is accepted and stored. *)
Theorem updateVoiceConfig_accepts_NaN
  (this : ConfigManager.t) (voiceConfig : loc) (h : heap) :
  let merged :=
    VoiceConfig.spread (observed_voice this h) (voice_of h (Some voiceConfig)) in
  to_number (read (VoiceConfig.pitch merged)) = NaN ->
  to_number (read (VoiceConfig.speed merged)) = NaN ->
  to_number (read (VoiceConfig.volume merged)) = NaN ->
  exists h',
    ConfigManager.updateVoiceConfig this voiceConfig h = (Normal tt, h')
    /\ observed_voice this h' = merged.
Proof.
  intros merged Hp Hs Hv. exists (after_voice_update this voiceConfig h).
  pose proof (observed_after_voice_update this voiceConfig h) as Hobs.
  fold merged in Hobs. split; [|exact Hobs].
  rewrite updateVoiceConfig_eq.
  apply (validateVoiceConfig_accepts _ _ (fresh (dom (voices h)))).
  - apply after_voice_update_voice.
  - rewrite Hobs. unfold out_of_range. rewrite Hp, Hs, Hv. reflexivity.
Qed.

Lemma updateVoiceConfig_accepts_NaN_witness :
  fst (update_store all_NaN) = Normal tt
  /\ VoiceConfig.pitch
       (observed_voice (snd (fst (store_and all_NaN))) (snd (update_store all_NaN)))
     = Present NaN.
Proof.
  destruct (updateVoiceConfig_accepts_NaN
              (snd (fst (store_and all_NaN))) (fst (fst (store_and all_NaN)))
              (snd (store_and all_NaN)))
    as [h' [Hu Ho]]; try (vm_compute; reflexivity).
  change (update_store all_NaN)
    with (ConfigManager.updateVoiceConfig
            (snd (fst (store_and all_NaN))) (fst (fst (store_and all_NaN)))
            (snd (store_and all_NaN))).
  rewrite Hu. cbn [fst snd]. split; [reflexivity|]. rewrite Ho.
  vm_compute. reflexivity.
Defined.

Lemma validateVoiceConfig_message (this : ConfigManager.t) (h : heap) (lv : loc) :
  read (TTSCopilotConfig.voice (config_of h (Some (ConfigManager.config this))))
  = Some lv ->
  let v := observed_voice this h in
  let pitch := to_number (read (VoiceConfig.pitch v)) in
  let speed := to_number (read (VoiceConfig.speed v)) in
  let volume := to_number (read (VoiceConfig.volume v)) in
  let pitch_out := less_than pitch (of_Z 0) || less_than (of_Z 2) pitch in
  let speed_out := less_than speed (decimal 1 10) || less_than (of_Z 10) speed in
  let volume_out := less_than volume (of_Z 0) || less_than (of_Z 1) volume in
  (pitch_out = true ->
   ConfigManager.validateVoiceConfig this h
   = (Throw (Error (str "Pitch must be between 0.0 and 2.0")), h))
  /\ (pitch_out = false -> speed_out = true ->
      ConfigManager.validateVoiceConfig this h
      = (Throw (Error (str "Speed must be between 0.1 and 10.0")), h))
  /\ (pitch_out = false -> speed_out = false -> volume_out = true ->
      ConfigManager.validateVoiceConfig this h
      = (Throw (Error (str "Volume must be between 0.0 and 1.0")), h)).
Proof.
  intros Hv. rewrite observed_voice_eq, Hv. cbv zeta.
  unfold ConfigManager.validateVoiceConfig, bind, gets, throw, ret.
  cbn beta iota. rewrite Hv. cbn beta iota.
  split; [|split].
  - intros ->. reflexivity.
  - intros -> ->. reflexivity.
  - intros -> -> ->. reflexivity.
Qed.

(** X7. A rejected update names the first offending property, in the order
    pitch, speed, volume: a pitch out of range gives the pitch error
    whatever the speed and the volume are, and so on. *)
Theorem updateVoiceConfig_error_names_first
  (this : ConfigManager.t) (voiceConfig : loc) (h : heap) :
  let merged :=
    VoiceConfig.spread (observed_voice this h) (voice_of h (Some voiceConfig)) in
  let pitch := to_number (read (VoiceConfig.pitch merged)) in
  let speed := to_number (read (VoiceConfig.speed merged)) in
  let volume := to_number (read (VoiceConfig.volume merged)) in
  let pitch_out := less_than pitch (of_Z 0) || less_than (of_Z 2) pitch in
  let speed_out := less_than speed (decimal 1 10) || less_than (of_Z 10) speed in
  let volume_out := less_than volume (of_Z 0) || less_than (of_Z 1) volume in
  (pitch_out = true ->
   fst (ConfigManager.updateVoiceConfig this voiceConfig h)
   = Throw (Error (str "Pitch must be between 0.0 and 2.0")))
  /\ (pitch_out = false -> speed_out = true ->
      fst (ConfigManager.updateVoiceConfig this voiceConfig h)
      = Throw (Error (str "Speed must be between 0.1 and 10.0")))
  /\ (pitch_out = false -> speed_out = false -> volume_out = true ->
      fst (ConfigManager.updateVoiceConfig this voiceConfig h)
      = Throw (Error (str "Volume must be between 0.0 and 1.0"))).
Proof.
  cbv zeta. rewrite updateVoiceConfig_eq.
  pose proof (validateVoiceConfig_message this
                (after_voice_update this voiceConfig h) (fresh (dom (voices h)))
                (after_voice_update_voice this voiceConfig h)) as H.
  cbv zeta in H. rewrite (observed_after_voice_update this voiceConfig h) in H.
  destruct H as [H1 [H2 H3]]. split; [|split].
  - intros P. rewrite (H1 P). reflexivity.
  - intros P S. rewrite (H2 P S). reflexivity.
  - intros P S V. rewrite (H3 P S V). reflexivity.
Qed.

Lemma updateVoiceConfig_error_names_first_witness :
  let all_out :=
    VoiceConfig.mk (Present (of_Z 5)) (Present (of_Z 50)) (Present (of_Z 5)) Absent in
  let two_out :=
    VoiceConfig.mk Absent (Present (of_Z 50)) (Present (of_Z 5)) Absent in
  let one_out := VoiceConfig.mk Absent Absent (Present (of_Z 5)) Absent in
  fst (update_store all_out) = Throw (Error (str "Pitch must be between 0.0 and 2.0"))
  /\ fst (update_store two_out)
     = Throw (Error (str "Speed must be between 0.1 and 10.0"))
  /\ fst (update_store one_out)
     = Throw (Error (str "Volume must be between 0.0 and 1.0")).
Proof.
  intros all_out two_out one_out. split; [|split].
  - apply (proj1 (updateVoiceConfig_error_names_first
                    (snd (fst (store_and all_out))) (fst (fst (store_and all_out)))
                    (snd (store_and all_out)))).
    vm_compute. reflexivity.
  - apply (proj1 (proj2 (updateVoiceConfig_error_names_first
                    (snd (fst (store_and two_out))) (fst (fst (store_and two_out)))
                    (snd (store_and two_out))))); vm_compute; reflexivity.
  - apply (proj2 (proj2 (updateVoiceConfig_error_names_first
                    (snd (fst (store_and one_out))) (fst (fst (store_and one_out)))
                    (snd (store_and one_out))))); vm_compute; reflexivity.
Defined.

Lemma config_of_mkHeap (v : gmap loc VoiceConfig.t) (c : gmap loc CopilotConfig.t)
  (m : gmap loc TTSCopilotConfig.t) (l : loc) :
  config_of (mkHeap v c m) (Some l) = default TTSCopilotConfig.empty (m !! l).
Proof. reflexivity. Qed.

Lemma voice_of_mkHeap (v : gmap loc VoiceConfig.t) (c : gmap loc CopilotConfig.t)
  (m : gmap loc TTSCopilotConfig.t) (l : loc) :
  voice_of (mkHeap v c m) (Some l) = default VoiceConfig.empty (v !! l).
Proof. reflexivity. Qed.

Lemma copilot_of_mkHeap (v : gmap loc VoiceConfig.t) (c : gmap loc CopilotConfig.t)
  (m : gmap loc TTSCopilotConfig.t) (l : loc) :
  copilot_of (mkHeap v c m) (Some l) = default CopilotConfig.empty (c !! l).
Proof. reflexivity. Qed.

Lemma updateVoiceConfig_state (this : ConfigManager.t) (voiceConfig : loc)
  (h : heap) :
  snd (ConfigManager.updateVoiceConfig this voiceConfig h)
  = after_voice_update this voiceConfig h.
Proof. rewrite updateVoiceConfig_eq. apply validateVoiceConfig_state. Qed.

(** X8. [updateVoiceConfig] writes a new voice object and leaves the old
    one alone: a configuration obtained from [getConfig] before the update
    still shows the voice configuration of that time, whether the update is
    accepted or rejected. *)
Theorem updateVoiceConfig_keeps_snapshot
  (this : ConfigManager.t) (voiceConfig : loc) (h : heap) :
  ConfigManager.config this ∈ dom (configs h) ->
  (forall lv,
      read (TTSCopilotConfig.voice
              (config_of h (Some (ConfigManager.config this)))) = Some lv ->
      lv ∈ dom (voices h)) ->
  let snapshot := ConfigManager.getConfig this h in
  let h' := snd (ConfigManager.updateVoiceConfig this voiceConfig (snd snapshot)) in
  voice_through (fst snapshot) h' = observed_voice this h.
Proof.
  intros Hin Hvoice. cbv zeta. rewrite updateVoiceConfig_state.
  rewrite getConfig_eq. cbn [fst snd]. rewrite observed_voice_eq.
  set (l := fresh (dom (configs h))).
  assert (Hne : ConfigManager.config this <> l).
  { intros E. unfold l in E. rewrite E in Hin. exact (is_fresh _ Hin). }
  unfold voice_through, after_voice_update. cbn [voices copilots configs].
  rewrite (config_of_mkHeap _ _ _ l).
  rewrite lookup_insert_ne by exact Hne. rewrite lookup_insert_eq.
  cbn [default from_option id].
  destruct (read (TTSCopilotConfig.voice
                    (config_of h (Some (ConfigManager.config this)))))
    as [lv|] eqn:E; [|unfold voice_of; reflexivity].
  rewrite (voice_of_mkHeap _ _ _ lv).
  assert (Hlv : fresh (dom (voices h)) <> lv).
  { intros E'. specialize (Hvoice lv eq_refl). rewrite <- E' in Hvoice.
    exact (is_fresh _ Hvoice). }
  rewrite lookup_insert_ne by exact Hlv. reflexivity.
Qed.

Lemma updateVoiceConfig_keeps_snapshot_witness :
  let this := snd (fst (store_and pitch_2_5)) in
  let h := snd (store_and pitch_2_5) in
  let snapshot := ConfigManager.getConfig this h in
  let h' :=
    snd (ConfigManager.updateVoiceConfig this (fst (fst (store_and pitch_2_5)))
           (snd snapshot)) in
  VoiceConfig.pitch (voice_through (fst snapshot) h') = Present (of_Z 1)
  /\ VoiceConfig.pitch (observed_voice this h') = Present (decimal 5 2).
Proof.
  intros this h snapshot h'. split; [|vm_compute; reflexivity].
  unfold h', snapshot.
  rewrite (updateVoiceConfig_keeps_snapshot this
             (fst (fst (store_and pitch_2_5))) h).
  - vm_compute. reflexivity.
  - apply elem_of_dom. eexists. reflexivity.
  - intros lv Hlv. vm_compute in Hlv. injection Hlv as <-.
    apply elem_of_dom. eexists. reflexivity.
Defined.

(** X9. Every call of [getConfig] returns an object of its own: two
    configurations returned in a row are different objects with the same
    properties, neither is the object the store keeps, and the store keeps
    what it had. *)
Theorem getConfig_returns_new_objects (this : ConfigManager.t) (h : heap) :
  ConfigManager.config this ∈ dom (configs h) ->
  let first := ConfigManager.getConfig this h in
  let second := ConfigManager.getConfig this (snd first) in
  fst first <> fst second
  /\ fst first <> ConfigManager.config this
  /\ fst second <> ConfigManager.config this
  /\ config_of (snd second) (Some (fst first))
     = config_of h (Some (ConfigManager.config this))
  /\ config_of (snd second) (Some (fst second))
     = config_of h (Some (ConfigManager.config this))
  /\ config_of (snd second) (Some (ConfigManager.config this))
     = config_of h (Some (ConfigManager.config this)).
Proof.
  intros Hin. cbv zeta.
  pose proof (getConfig_keeps_stored this h) as K1.
  pose proof (getConfig_keeps_stored this (snd (ConfigManager.getConfig this h)))
    as K2.
  pose proof (getConfig_copy this (snd (ConfigManager.getConfig this h))) as C2.
  rewrite K1 in K2, C2.
  rewrite (getConfig_eq this (snd (ConfigManager.getConfig this h))) in *.
  rewrite (getConfig_eq this h) in *. cbn [fst snd configs] in *.
  set (l1 := fresh (dom (configs h))) in *.
  set (c := config_of h (Some (ConfigManager.config this))) in *.
  set (l2 := fresh (dom (<[l1 := c]> (configs h)))) in *.
  assert (H12 : l1 <> l2).
  { intros E. pose proof (is_fresh (dom (<[l1 := c]> (configs h)))) as Hf.
    fold l2 in Hf. rewrite <- E in Hf. apply Hf. apply elem_of_dom.
    rewrite lookup_insert_eq. eexists. reflexivity. }
  assert (H1 : l1 <> ConfigManager.config this).
  { intros E. unfold l1 in E. rewrite <- E in Hin. exact (is_fresh _ Hin). }
  assert (H2 : l2 <> ConfigManager.config this).
  { intros E. pose proof (is_fresh (dom (<[l1 := c]> (configs h)))) as Hf.
    fold l2 in Hf. rewrite E in Hf. apply Hf. apply elem_of_dom.
    rewrite lookup_insert_ne by exact H1. apply elem_of_dom. exact Hin. }
  repeat split; try assumption.
  unfold config_of. cbn [configs].
  rewrite lookup_insert_ne by (intros E; apply H12; symmetry; exact E).
  rewrite lookup_insert_eq. reflexivity.
Qed.

Lemma getConfig_returns_new_objects_witness :
  let this := fst (ConfigManager.constructor None module_heap) in
  let h := snd (ConfigManager.constructor None module_heap) in
  fst (ConfigManager.getConfig this h)
  <> fst (ConfigManager.getConfig this (snd (ConfigManager.getConfig this h))).
Proof.
  intros this h.
  apply (getConfig_returns_new_objects this h).
  apply elem_of_dom. eexists. reflexivity.
Defined.

Lemma spread_nothing (c : TTSCopilotConfig.t) :
  TTSCopilotConfig.spread c TTSCopilotConfig.empty = c.
Proof. destruct c. reflexivity. Qed.

(** X10. Stores built without an initial configuration do not copy the
    voice object of [DEFAULT_CONFIG], they all refer to it: a write to that
    object shows in every one of them. *)
Theorem default_stores_share_voice (h : heap) (lv : loc)
  (f : VoiceConfig.t -> VoiceConfig.t) :
  read (TTSCopilotConfig.voice (config_of h (Some DEFAULT_CONFIG))) = Some lv ->
  let first := ConfigManager.constructor None h in
  let second := ConfigManager.constructor None (snd first) in
  let h' := snd (set_voice lv f (snd second)) in
  observed_voice (fst first) h' = f (voice_of h (Some lv))
  /\ observed_voice (fst second) h' = f (voice_of h (Some lv)).
Proof.
  intros Hd. cbv zeta.
  assert (Hin : is_Some (configs h !! DEFAULT_CONFIG)).
  { unfold config_of in Hd. destruct (configs h !! DEFAULT_CONFIG); [eauto|].
    discriminate. }
  rewrite (constructor_eq None h). cbn [fst snd].
  rewrite constructor_eq. cbn [fst snd configs].
  rewrite set_voice_eq, !observed_voice_eq. cbn [ConfigManager.config configs voices].
  set (d := config_of h (Some DEFAULT_CONFIG)) in *.
  change (config_of h None) with TTSCopilotConfig.empty.
  change (config_of (mkHeap (voices h) (copilots h)
                       (<[fresh (dom (configs h)) :=
                            TTSCopilotConfig.spread d TTSCopilotConfig.empty]>
                          (configs h))) None)
    with TTSCopilotConfig.empty.
  rewrite !spread_nothing.
  set (l1 := fresh (dom (configs h))).
  assert (H1 : l1 <> DEFAULT_CONFIG).
  { intros E. apply elem_of_dom in Hin. rewrite <- E in Hin.
    exact (is_fresh _ Hin). }
  assert (Hd1 : config_of (mkHeap (voices h) (copilots h) (<[l1 := d]> (configs h)))
                  (Some DEFAULT_CONFIG) = d).
  { rewrite config_of_mkHeap. rewrite lookup_insert_ne by exact H1. reflexivity. }
  rewrite Hd1.
  set (l2 := fresh (dom (<[l1 := d]> (configs h)))).
  assert (H12 : l2 <> l1).
  { intros E. pose proof (is_fresh (dom (<[l1 := d]> (configs h)))) as Hf.
    fold l2 in Hf. rewrite E in Hf. apply Hf. apply elem_of_dom.
    rewrite lookup_insert_eq. eauto. }
  rewrite !(config_of_mkHeap _ _ _ l1), !(config_of_mkHeap _ _ _ l2).
  rewrite lookup_insert_eq. rewrite lookup_insert_ne by exact H12.
  rewrite lookup_insert_eq. cbn [default from_option id]. rewrite Hd.
  rewrite !(voice_of_mkHeap _ _ _ lv), lookup_insert_eq. split; reflexivity.
Qed.

Lemma default_stores_share_voice_witness :
  let first := ConfigManager.constructor None module_heap in
  let second := ConfigManager.constructor None (snd first) in
  let h' := snd (set_voice DEFAULT_CONFIG_voice assign_pitch_5 (snd second)) in
  VoiceConfig.pitch (observed_voice (fst first) h') = Present (of_Z 5)
  /\ VoiceConfig.pitch (observed_voice (fst second) h') = Present (of_Z 5).
Proof.
  intros first second h'.
  destruct (default_stores_share_voice module_heap DEFAULT_CONFIG_voice
              assign_pitch_5) as [H1 H2]; [vm_compute; reflexivity|].
  unfold h', second, first. rewrite H1, H2. split; vm_compute; reflexivity.
Defined.

Lemma updateCopilotConfig_eq (this : ConfigManager.t) (copilotConfig : loc)
  (h : heap) :
  let c := config_of h (Some (ConfigManager.config this)) in
  ConfigManager.updateCopilotConfig this copilotConfig h
  = (Normal tt,
     mkHeap (voices h)
       (<[fresh (dom (copilots h)) :=
            CopilotConfig.spread
              (copilot_of h (read (TTSCopilotConfig.copilot c)))
              (copilot_of h (Some copilotConfig))]> (copilots h))
       (<[ConfigManager.config this :=
            TTSCopilotConfig.mk (TTSCopilotConfig.voice c)
              (TTSCopilotConfig.realTimeEnabled c)
              (Present (fresh (dom (copilots h))))]> (configs h))).
Proof. reflexivity. Qed.

Lemma setRealTimeEnabled_eq (this : ConfigManager.t) (enabled : bool) (h : heap) :
  let c := config_of h (Some (ConfigManager.config this)) in
  ConfigManager.setRealTimeEnabled this enabled h
  = (Normal tt,
     mkHeap (voices h) (copilots h)
       (<[ConfigManager.config this :=
            TTSCopilotConfig.mk (TTSCopilotConfig.voice c) (Present enabled)
              (TTSCopilotConfig.copilot c)]> (configs h))).
Proof. reflexivity. Qed.

(** X11. [updateCopilotConfig] and [setRealTimeEnabled] never fail,
    whatever the values: afterwards [getConfig] shows the copilot
    configuration merged with the update (the properties the update lacks
    are kept), or the new flag, and the rest of the configuration is as
    before. *)
Theorem updateCopilotConfig_and_setRealTimeEnabled
  (this : ConfigManager.t) (h : heap) :
  (forall copilotConfig,
      exists h',
        ConfigManager.updateCopilotConfig this copilotConfig h = (Normal tt, h')
        /\ observed_copilot this h'
           = CopilotConfig.spread (observed_copilot this h)
                                  (copilot_of h (Some copilotConfig))
        /\ observed_voice this h' = observed_voice this h
        /\ observed_realTimeEnabled this h' = observed_realTimeEnabled this h)
  /\ (forall enabled,
         exists h',
           ConfigManager.setRealTimeEnabled this enabled h = (Normal tt, h')
           /\ observed_realTimeEnabled this h' = Some enabled
           /\ observed_voice this h' = observed_voice this h
           /\ observed_copilot this h' = observed_copilot this h).
Proof.
  split.
  - intros copilotConfig. eexists. split; [apply updateCopilotConfig_eq|].
    rewrite !observed_copilot_eq, !observed_voice_eq, !observed_realTimeEnabled_eq.
    cbn [ConfigManager.config]. rewrite config_of_insert.
    cbn [TTSCopilotConfig.copilot TTSCopilotConfig.voice
         TTSCopilotConfig.realTimeEnabled read].
    rewrite copilot_of_insert. repeat split.
  - intros enabled. eexists. split; [apply setRealTimeEnabled_eq|].
    rewrite !observed_copilot_eq, !observed_voice_eq, !observed_realTimeEnabled_eq.
    cbn [ConfigManager.config]. rewrite config_of_insert. repeat split.
Qed.

(** ** TTSEngine *)

Lemma world_eta (w : TTSEngine.world) :
  TTSEngine.mkWorld (TTSEngine.this w) (TTSEngine.log w) = w.
Proof. destruct w. reflexivity. Qed.

Lemma stop_eq (backend : say.behaviour) (w : TTSEngine.world) :
  TTSEngine.stop backend w
  = (Normal tt,
     if say.truthy (TTSEngine.currentProcess (TTSEngine.this w)) then
       match say.stop_returns backend (TTSEngine.log w ++ [say.stop]) with
       | Normal _ =>
           TTSEngine.mkWorld
             (TTSEngine.mk (TTSEngine.voiceConfig (TTSEngine.this w)) say.null)
             (TTSEngine.log w ++ [say.stop])
       | Throw _ =>
           TTSEngine.mkWorld (TTSEngine.this w) (TTSEngine.log w ++ [say.stop])
       end
     else w).
Proof.
  unfold TTSEngine.stop, bind, gets.
  destruct (say.truthy _); [|reflexivity].
  unfold try_catch, bind, TTSEngine.say_stop.
  destruct (say.stop_returns backend _) as [[]|e]; reflexivity.
Qed.

Lemma stop_voiceConfig (backend : say.behaviour) (w : TTSEngine.world) :
  TTSEngine.voiceConfig (TTSEngine.this (snd (TTSEngine.stop backend w)))
  = TTSEngine.voiceConfig (TTSEngine.this w).
Proof.
  rewrite stop_eq. cbn [snd]. destruct (say.truthy _); [|reflexivity].
  destruct (say.stop_returns backend _); reflexivity.
Qed.

Lemma speak_eq (backend : say.behaviour) (text : jsstring) (w : TTSEngine.world) :
  trim text <> [] ->
  let stopped := snd (TTSEngine.stop backend w) in
  let config := TTSEngine.voiceConfig (TTSEngine.this w) in
  let log' :=
    TTSEngine.log stopped
    ++ [say.speak text (voice_argument config) (speed_argument config)] in
  TTSEngine.speak backend text w
  = match say.speak_returns backend log' with
    | Normal process =>
        (Normal Pending,
         TTSEngine.mkWorld (TTSEngine.mk config process) log')
    | Throw e =>
        (Normal (Settled (Throw (TTS_Error e))),
         TTSEngine.mkWorld (TTSEngine.this stopped) log')
    end.
Proof.
  intros Ht. cbv zeta. unfold TTSEngine.speak.
  destruct text as [|c r]; [exfalso; apply Ht; reflexivity|].
  destruct (Nat.eqb_spec (length (trim (c :: r))) 0) as [E|_].
  { exfalso. apply Ht. destruct (trim (c :: r)); [reflexivity|discriminate]. }
  pose proof (stop_voiceConfig backend w) as Hv.
  unfold bind at 1. rewrite stop_eq in *. cbn [snd] in *.
  set (stopped := if say.truthy _ then _ else _) in *.
  unfold bind, gets, try_catch, TTSEngine.say_speak, TTSEngine.set_currentProcess,
    modify, ret, voice_argument, speed_argument, TTS_Error.
  cbn [TTSEngine.log TTSEngine.this TTSEngine.voiceConfig]. rewrite Hv.
  destruct (say.speak_returns backend _); reflexivity.
Qed.

Lemma speak_blank_is_settled (backend : say.behaviour) (text : jsstring)
  (w : TTSEngine.world) :
  forallb is_space text = true ->
  TTSEngine.speak backend text w = (Normal (Settled (Normal tt)), w).
Proof.
  intros H. apply trim_nil_iff in H. unfold TTSEngine.speak.
  destruct text as [|c r]; [reflexivity|]. rewrite H. reflexivity.
Qed.

(** X12. [speak] of a text that is empty or consists of white space
    resolves at once and does nothing: the backend is called neither to
    stop nor to speak, and the utterance in progress goes on. *)
Theorem speak_blank_does_nothing (backend : say.behaviour) (text : jsstring)
  (w : TTSEngine.world) :
  forallb is_space text = true ->
  TTSEngine.speak backend text w = (Normal (Settled (Normal tt)), w).
Proof.
  intros H. apply trim_nil_iff in H. unfold TTSEngine.speak.
  destruct text as [|c r]; [reflexivity|]. rewrite H. reflexivity.
Qed.

Lemma speak_blank_does_nothing_witness :
  TTSEngine.speak failing_backend (str "  ") speaking_engine
  = (Normal (Settled (Normal tt)), speaking_engine).
Proof.
  apply (speak_blank_does_nothing failing_backend (str "  ") speaking_engine).
  reflexivity.
Defined.

(** X13. [speak] of a text that is not blank never throws to its caller. It
    sends one request to the backend, after what [stop] did. When
    [say.speak] throws, the promise is rejected with the message of the
    error behind the prefix for engine errors and [currentProcess] is what
    [stop] left; otherwise the promise waits for the completion callback and
    [currentProcess] is the value [say.speak] returned. The voice
    configuration is kept. *)
Theorem speak_outcome (backend : say.behaviour) (text : jsstring)
  (w : TTSEngine.world) :
  trim text <> [] ->
  let stopped := snd (TTSEngine.stop backend w) in
  let result := TTSEngine.speak backend text w in
  exists voice speed,
    TTSEngine.log (snd result)
    = TTSEngine.log stopped ++ [say.speak text voice speed]
    /\ TTSEngine.voiceConfig (TTSEngine.this (snd result))
       = TTSEngine.voiceConfig (TTSEngine.this w)
    /\ match say.speak_returns backend (TTSEngine.log (snd result)) with
       | Normal process =>
           fst result = Normal Pending
           /\ TTSEngine.currentProcess (TTSEngine.this (snd result)) = process
       | Throw e =>
           fst result
           = Normal (Settled (Throw (Error (str "TTS Error: " ++ message e))))
           /\ TTSEngine.currentProcess (TTSEngine.this (snd result))
              = TTSEngine.currentProcess (TTSEngine.this stopped)
       end.
Proof.
  intros Ht. cbv zeta. rewrite (speak_eq backend text w Ht). cbv zeta.
  pose proof (stop_voiceConfig backend w) as Hv.
  eexists _, _.
  destruct (say.speak_returns backend _) as [process|e] eqn:E;
    cbn [fst snd TTSEngine.log TTSEngine.this TTSEngine.voiceConfig
         TTSEngine.currentProcess];
    (split; [reflexivity|]); rewrite E.
  - repeat split.
  - rewrite Hv. repeat split.
Qed.

Lemma speak_outcome_witness :
  fst (TTSEngine.speak failing_backend (str "Hello") speaking_engine)
  = Normal (Settled (Throw (Error (str "TTS Error: no audio device"))))
  /\ fst (TTSEngine.speak mock_backend (str "Hello") speaking_engine)
     = Normal Pending.
Proof.
  assert (Ht : trim (str "Hello") <> []) by (vm_compute; discriminate).
  split.
  - destruct (speak_outcome failing_backend (str "Hello") speaking_engine Ht)
      as [voice [speed [_ [_ H]]]].
    cbn [failing_backend say.speak_returns] in H. exact (proj1 H).
  - destruct (speak_outcome mock_backend (str "Hello") speaking_engine Ht)
      as [voice [speed [_ [_ H]]]].
    cbn [mock_backend say.speak_returns] in H. exact (proj1 H).
Defined.

(** X14. [stop] never throws. Without a handle in [currentProcess] it does
    nothing; with one it calls [say.stop] once, and clears [currentProcess]
    only when [say.stop] returns: after an error of the backend the handle
    is kept. *)
Theorem stop_outcome (backend : say.behaviour) (w : TTSEngine.world) :
  let w' := snd (TTSEngine.stop backend w) in
  fst (TTSEngine.stop backend w) = Normal tt
  /\ TTSEngine.voiceConfig (TTSEngine.this w')
     = TTSEngine.voiceConfig (TTSEngine.this w)
  /\ (say.truthy (TTSEngine.currentProcess (TTSEngine.this w)) = false -> w' = w)
  /\ (say.truthy (TTSEngine.currentProcess (TTSEngine.this w)) = true ->
      TTSEngine.log w' = TTSEngine.log w ++ [say.stop]
      /\ TTSEngine.currentProcess (TTSEngine.this w')
         = match say.stop_returns backend (TTSEngine.log w ++ [say.stop]) with
           | Normal _ => say.null
           | Throw _ => TTSEngine.currentProcess (TTSEngine.this w)
           end).
Proof.
  cbv zeta. split; [rewrite stop_eq; reflexivity|].
  split; [apply stop_voiceConfig|].
  rewrite stop_eq. cbn [snd]. split; intros ->; [reflexivity|].
  destruct (say.stop_returns backend _); split; reflexivity.
Qed.



(** ** CopilotIntegration *)

Lemma remove_first_not_in (l : CopilotIntegration.listener)
  (ls : list CopilotIntegration.listener) :
  l ∉ ls -> CopilotIntegration.remove_first l ls = ls.
Proof.
  induction ls as [|x r IH]; intros H; [reflexivity|].
  cbn [CopilotIntegration.remove_first].
  destruct (Nat.eqb_spec x l) as [->|Hx].
  - exfalso. apply H. left.
  - rewrite IH; [reflexivity|]. intros Hr. apply H. right. exact Hr.
Qed.

Lemma remove_first_in (l : CopilotIntegration.listener)
  (ls : list CopilotIntegration.listener) :
  l ∈ ls ->
  exists a b, ls = a ++ l :: b /\ (l ∉ a)
              /\ CopilotIntegration.remove_first l ls = a ++ b.
Proof.
  induction ls as [|x r IH]; intros H; [inversion H|].
  cbn [CopilotIntegration.remove_first].
  destruct (Nat.eqb_spec x l) as [->|Hx].
  - exists [], r. repeat split. intros Hn. inversion Hn.
  - apply elem_of_cons in H as [H|H]; [congruence|].
    destruct (IH H) as [a [b [E [Ha Hr]]]].
    exists (x :: a), b. rewrite Hr. split; [rewrite E; reflexivity|].
    split; [|reflexivity].
    intros Hn. apply elem_of_cons in Hn as [Hn|Hn]; [congruence|exact (Ha Hn)].
Qed.

Lemma integration_eta (i : CopilotIntegration.t) :
  CopilotIntegration.mk (CopilotIntegration.config i)
    (CopilotIntegration.connected i) (CopilotIntegration.listening i)
    (CopilotIntegration.suggestionListeners i) = i.
Proof. destruct i. reflexivity. Qed.

(** X16. [removeSuggestionListener] never throws and touches only the list
    of the listeners. A listener that is not registered leaves the list as
    it is; of a listener that is registered, more than once perhaps, the
    first registration is removed and the others keep their order. *)
Theorem removeSuggestionListener_first_occurrence
  (l : CopilotIntegration.listener) (i : CopilotIntegration.t) :
  let ls := CopilotIntegration.suggestionListeners i in
  let i' := snd (CopilotIntegration.removeSuggestionListener l i) in
  fst (CopilotIntegration.removeSuggestionListener l i) = Normal tt
  /\ CopilotIntegration.config i' = CopilotIntegration.config i
  /\ CopilotIntegration.connected i' = CopilotIntegration.connected i
  /\ CopilotIntegration.listening i' = CopilotIntegration.listening i
  /\ (((l ∉ ls) /\ i' = i)
      \/ exists a b, ls = a ++ l :: b /\ (l ∉ a)
                     /\ CopilotIntegration.suggestionListeners i' = a ++ b).
Proof.
  cbv zeta. repeat (split; [reflexivity|]).
  destruct (decide (l ∈ CopilotIntegration.suggestionListeners i)) as [H|H].
  - right. exact (remove_first_in l _ H).
  - left. split; [exact H|].
    unfold CopilotIntegration.removeSuggestionListener, modify. cbn [snd].
    rewrite (remove_first_not_in l _ H). apply integration_eta.
Qed.

(** X17. Registering a listener that was not registered and removing it
    again gives back the integration as it was. *)
Theorem onSuggestion_then_remove (l : CopilotIntegration.listener)
  (i : CopilotIntegration.t) :
  l ∉ CopilotIntegration.suggestionListeners i ->
  snd (CopilotIntegration.removeSuggestionListener l
         (snd (CopilotIntegration.onSuggestion l i))) = i.
Proof.
  intros H.
  unfold CopilotIntegration.removeSuggestionListener,
    CopilotIntegration.onSuggestion, modify.
  cbn [snd CopilotIntegration.config CopilotIntegration.connected
       CopilotIntegration.listening CopilotIntegration.suggestionListeners].
  assert (E : CopilotIntegration.remove_first l
                (CopilotIntegration.suggestionListeners i ++ [l])
              = CopilotIntegration.suggestionListeners i).
  { induction (CopilotIntegration.suggestionListeners i) as [|x r IH].
    - cbn. rewrite Nat.eqb_refl. reflexivity.
    - cbn [app CopilotIntegration.remove_first].
      destruct (Nat.eqb_spec x l) as [->|Hx].
      + exfalso. apply H. left.
      + rewrite IH; [reflexivity|]. intros Hr. apply H. right. exact Hr. }
  rewrite E. apply integration_eta.
Qed.

Lemma onSuggestion_then_remove_witness :
  snd (CopilotIntegration.removeSuggestionListener 2
         (snd (CopilotIntegration.onSuggestion 2 (registered [0; 1]))))
  = registered [0; 1].
Proof.
  apply (onSuggestion_then_remove 2 (registered [0; 1])).
  intros H. vm_compute in H. apply list_elem_of_In in H.
  destruct H as [H|[H|[]]]; discriminate.
Defined.

(** X18. [initialize] stores a copy of the configuration and leaves the
    listening flag and the listeners alone. With a configuration that is
    not enabled it resolves at once, the integration is disconnected, also
    one that was connected, and [startListening] then throws and changes
    nothing. With an enabled configuration it waits for the connection,
    with the connection flag as before, and once the connection is made
    [startListening] succeeds and sets the listening flag. *)
Theorem initialize_decides_startListening (config : CopilotConfig.t)
  (i : CopilotIntegration.t) :
  let r := CopilotIntegration.initialize config i in
  CopilotIntegration.config (snd r) = config
  /\ CopilotIntegration.listening (snd r) = CopilotIntegration.listening i
  /\ CopilotIntegration.suggestionListeners (snd r)
     = CopilotIntegration.suggestionListeners i
  /\ if truthy (read (CopilotConfig.enabled config)) then
       fst r = Normal Pending
       /\ CopilotIntegration.connected (snd r) = CopilotIntegration.connected i
       /\ CopilotIntegration.startListening
            (snd (CopilotIntegration.initialize_resume (Normal tt) (snd r)))
          = (Normal tt,
             CopilotIntegration.mk config true true
               (CopilotIntegration.suggestionListeners i))
     else
       fst r = Normal (Settled (Normal tt))
       /\ CopilotIntegration.connected (snd r) = false
       /\ CopilotIntegration.startListening (snd r)
          = (Throw (Error (str "Copilot integration not initialized")), snd r).
Proof.
  cbv zeta. unfold CopilotIntegration.initialize, bind, modify, gets.
  cbn [CopilotIntegration.config].
  destruct (truthy (read (CopilotConfig.enabled config))); cbn; repeat split.
Qed.

(** ** TTSCopilot *)

Lemma configManager_getConfig_eq (s : TTSCopilot.t) :
  TTSCopilot.configManager_getConfig s
  = (Normal (fresh (dom (configs (TTSCopilot.objects s)))),
     TTSCopilot.set_objects
       (snd (ConfigManager.getConfig (TTSCopilot.configManager s)
               (TTSCopilot.objects s))) s).
Proof. reflexivity. Qed.

Lemma copilot_enabled_stored (s : TTSCopilot.t) :
  copilot_enabled s = true ->
  exists lc,
    read (TTSCopilotConfig.copilot
            (config_of (TTSCopilot.objects s)
               (Some (ConfigManager.config (TTSCopilot.configManager s)))))
    = Some lc
    /\ truthy (read (CopilotConfig.enabled
                       (copilot_of (TTSCopilot.objects s) (Some lc)))) = true.
Proof.
  unfold copilot_enabled. rewrite observed_copilot_eq.
  destruct (read (TTSCopilotConfig.copilot _)) as [lc|]; [|discriminate].
  intros H. exists lc. split; [reflexivity|exact H].
Qed.

(** The conditions of [start] are read off the copy [getConfig] returns:
    they are those of the stored configuration. *)
Lemma start_conditions (s : TTSCopilot.t) (b : bool) :
  let h2 := snd (ConfigManager.getConfig (TTSCopilot.configManager s)
                   (TTSCopilot.objects s)) in
  let s2 := TTSCopilot.mk h2 (TTSCopilot.backend_log s) (TTSCopilot.configManager s)
              (TTSCopilot.ttsEngine s) (TTSCopilot.copilotIntegration s) b
              (TTSCopilot.binds s) in
  let l2 := fresh (dom (configs (TTSCopilot.objects s))) in
  copilot_enabled s = true ->
  TTSCopilot.config_copilot_enabled l2 s2 = (Normal true, s2)
  /\ TTSCopilot.config_realTimeEnabled l2 s2 = (Normal (realTime_enabled s), s2).
Proof.
  cbv zeta. intros He. destruct (copilot_enabled_stored s He) as [lc [Hc Hen]].
  split.
  - rewrite (config_copilot_enabled_eq _ lc).
    + cbn [TTSCopilot.objects]. rewrite getConfig_eq. cbn [snd].
      rewrite copilot_of_mkHeap. unfold copilot_of in Hen. rewrite Hen. reflexivity.
    + cbn [TTSCopilot.objects]. rewrite getConfig_copy. exact Hc.
  - unfold TTSCopilot.config_realTimeEnabled, gets, realTime_enabled.
    cbn [TTSCopilot.objects]. rewrite getConfig_copy, observed_realTimeEnabled_eq.
    reflexivity.
Qed.

Lemma start_enabled (s : TTSCopilot.t) :
  TTSCopilot.isRunning s = false ->
  copilot_enabled s = true ->
  realTime_enabled s = true ->
  let h2 := snd (ConfigManager.getConfig (TTSCopilot.configManager s)
                   (TTSCopilot.objects s)) in
  let i := TTSCopilot.copilotIntegration s in
  let ls := CopilotIntegration.suggestionListeners i ++ [TTSCopilot.binds s] in
  TTSCopilot.start s
  = if CopilotIntegration.connected i then
      (Normal tt,
       TTSCopilot.mk h2 (TTSCopilot.backend_log s) (TTSCopilot.configManager s)
         (TTSCopilot.ttsEngine s)
         (CopilotIntegration.mk (CopilotIntegration.config i) true true ls)
         true (S (TTSCopilot.binds s)))
    else
      (Throw (Error (str "Copilot integration not initialized")),
       TTSCopilot.mk h2 (TTSCopilot.backend_log s) (TTSCopilot.configManager s)
         (TTSCopilot.ttsEngine s)
         (CopilotIntegration.mk (CopilotIntegration.config i) false
            (CopilotIntegration.listening i) ls)
         true (S (TTSCopilot.binds s))).
Proof.
  intros H0 He Hr. cbv zeta.
  destruct (start_conditions s true He) as [E3 E4]. rewrite Hr in E4.
  unfold TTSCopilot.start.
  rewrite (bind_Normal (gets TTSCopilot.isRunning) _ s s false)
    by (unfold gets; rewrite H0; reflexivity).
  rewrite (bind_Normal _ _ _ _ _ (configManager_getConfig_eq s)).
  rewrite (bind_Normal (TTSCopilot.set_isRunning true) _ _ _ tt eq_refl).
  cbn [TTSCopilot.set_objects TTSCopilot.objects TTSCopilot.backend_log
       TTSCopilot.configManager TTSCopilot.ttsEngine TTSCopilot.copilotIntegration
       TTSCopilot.isRunning TTSCopilot.binds].
  rewrite (bind_Normal _ _ _ _ _ E3). rewrite (bind_Normal _ _ _ _ _ E4).
  cbn [andb]. destruct s as [h log m e [cfg conn lst ls] running b].
  destruct conn; reflexivity.
Qed.

Lemma conditions_after_getConfig (s : TTSCopilot.t) (log : list say.event)
  (engine : TTSEngine.t) (i : CopilotIntegration.t) (running : bool) (b : nat) :
  let s' := TTSCopilot.mk
              (snd (ConfigManager.getConfig (TTSCopilot.configManager s)
                      (TTSCopilot.objects s)))
              log (TTSCopilot.configManager s) engine i running b in
  copilot_enabled s' = copilot_enabled s
  /\ realTime_enabled s' = realTime_enabled s.
Proof.
  cbv zeta. unfold copilot_enabled, realTime_enabled.
  cbn [TTSCopilot.objects TTSCopilot.configManager].
  rewrite !observed_copilot_eq, !observed_realTimeEnabled_eq.
  rewrite getConfig_keeps_stored. split; [|reflexivity].
  rewrite getConfig_eq. reflexivity.
Qed.

Lemma start_running (s : TTSCopilot.t) :
  TTSCopilot.isRunning s = true -> TTSCopilot.start s = (Normal tt, s).
Proof. intros H. unfold TTSCopilot.start, bind, gets. rewrite H. reflexivity. Qed.

Lemma stop_running_eq (backend : say.behaviour) (s : TTSCopilot.t) :
  TTSCopilot.isRunning s = true ->
  let w := snd (TTSEngine.stop backend (TTSCopilot.engine_world s)) in
  let i := TTSCopilot.copilotIntegration s in
  TTSCopilot.stop backend s
  = (Normal tt,
     TTSCopilot.mk (TTSCopilot.objects s) (TTSEngine.log w)
       (TTSCopilot.configManager s) (TTSEngine.this w)
       (CopilotIntegration.mk (CopilotIntegration.config i)
          (CopilotIntegration.connected i) false
          (CopilotIntegration.suggestionListeners i))
       false (TTSCopilot.binds s)).
Proof.
  intros H. cbv zeta. unfold TTSCopilot.stop.
  rewrite (bind_Normal (gets TTSCopilot.isRunning) _ s s true)
    by (unfold gets; rewrite H; reflexivity).
  cbn [negb].
  rewrite (bind_Normal (TTSCopilot.set_isRunning false) _ _ _ tt eq_refl).
  unfold bind, TTSCopilot.on_engine, zoom. rewrite !stop_eq.
  destruct s as [h log m e i running b]. reflexivity.
Qed.

(** X19. [start] on an idle orchestrator whose configuration has the
    suggestion source and real-time processing enabled, while the
    integration is not connected: the promise is rejected, because
    [startListening] throws, but by then the service has been marked as
    running and the handler has been registered. A second [start] then
    resolves and does nothing. *)
Theorem start_rejects_but_runs (s : TTSCopilot.t) :
  TTSCopilot.isRunning s = false ->
  copilot_enabled s = true ->
  realTime_enabled s = true ->
  CopilotIntegration.connected (TTSCopilot.copilotIntegration s) = false ->
  exists s',
    TTSCopilot.start s
    = (Throw (Error (str "Copilot integration not initialized")), s')
    /\ TTSCopilot.isRunning s' = true
    /\ listeners s' = listeners s ++ [TTSCopilot.binds s]
    /\ CopilotIntegration.listening (TTSCopilot.copilotIntegration s')
       = CopilotIntegration.listening (TTSCopilot.copilotIntegration s)
    /\ TTSCopilot.start s' = (Normal tt, s').
Proof.
  intros H0 He Hr Hc. rewrite (start_enabled s H0 He Hr). cbv zeta. rewrite Hc.
  eexists. split; [reflexivity|]. repeat split.
Qed.

Lemma start_rejects_but_runs_witness :
  exists s',
    TTSCopilot.start enabled_app
    = (Throw (Error (str "Copilot integration not initialized")), s')
    /\ TTSCopilot.isRunning s' = true
    /\ listeners s' = [0%nat].
Proof.
  destruct (start_rejects_but_runs enabled_app) as [s' [H1 [H2 [H3 _]]]];
    try (vm_compute; reflexivity).
  exists s'. split; [exact H1|]. split; [exact H2|]. rewrite H3. reflexivity.
Defined.

(** X20. [stop] does not unregister the handler that [start] registered.
    On a connected orchestrator with the suggestion source and real-time
    processing enabled, [start], [stop] and [start] again leave two
    handlers registered, so that each suggestion is handled twice. *)
Theorem restart_registers_again (backend : say.behaviour) (s : TTSCopilot.t) :
  TTSCopilot.isRunning s = false ->
  copilot_enabled s = true ->
  realTime_enabled s = true ->
  CopilotIntegration.connected (TTSCopilot.copilotIntegration s) = true ->
  let s1 := snd (TTSCopilot.start s) in
  let s2 := snd (TTSCopilot.stop backend s1) in
  let s3 := snd (TTSCopilot.start s2) in
  fst (TTSCopilot.start s) = Normal tt
  /\ listeners s1 = listeners s ++ [TTSCopilot.binds s]
  /\ listeners s2 = listeners s1
  /\ CopilotIntegration.listening (TTSCopilot.copilotIntegration s2) = false
  /\ fst (TTSCopilot.start s2) = Normal tt
  /\ listeners s3 = listeners s ++ [TTSCopilot.binds s; S (TTSCopilot.binds s)]
  /\ CopilotIntegration.listening (TTSCopilot.copilotIntegration s3) = true.
Proof.
  intros H0 He Hr Hc. cbv zeta.
  rewrite (start_enabled s H0 He Hr). cbv zeta. rewrite Hc. cbn [fst snd].
  split; [reflexivity|]. split; [reflexivity|].
  rewrite stop_running_eq by reflexivity. cbv zeta. cbn [fst snd].
  cbn [TTSCopilot.objects TTSCopilot.configManager TTSCopilot.copilotIntegration
       TTSCopilot.binds CopilotIntegration.config CopilotIntegration.connected
       CopilotIntegration.suggestionListeners].
  split; [reflexivity|]. split; [reflexivity|].
  match goal with
  | |- context [TTSCopilot.start ?s2] =>
      destruct (conditions_after_getConfig s (TTSCopilot.backend_log s2)
                  (TTSCopilot.ttsEngine s2) (TTSCopilot.copilotIntegration s2)
                  false (TTSCopilot.binds s2)) as [He2 Hr2];
      cbn [TTSCopilot.backend_log TTSCopilot.ttsEngine
           TTSCopilot.copilotIntegration TTSCopilot.binds] in He2, Hr2;
      rewrite He in He2; rewrite Hr in Hr2;
      rewrite (start_enabled s2 eq_refl He2 Hr2)
  end.
  cbv zeta. cbn [TTSCopilot.copilotIntegration CopilotIntegration.connected
                 fst snd]. unfold listeners.
  cbn [TTSCopilot.copilotIntegration CopilotIntegration.suggestionListeners
       TTSCopilot.binds CopilotIntegration.listening].
  rewrite <- app_assoc. repeat split.
Qed.

Lemma restart_registers_again_witness :
  listeners
    (snd (TTSCopilot.start
            (snd (TTSCopilot.stop mock_backend
                    (snd (TTSCopilot.start connected_app))))))
  = [0%nat; 1%nat].
Proof.
  destruct (restart_registers_again mock_backend connected_app)
    as [_ [_ [_ [_ [_ [H _]]]]]];
    [vm_compute; reflexivity .. | rewrite H; reflexivity].
Defined.

(** X21. Once [stop] has run, the timer of the suggestion stream delivers
    nothing when it fires, and a suggestion that reaches the handler
    directly is dropped: neither changes the state, and the backend is not
    called. *)
Theorem stop_silences_suggestions (backend : say.behaviour) (s : TTSCopilot.t)
  (suggestion : CopilotSuggestion.t) :
  TTSCopilot.isRunning s = true ->
  let s' := snd (TTSCopilot.stop backend s) in
  TTSCopilot.on_timeout backend s' = (Normal [], s')
  /\ TTSCopilot.handleCopilotSuggestion backend suggestion s' = (Normal tt, s').
Proof.
  intros H. cbv zeta. rewrite (stop_running_eq backend s H). cbv zeta.
  cbn [snd]. split; reflexivity.
Qed.

Lemma stop_silences_suggestions_witness :
  let s' := snd (TTSCopilot.stop mock_backend (snd (TTSCopilot.start connected_app))) in
  TTSCopilot.on_timeout mock_backend s' = (Normal [], s').
Proof.
  intros s'.
  apply (stop_silences_suggestions mock_backend (snd (TTSCopilot.start connected_app))
           CopilotIntegration.simulated).
  vm_compute. reflexivity.
Defined.

Lemma app_eta (s : TTSCopilot.t) :
  TTSCopilot.mk (TTSCopilot.objects s) (TTSCopilot.backend_log s)
    (TTSCopilot.configManager s) (TTSCopilot.ttsEngine s)
    (TTSCopilot.copilotIntegration s) (TTSCopilot.isRunning s) (TTSCopilot.binds s)
  = s.
Proof. destruct s. reflexivity. Qed.

Lemma speak_never_throws (backend : say.behaviour) (text : jsstring)
  (w : TTSEngine.world) :
  exists p, fst (TTSEngine.speak backend text w) = Normal p.
Proof.
  destruct (trim text) as [|c r] eqn:E.
  - apply trim_nil_iff in E.
    rewrite (speak_blank_is_settled backend text w E). eexists. reflexivity.
  - assert (Ht : trim text <> []) by (rewrite E; discriminate).
    rewrite (speak_eq backend text w Ht). cbv zeta.
    destruct (say.speak_returns backend _); eexists; reflexivity.
Qed.


Lemma updateVoiceConfig_steps (voiceConfig : loc) (s : TTSCopilot.t) :
  let h1 := after_voice_update (TTSCopilot.configManager s) voiceConfig
              (TTSCopilot.objects s) in
  TTSCopilot.updateVoiceConfig voiceConfig s
  = match fst (ConfigManager.validateVoiceConfig (TTSCopilot.configManager s) h1) with
    | Normal _ =>
        (Normal tt,
         TTSCopilot.mk
           (snd (ConfigManager.getConfig (TTSCopilot.configManager s) h1))
           (TTSCopilot.backend_log s) (TTSCopilot.configManager s)
           (TTSEngine.mk (observed_voice (TTSCopilot.configManager s) h1)
              (TTSEngine.currentProcess (TTSCopilot.ttsEngine s)))
           (TTSCopilot.copilotIntegration s) (TTSCopilot.isRunning s)
           (TTSCopilot.binds s))
    | Throw e => (Throw e, TTSCopilot.set_objects h1 s)
    end.
Proof.
  cbv zeta. unfold TTSCopilot.updateVoiceConfig.
  rewrite (bind_Normal (gets TTSCopilot.configManager) _ s s
             (TTSCopilot.configManager s) eq_refl).
  unfold bind at 1. unfold TTSCopilot.on_heap at 1, zoom at 1.
  rewrite updateVoiceConfig_eq.
  pose proof (validateVoiceConfig_state (TTSCopilot.configManager s)
                (after_voice_update (TTSCopilot.configManager s) voiceConfig
                   (TTSCopilot.objects s))) as Hs.
  destruct (ConfigManager.validateVoiceConfig _ _) as [[[]|e] h']; cbn [fst snd] in *;
    subst h'; [|reflexivity].
  destruct s as [h log m e i running b]. reflexivity.
Qed.

(** X23. When the merged voice configuration is in range, the
    orchestrator's [updateVoiceConfig] returns normally and hands the
    merged configuration to the engine. The backend is not called and the
    handle of an utterance in progress is kept: the new values apply from
    the next request. *)
Theorem updateVoiceConfig_reaches_engine (voiceConfig : loc) (s : TTSCopilot.t) :
  let merged :=
    VoiceConfig.spread (app_voice s)
                       (voice_of (TTSCopilot.objects s) (Some voiceConfig)) in
  out_of_range merged = false ->
  exists s',
    TTSCopilot.updateVoiceConfig voiceConfig s = (Normal tt, s')
    /\ app_voice s' = merged
    /\ TTSEngine.voiceConfig (TTSCopilot.ttsEngine s') = merged
    /\ TTSEngine.currentProcess (TTSCopilot.ttsEngine s')
       = TTSEngine.currentProcess (TTSCopilot.ttsEngine s)
    /\ TTSCopilot.backend_log s' = TTSCopilot.backend_log s.
Proof.
  cbv zeta. unfold app_voice. intros H.
  pose proof (observed_after_voice_update (TTSCopilot.configManager s) voiceConfig
                (TTSCopilot.objects s)) as Hobs.
  rewrite updateVoiceConfig_steps. cbv zeta.
  rewrite (validateVoiceConfig_accepts _ _ (fresh (dom (voices (TTSCopilot.objects s)))));
    [|apply after_voice_update_voice|rewrite Hobs; exact H].
  cbn [fst]. eexists. split; [reflexivity|].
  cbn [TTSCopilot.objects TTSCopilot.configManager TTSCopilot.ttsEngine
       TTSCopilot.backend_log TTSEngine.voiceConfig TTSEngine.currentProcess].
  split; [|split; [exact Hobs|split; reflexivity]].
  rewrite <- Hobs. rewrite !observed_voice_eq. rewrite getConfig_keeps_stored.
  rewrite getConfig_eq. reflexivity.
Qed.

Lemma updateVoiceConfig_reaches_engine_witness :
  exists s',
    TTSCopilot.updateVoiceConfig (fst (app_and speed_2)) (snd (app_and speed_2))
    = (Normal tt, s')
    /\ VoiceConfig.speed (TTSEngine.voiceConfig (TTSCopilot.ttsEngine s'))
       = Present (of_Z 2).
Proof.
  destruct (updateVoiceConfig_reaches_engine (fst (app_and speed_2))
              (snd (app_and speed_2))) as [s' [H1 [_ [H2 _]]]];
    [vm_compute; reflexivity|].
  exists s'. split; [exact H1|]. rewrite H2. vm_compute. reflexivity.
Defined.

(** X24. When the merged voice configuration is out of range, the
    orchestrator's [updateVoiceConfig] throws before it reaches the engine:
    the engine keeps its voice configuration, while [getConfig] shows the
    rejected one. The two differ from then on whenever the configuration
    of the engine was in range. *)
Theorem updateVoiceConfig_rejected_skips_engine (voiceConfig : loc)
  (s : TTSCopilot.t) :
  let merged :=
    VoiceConfig.spread (app_voice s)
                       (voice_of (TTSCopilot.objects s) (Some voiceConfig)) in
  out_of_range merged = true ->
  exists e s',
    TTSCopilot.updateVoiceConfig voiceConfig s = (Throw e, s')
    /\ app_voice s' = merged
    /\ TTSCopilot.ttsEngine s' = TTSCopilot.ttsEngine s
    /\ TTSCopilot.backend_log s' = TTSCopilot.backend_log s
    /\ (out_of_range (TTSEngine.voiceConfig (TTSCopilot.ttsEngine s)) = false ->
        TTSEngine.voiceConfig (TTSCopilot.ttsEngine s') <> app_voice s').
Proof.
  cbv zeta. unfold app_voice. intros H.
  pose proof (observed_after_voice_update (TTSCopilot.configManager s) voiceConfig
                (TTSCopilot.objects s)) as Hobs.
  rewrite updateVoiceConfig_steps. cbv zeta.
  destruct (validateVoiceConfig_rejects (TTSCopilot.configManager s)
              (after_voice_update (TTSCopilot.configManager s) voiceConfig
                 (TTSCopilot.objects s))
              (fresh (dom (voices (TTSCopilot.objects s))))) as [e He];
    [apply after_voice_update_voice|rewrite Hobs; exact H|].
  rewrite He. exists e. eexists. split; [reflexivity|].
  cbn [TTSCopilot.set_objects TTSCopilot.objects TTSCopilot.configManager
       TTSCopilot.ttsEngine TTSCopilot.backend_log].
  split; [exact Hobs|]. split; [reflexivity|]. split; [reflexivity|].
  intros Hin Heq. rewrite Hobs in Heq. rewrite Heq, H in Hin. discriminate.
Qed.

Lemma updateVoiceConfig_rejected_skips_engine_witness :
  exists e s',
    TTSCopilot.updateVoiceConfig (fst (app_and pitch_2_5)) (snd (app_and pitch_2_5))
    = (Throw e, s')
    /\ VoiceConfig.pitch (app_voice s') = Present (decimal 5 2)
    /\ VoiceConfig.pitch (TTSEngine.voiceConfig (TTSCopilot.ttsEngine s'))
       = Present (of_Z 1)
    /\ TTSEngine.voiceConfig (TTSCopilot.ttsEngine s') <> app_voice s'.
Proof.
  destruct (updateVoiceConfig_rejected_skips_engine (fst (app_and pitch_2_5))
              (snd (app_and pitch_2_5))) as [e [s' [H1 [H2 [H3 [_ H5]]]]]];
    [vm_compute; reflexivity|].
  exists e, s'. split; [exact H1|].
  split; [rewrite H2; vm_compute; reflexivity|].
  split; [rewrite H3; vm_compute; reflexivity|].
  apply H5. vm_compute. reflexivity.
Defined.

Lemma conditions_after_realTime (s : TTSCopilot.t) (enabled : bool) :
  let s1 := TTSCopilot.set_objects
              (after_realTime (TTSCopilot.configManager s) enabled
                 (TTSCopilot.objects s)) s in
  copilot_enabled s1 = copilot_enabled s /\ realTime_enabled s1 = enabled.
Proof.
  cbv zeta. unfold copilot_enabled, realTime_enabled, after_realTime.
  rewrite setRealTimeEnabled_eq. cbv zeta.
  cbn [snd TTSCopilot.set_objects TTSCopilot.objects TTSCopilot.configManager].
  rewrite !observed_copilot_eq, !observed_realTimeEnabled_eq.
  rewrite config_of_insert. split; [reflexivity|]. destruct enabled; reflexivity.
Qed.

Lemma setRealTimeEnabled_store (enabled : bool) (s : TTSCopilot.t) :
  TTSCopilot.on_heap
    (ConfigManager.setRealTimeEnabled (TTSCopilot.configManager s) enabled) s
  = (Normal tt,
     TTSCopilot.set_objects
       (after_realTime (TTSCopilot.configManager s) enabled (TTSCopilot.objects s))
       s).
Proof. reflexivity. Qed.

(** X25. [setRealTimeEnabled] with [false], or with any value while the
    service is not running, never throws: it stores the flag and stops the
    listening, so that the timer of the suggestion stream delivers nothing
    afterwards. The connection, the registered handlers and the running
    flag are kept. *)
Theorem setRealTimeEnabled_stops_listening (backend : say.behaviour)
  (enabled : bool) (s : TTSCopilot.t) :
  enabled && TTSCopilot.isRunning s = false ->
  exists s',
    TTSCopilot.setRealTimeEnabled enabled s = (Normal tt, s')
    /\ realTime_enabled s' = enabled
    /\ CopilotIntegration.listening (TTSCopilot.copilotIntegration s') = false
    /\ CopilotIntegration.connected (TTSCopilot.copilotIntegration s')
       = CopilotIntegration.connected (TTSCopilot.copilotIntegration s)
    /\ listeners s' = listeners s
    /\ TTSCopilot.isRunning s' = TTSCopilot.isRunning s
    /\ TTSCopilot.on_timeout backend s' = (Normal [], s').
Proof.
  intros H. destruct (conditions_after_realTime s enabled) as [_ Hr].
  cbv zeta in Hr. unfold TTSCopilot.setRealTimeEnabled.
  rewrite (bind_Normal (gets TTSCopilot.configManager) _ s s
             (TTSCopilot.configManager s) eq_refl).
  rewrite (bind_Normal _ _ _ _ _ (setRealTimeEnabled_store enabled s)).
  set (h1 := after_realTime _ _ _) in *.
  rewrite (bind_Normal (gets TTSCopilot.isRunning) _ (TTSCopilot.set_objects h1 s)
             (TTSCopilot.set_objects h1 s) (TTSCopilot.isRunning s) eq_refl).
  rewrite H. eexists. split; [reflexivity|].
  split; [exact Hr|]. repeat split.
Qed.

Lemma setRealTimeEnabled_stops_listening_witness :
  exists s',
    TTSCopilot.setRealTimeEnabled true connected_app = (Normal tt, s')
    /\ CopilotIntegration.listening (TTSCopilot.copilotIntegration s') = false
    /\ TTSCopilot.on_timeout mock_backend s' = (Normal [], s').
Proof.
  destruct (setRealTimeEnabled_stops_listening mock_backend true connected_app)
    as [s' [H1 [_ [H2 [_ [_ [_ H3]]]]]]]; [vm_compute; reflexivity|].
  exists s'. split; [exact H1|]. split; [exact H2|exact H3].
Defined.

(** X26. [setRealTimeEnabled(true)] on a running service whose suggestion
    source is enabled starts the listening when the integration is
    connected, without registering a handler; when it is not connected the
    call throws, after the flag has been stored. *)
Theorem setRealTimeEnabled_on_while_running (s : TTSCopilot.t) :
  TTSCopilot.isRunning s = true ->
  copilot_enabled s = true ->
  exists s',
    TTSCopilot.setRealTimeEnabled true s
    = (if CopilotIntegration.connected (TTSCopilot.copilotIntegration s)
       then Normal tt
       else Throw (Error (str "Copilot integration not initialized")),
       s')
    /\ realTime_enabled s' = true
    /\ listeners s' = listeners s
    /\ CopilotIntegration.listening (TTSCopilot.copilotIntegration s')
       = (CopilotIntegration.connected (TTSCopilot.copilotIntegration s)
          || CopilotIntegration.listening (TTSCopilot.copilotIntegration s)).
Proof.
  intros H He. destruct (conditions_after_realTime s true) as [He1 Hr1].
  cbv zeta in He1, Hr1. rewrite He in He1.
  set (s1 := TTSCopilot.set_objects _ s) in *.
  destruct (start_conditions s1 (TTSCopilot.isRunning s1) He1) as [E3 _].
  destruct (conditions_after_getConfig s1 (TTSCopilot.backend_log s1)
              (TTSCopilot.ttsEngine s1) (TTSCopilot.copilotIntegration s1)
              (TTSCopilot.isRunning s1) (TTSCopilot.binds s1)) as [_ Hr2].
  cbv zeta in Hr2. rewrite Hr1 in Hr2.
  unfold TTSCopilot.setRealTimeEnabled.
  rewrite (bind_Normal (gets TTSCopilot.configManager) _ s s
             (TTSCopilot.configManager s) eq_refl).
  rewrite (bind_Normal _ _ _ _ _ (setRealTimeEnabled_store true s)). fold s1.
  rewrite (bind_Normal (gets TTSCopilot.isRunning) _ s1 s1 true)
    by (unfold gets; cbn; rewrite H; reflexivity).
  cbn [andb].
  rewrite (bind_Normal _ _ _ _ _ (configManager_getConfig_eq s1)).
  unfold TTSCopilot.set_objects at 1.
  rewrite (bind_Normal _ _ _ _ _ E3).
  set (s2 := TTSCopilot.mk _ _ _ _ _ _ _) in *.
  unfold TTSCopilot.on_copilot, zoom, CopilotIntegration.startListening, bind, gets.
  assert (Ei : TTSCopilot.copilotIntegration s2 = TTSCopilot.copilotIntegration s)
    by reflexivity.
  rewrite Ei.
  destruct (CopilotIntegration.connected (TTSCopilot.copilotIntegration s));
    cbn [negb]; eexists; (split; [reflexivity|]); (split; [exact Hr2|]);
    split; reflexivity.
Qed.

Lemma setRealTimeEnabled_on_while_running_witness :
  exists s',
    TTSCopilot.setRealTimeEnabled true (snd (TTSCopilot.start enabled_app))
    = (Throw (Error (str "Copilot integration not initialized")), s')
    /\ realTime_enabled s' = true.
Proof.
  destruct (setRealTimeEnabled_on_while_running (snd (TTSCopilot.start enabled_app)))
    as [s' [H1 [H2 _]]]; [vm_compute; reflexivity ..|].
  exists s'. split; [exact H1|exact H2].
Defined.

Lemma isValidForTTS_true (text : jsstring) :
  TextProcessor.isValidForTTS text = true ->
  trim text <> [] /\ (length text <= 1000)%nat.
Proof.
  unfold TextProcessor.isValidForTTS. destruct text as [|c r]; [discriminate|].
  destruct (Nat.eqb_spec (length (trim (c :: r))) 0) as [E|E]; [discriminate|].
  destruct (Nat.ltb_spec 1000 (length (c :: r))) as [L|L]; [discriminate|].
  intros _. split; [|exact L]. intros Ht. apply E. rewrite Ht. reflexivity.
Qed.

(** X27. What [speakText] sends to the backend is the cleaned text, never
    the raw one: when the cleaned text is suitable, the request that is
    logged carries [parseText text], which has at most 1000 characters, all
    of them letters, digits, the underscore, the space or the punctuation
    [parseText] keeps. It is sent whether or not the service is running. *)
Theorem speakText_sends_cleaned_text (backend : say.behaviour) (text : jsstring)
  (s : TTSCopilot.t) :
  let cleaned := TextProcessor.parseText text in
  TextProcessor.isValidForTTS cleaned = true ->
  (exists voice rate,
      TTSCopilot.backend_log (snd (TTSCopilot.speakText backend text s))
      = TTSEngine.log (snd (TTSEngine.stop backend (TTSCopilot.engine_world s)))
        ++ [say.speak cleaned voice rate])
  /\ Forall plain cleaned
  /\ (length cleaned <= 1000)%nat.
Proof.
  cbv zeta. intros H. destruct (isValidForTTS_true _ H) as [Ht Hl].
  split; [|split; [apply parseText_plain|exact Hl]].
  unfold TTSCopilot.speakText. rewrite H. cbn [negb].
  unfold TTSCopilot.on_engine, zoom.
  rewrite (speak_eq backend _ (TTSCopilot.engine_world s) Ht). cbv zeta.
  eexists _, _. destruct (say.speak_returns backend _); reflexivity.
Qed.

Lemma speakText_sends_cleaned_text_witness :
  exists voice rate,
    TTSCopilot.backend_log
      (snd (TTSCopilot.speakText mock_backend (str "Use `x` now")
              (TTSCopilot.constructor None module_heap)))
    = [say.speak (str "Use now") voice rate].
Proof.
  destruct (speakText_sends_cleaned_text mock_backend (str "Use `x` now")
              (TTSCopilot.constructor None module_heap))
    as [[voice [rate H]] _]; [vm_compute; reflexivity|].
  exists voice, rate. rewrite H. reflexivity.
Defined.

Lemma handleCopilotSuggestion_running (backend : say.behaviour)
  (suggestion : CopilotSuggestion.t) (s : TTSCopilot.t) :
  let cleaned := TextProcessor.parseText (CopilotSuggestion.text suggestion) in
  TTSCopilot.isRunning s = true ->
  TextProcessor.isValidForTTS cleaned = true ->
  TTSCopilot.handleCopilotSuggestion backend suggestion s
  = (Normal tt,
     TTSCopilot.set_engine_world
       (snd (TTSEngine.speak backend cleaned (TTSCopilot.engine_world s))) s).
Proof.
  cbv zeta. intros Hrun Hv.
  unfold TTSCopilot.handleCopilotSuggestion, bind, gets, try_catch, ret.
  rewrite Hrun, Hv. cbn [negb]. unfold TTSCopilot.on_engine, zoom.
  destruct (speak_never_throws backend
              (TextProcessor.parseText (CopilotSuggestion.text suggestion))
              (TTSCopilot.engine_world s)) as [p Hp].
  destruct (TTSEngine.speak backend _ (TTSCopilot.engine_world s)) as [c w].
  cbn [fst] in Hp. subst c. reflexivity.
Qed.

(** X28. When the timer of the suggestion stream fires on a running
    service that is listening, with one handler registered, the handler is
    called and the backend is asked to speak the cleaned text of the
    simulated suggestion: its braces and its plus sign are gone, the spaces
    around them are left, two in a row and one at the end. *)
Theorem on_timeout_speaks_suggestion (backend : say.behaviour) (s : TTSCopilot.t)
  (l : CopilotIntegration.listener) :
  TTSCopilot.isRunning s = true ->
  CopilotIntegration.listening (TTSCopilot.copilotIntegration s) = true ->
  listeners s = [l] ->
  fst (TTSCopilot.on_timeout backend s) = Normal [l]
  /\ exists voice rate,
       TTSCopilot.backend_log (snd (TTSCopilot.on_timeout backend s))
       = TTSEngine.log (snd (TTSEngine.stop backend (TTSCopilot.engine_world s)))
         ++ [say.speak simulated_spoken voice rate].
Proof.
  intros Hrun Hl Hls. unfold listeners in Hls.
  assert (Hv : TextProcessor.isValidForTTS
                 (TextProcessor.parseText
                    (CopilotSuggestion.text CopilotIntegration.simulated)) = true)
    by (vm_compute; reflexivity).
  assert (Ht : trim simulated_spoken <> []) by (vm_compute; discriminate).
  pose proof (handleCopilotSuggestion_running backend CopilotIntegration.simulated
                s Hrun Hv) as Hh.
  cbv zeta in Hh.
  change (TextProcessor.parseText
            (CopilotSuggestion.text CopilotIntegration.simulated))
    with simulated_spoken in Hh.
  assert (E : exists s',
             TTSCopilot.on_timeout backend s = (Normal [l], s')
             /\ TTSCopilot.backend_log s'
                = TTSEngine.log
                    (snd (TTSEngine.speak backend simulated_spoken
                            (TTSCopilot.engine_world s)))).
  { unfold TTSCopilot.on_timeout, CopilotIntegration.on_timeout.
    rewrite (bind_Normal _ _ s s true) by (unfold gets; rewrite Hl; reflexivity).
    unfold CopilotIntegration.notifySuggestionListeners, bind at 1.
    rewrite Hls. cbn [length CopilotIntegration.forEach]. rewrite Hls.
    cbn [lookup list_lookup]. unfold try_catch. rewrite Hh.
    unfold bind, zoom, CopilotIntegration.simulateSuggestionStream, ret.
    eexists. split; reflexivity. }
  destruct E as [s' [E Hlog]]. rewrite E. cbn [fst snd]. split; [reflexivity|].
  rewrite Hlog, (speak_eq backend _ (TTSCopilot.engine_world s) Ht). cbv zeta.
  eexists _, _. destruct (say.speak_returns backend _); reflexivity.
Qed.

Lemma on_timeout_speaks_suggestion_witness :
  fst (TTSCopilot.on_timeout mock_backend (snd (TTSCopilot.start connected_app)))
  = Normal [0%nat].
Proof.
  destruct (on_timeout_speaks_suggestion mock_backend
              (snd (TTSCopilot.start connected_app)) 0%nat) as [H _];
    [vm_compute; reflexivity ..|exact H].
Defined.

(** X29. [initialize] of an orchestrator whose stored configuration has a
    [copilot] object. When that object is not enabled the promise resolves
    at once and the integration is left as it is. When it is enabled the
    integration takes a copy of it and the promise waits for the
    connection; until then the connection flag is as before. Neither the
    running flag nor the backend is touched. *)
Theorem initialize_outcome (s : TTSCopilot.t) (lc : loc) :
  read (TTSCopilotConfig.copilot
          (config_of (TTSCopilot.objects s)
             (Some (ConfigManager.config (TTSCopilot.configManager s)))))
  = Some lc ->
  let i := TTSCopilot.copilotIntegration s in
  exists s',
    TTSCopilot.initialize s
    = (Normal (if copilot_enabled s then Pending else Settled (Normal tt)), s')
    /\ TTSCopilot.copilotIntegration s'
       = (if copilot_enabled s then
            CopilotIntegration.mk (copilot_of (TTSCopilot.objects s) (Some lc))
              (CopilotIntegration.connected i) (CopilotIntegration.listening i)
              (CopilotIntegration.suggestionListeners i)
          else i)
    /\ TTSCopilot.isRunning s' = TTSCopilot.isRunning s
    /\ TTSCopilot.backend_log s' = TTSCopilot.backend_log s.
Proof.
  intros Hc. cbv zeta.
  assert (He : copilot_enabled s
               = truthy (read (CopilotConfig.enabled
                                 (copilot_of (TTSCopilot.objects s) (Some lc))))).
  { unfold copilot_enabled. rewrite observed_copilot_eq, Hc. reflexivity. }
  set (s1 := TTSCopilot.set_objects
               (snd (ConfigManager.getConfig (TTSCopilot.configManager s)
                       (TTSCopilot.objects s))) s).
  set (l2 := fresh (dom (configs (TTSCopilot.objects s)))).
  assert (Hc1 : read (TTSCopilotConfig.copilot
                        (config_of (TTSCopilot.objects s1) (Some l2))) = Some lc).
  { unfold s1, l2. cbn [TTSCopilot.set_objects TTSCopilot.objects].
    rewrite getConfig_copy. exact Hc. }
  assert (Hlc : copilot_of (TTSCopilot.objects s1) (Some lc)
                = copilot_of (TTSCopilot.objects s) (Some lc)).
  { unfold s1. cbn [TTSCopilot.set_objects TTSCopilot.objects].
    rewrite getConfig_eq. reflexivity. }
  pose proof (config_copilot_enabled_eq l2 lc s1 Hc1) as E3.
  rewrite Hlc, <- He in E3.
  assert (E4 : TTSCopilot.config_copilot l2 s1 = (Normal lc, s1)).
  { unfold TTSCopilot.config_copilot, bind, gets. rewrite Hc1. reflexivity. }
  unfold TTSCopilot.initialize.
  rewrite (bind_Normal _ _ _ _ _ (configManager_getConfig_eq s)).
  fold s1 l2. unfold try_catch. rewrite (bind_Normal _ _ _ _ _ E3).
  destruct (copilot_enabled s) eqn:Hen.
  - rewrite (bind_Normal _ _ _ _ _ E4).
    rewrite (bind_Normal (gets (fun s => copilot_of (TTSCopilot.objects s) (Some lc)))
               _ s1 s1 (copilot_of (TTSCopilot.objects s) (Some lc)))
      by (unfold gets; rewrite Hlc; reflexivity).
    unfold bind, TTSCopilot.on_copilot, zoom, CopilotIntegration.initialize, bind,
      modify, gets.
    cbn [CopilotIntegration.config]. rewrite <- He. cbn [negb].
    eexists. split; [reflexivity|]. repeat split.
  - eexists. split; [reflexivity|]. repeat split.
Qed.

Lemma initialize_outcome_witness :
  exists s',
    TTSCopilot.initialize enabled_app = (Normal Pending, s')
    /\ CopilotIntegration.connected (TTSCopilot.copilotIntegration s') = false
    /\ CopilotIntegration.config (TTSCopilot.copilotIntegration s')
       = CopilotConfig.mk Absent Absent (Present true).
Proof.
  destruct (initialize_outcome enabled_app
              (fresh (dom (copilots module_heap)))) as [s' [H1 [H2 _]]];
    [vm_compute; reflexivity|].
  exists s'. split; [exact H1|]. rewrite H2. split; vm_compute; reflexivity.
Defined.

Lemma app_constructor_eq (initialConfig : option loc) (h : heap) :
  let (manager, h1) := ConfigManager.constructor initialConfig h in
  TTSCopilot.constructor initialConfig h
  = TTSCopilot.mk (snd (ConfigManager.getConfig manager h1)) [] manager
      (TTSEngine.constructor (observed_voice manager h1))
      CopilotIntegration.constructor false 0.
Proof.
  unfold TTSCopilot.constructor, observed_voice.
  destruct (ConfigManager.constructor initialConfig h) as [manager h1].
  destruct (ConfigManager.getConfig manager h1) as [config h2]. reflexivity.
Qed.

(** X30. The engine of a new orchestrator is configured with the voice
    object of the initial configuration as the caller wrote it, not merged
    with the defaults. When that object has no [speed] and no [voice], as
    [{ pitch: 5 }] has, a request asks the backend for the rate 1.0 where
    the defaults ask for 200. *)
Theorem constructor_engine_gets_initial_voice (backend : say.behaviour)
  (initialConfig lv : loc) (h : heap) (text : jsstring) :
  let app := TTSCopilot.constructor (Some initialConfig) h in
  let given := voice_of h (Some lv) in
  read (TTSCopilotConfig.voice (config_of h (Some initialConfig))) = Some lv ->
  TextProcessor.isValidForTTS (TextProcessor.parseText text) = true ->
  TTSEngine.voiceConfig (TTSCopilot.ttsEngine app) = given
  /\ (read (VoiceConfig.speed given) = None ->
      read (VoiceConfig.voice given) = None ->
      TTSCopilot.backend_log (snd (TTSCopilot.speakText backend text app))
      = [say.speak (TextProcessor.parseText text) None (of_Z 1)]).
Proof.
  cbv zeta. intros Hv Hvalid.
  destruct (isValidForTTS_true _ Hvalid) as [Ht _].
  pose proof (app_constructor_eq (Some initialConfig) h) as Hc.
  rewrite constructor_eq in Hc. rewrite Hc. clear Hc.
  assert (E : observed_voice
                (ConfigManager.mk (fresh (dom (configs h))))
                (mkHeap (voices h) (copilots h)
                   (<[fresh (dom (configs h)) :=
                        TTSCopilotConfig.spread (config_of h (Some DEFAULT_CONFIG))
                          (config_of h (Some initialConfig))]> (configs h)))
              = voice_of h (Some lv)).
  { rewrite observed_voice_eq. cbn [ConfigManager.config].
    rewrite config_of_insert. unfold TTSCopilotConfig.spread.
    cbn [TTSCopilotConfig.voice].
    destruct (TTSCopilotConfig.voice (config_of h (Some initialConfig)))
      as [| |x]; try discriminate.
    cbn in Hv. inversion Hv. subst x. reflexivity. }
  rewrite E. cbn [TTSCopilot.ttsEngine TTSEngine.constructor TTSEngine.voiceConfig].
  split; [reflexivity|]. intros Hs Hn.
  unfold TTSCopilot.speakText. rewrite Hvalid. cbn [negb].
  unfold TTSCopilot.on_engine, zoom.
  rewrite (speak_eq backend _ _ Ht). cbv zeta. rewrite stop_eq.
  unfold TTSEngine.constructor, TTSCopilot.engine_world.
  cbn [TTSCopilot.engine_world TTSCopilot.ttsEngine TTSCopilot.backend_log
       TTSEngine.this TTSEngine.log TTSEngine.currentProcess TTSEngine.voiceConfig
       say.truthy snd app].
  assert (E1 : speed_argument (voice_of h (Some lv)) = of_Z 1)
    by (unfold speed_argument; rewrite Hs; reflexivity).
  assert (E2 : voice_argument (voice_of h (Some lv)) = None)
    by (unfold voice_argument; rewrite Hn; reflexivity).
  rewrite E1, E2. destruct (say.speak_returns backend _); reflexivity.
Qed.

Lemma constructor_engine_gets_initial_voice_witness :
  TTSCopilot.backend_log
    (snd (TTSCopilot.speakText mock_backend (str "Hello")
            (TTSCopilot.constructor (Some (fst heap_with_initial))
               (snd heap_with_initial))))
  = [say.speak (str "Hello") None (of_Z 1)].
Proof.
  destruct (constructor_engine_gets_initial_voice mock_backend
              (fst heap_with_initial) (fresh (dom (voices module_heap)))
              (snd heap_with_initial) (str "Hello")) as [_ H];
    [vm_compute; reflexivity ..|].
  apply H; vm_compute; reflexivity.
Defined.
